(** * RAS monitoring daemon (RAS_FINAL.py): a shallow embedding

    The daemon samples the sensors of a recirculating aquaculture system,
    publishes the readings over HTTPS, appends them to a CSV log, raises
    threshold alerts and shuts the host down when the UPS battery is
    depleted.

    Modelling conventions.
    - A Python number is a [pynum]: an [int] is a [Z], a [float] is the
      exact rational it stands for (binary rounding error is abstracted).
    - A method is a computation in the monad [M]: it threads the object
      state and the I/O trace and either returns or raises.
    - The outside world is an [environment]: every external interaction
      is answered as a function of the trace so far and is recorded in
      the trace.  Logging through [logger] is not recorded. *)

From Stdlib Require Import ZArith QArith Qround Qabs String Ascii List Lia.
From Stdlib Require Import Sorting.Permutation Sorting.Sorted.
From stdpp Require Import base gmap strings pretty.
Import ListNotations.

Open Scope string_scope.
Open Scope list_scope.
Open Scope Z_scope.

(** ** Python numbers *)

(** A float is taken as the rational it stands for, and arithmetic on
    floats as exact.  The source computes on binary64 values, so where
    an exact result falls within one binary64 rounding error of a
    rounding tie, [round] and [statistics.mean] of the source can give
    the neighbouring value: [round(statistics.mean([7.21, 7.22]), 2)] is
    [7.21] there and [7.22] on rationals.  The properties below that
    involve rounding rely on its monotonicity and on the half unit it
    moves a value by, which hold in both; none fixes a rounded value at
    a tie. *)

Inductive pynum :=
| PyInt (z : Z)
| PyFloat (q : Q).

Definition py_to_Q (v : pynum) : Q :=
  match v with
  | PyInt z => inject_Z z
  | PyFloat q => q
  end.

(** [a < b], [a <= b], [a > b] on numbers. *)
Definition Qlt_bool (a b : Q) : bool := negb (Qle_bool b a).

Definition py_lt (a b : pynum) : bool := Qlt_bool (py_to_Q a) (py_to_Q b).
Definition py_le (a b : pynum) : bool := Qle_bool (py_to_Q a) (py_to_Q b).
Definition py_gt (a b : pynum) : bool := Qlt_bool (py_to_Q b) (py_to_Q a).

(** Truthiness of a number: zero is falsy. *)
Definition py_truthy (v : pynum) : bool :=
  match v with
  | PyInt z => negb (z =? 0)
  | PyFloat q => negb (Qeq_bool q 0)
  end.

(** [round(q)] to the nearest integer, ties to even, on the exact
    value. *)
Definition round_half_even (q : Q) : Z :=
  let f := Qfloor q in
  match Qcompare (q - inject_Z f) (1 # 2) with
  | Lt => f
  | Gt => f + 1
  | Eq => if Z.even f then f else f + 1
  end.

(** [round(q, ndigits)] on a float, on the exact value: the nearest
    multiple of [10 ^ -ndigits], ties to even. *)
Definition py_round (q : Q) (ndigits : nat) : Q :=
  let p := Z.to_pos (10 ^ Z.of_nat ndigits) in
  Qred (round_half_even (q * inject_Z (Z.pos p)) # p).

(** The fractional digits of [r / d] for [0 <= r < d], at most [fuel]
    of them, stopping when the expansion ends. *)
Fixpoint frac_digits (fuel : nat) (r d : Z) : string :=
  match fuel with
  | O => ""
  | S fuel' =>
      if r =? 0 then ""
      else pretty (r * 10 / d) +:+ frac_digits fuel' (r * 10 mod d) d
  end.

(** [str(x)] of a float that is a short decimal: the integer part, the
    point and the digits of the fraction, at least one. *)
Definition py_str_float (q : Q) : string :=
  let n := Qnum q in
  let d := Z.pos (Qden q) in
  let a := Z.abs n in
  let digits := frac_digits 17 (a mod d) d in
  (if n <? 0 then "-" else "") +:+ pretty (a / d) +:+ "." +:+
  (if String.eqb digits "" then "0" else digits).

Definition py_str (v : pynum) : string :=
  match v with
  | PyInt z => pretty z
  | PyFloat q => py_str_float q
  end.

(** [sep.join(parts)]. *)
Fixpoint join (sep : string) (parts : list string) : string :=
  match parts with
  | [] => ""
  | [p] => p
  | p :: rest => p +:+ sep +:+ join sep rest
  end.

(** ** Lists as Python has them *)

(** [list.sort()]: a stable ascending sort. *)
Fixpoint insert_sorted (x : Q) (l : list Q) : list Q :=
  match l with
  | [] => [x]
  | y :: l' => if Qle_bool x y then x :: l else y :: insert_sorted x l'
  end.

Fixpoint list_sort (l : list Q) : list Q :=
  match l with
  | [] => []
  | x :: l' => insert_sorted x (list_sort l')
  end.

(** A slice bound, as Python clamps it: a negative index counts from the
    end. *)
Definition slice_index (len i : Z) : Z :=
  if i <? 0 then Z.max (len + i) 0 else Z.min i len.

(** [l[start:stop]]. *)
Definition py_slice {A : Type} (l : list A) (start stop : Z) : list A :=
  let len := Z.of_nat (length l) in
  let lo := slice_index len start in
  let hi := slice_index len stop in
  firstn (Z.to_nat (hi - lo)) (skipn (Z.to_nat lo) l).

Definition Qsum (l : list Q) : Q := fold_right Qplus 0%Q l.

(** ** Exceptions and results *)

Inductive exn :=
| KeyError (key : string)
| StatisticsError
| SSLError
| ConnectionError
| Timeout
| OSError
| CalledProcessError
| ValueError
| RuntimeError.

Inductive res (A : Type) :=
| Ret (a : A)
| Raise (e : exn).
Arguments Ret {A} a.
Arguments Raise {A} e.

(** [statistics.mean(data)]: raises on an empty list; the exact mean,
    where the source returns the binary64 value nearest to it. *)
Definition statistics_mean (data : list Q) : res Q :=
  match data with
  | [] => Raise StatisticsError
  | _ => Ret (Qsum data / inject_Z (Z.of_nat (length data)))%Q
  end.

(** ** The world: events, environment, configuration, objects *)

Definition loc := positive.

(** A dict object with string keys holding numbers. *)
Abbreviation dict := (gmap string pynum).

(** A value passed as telemetry data: a number, or a reference to a dict
    object in the heap. *)
Inductive pyval :=
| VNum (n : pynum)
| VDict (l : loc).

Inductive loop_id := MeasureLoop | UPSLoop.

Definition handle := nat.

Inductive event :=
| EvSleep (seconds : Q)
| EvI2CRead (r : res Z)
| EvSysfsRead (path : string) (r : res Z)
| EvNotify (emergency : bool) (message : string)
| EvRun (cmd : list string) (r : res unit)
| EvPost (url : string) (payload : dict) (r : res Z)
| EvTemperature (r : res (option Q))
| EvVoltage (channel : nat) (r : res Q)
| EvEcho (r : res (option Q))
| EvAppend (line : string) (r : res unit)
| EvBackup (r : res unit)
| EvTimerStart (h : handle) (interval : pynum) (callback : loop_id)
| EvTimerCancel (h : handle).

(** What the outside world answers, given the trace so far. *)
Record environment := {
  (* SMBus(...).read_word_data(UPS_I2C_ADDR, UPS_BATTERY_REG) *)
  env_i2c_word : list event -> res Z;
  (* a capacity file: absent, or the outcome of reading and parsing it *)
  env_sysfs : list event -> string -> option (res Z);
  (* subprocess.run(cmd, check=True) *)
  env_run : list event -> list string -> res unit;
  (* session.post(...): the status code, or a transport exception *)
  env_post : list event -> string -> dict -> res Z;
  (* int(time.time() * 1000) *)
  env_time_ms : list event -> Z;
  (* datetime.now().strftime("%Y-%m-%d,%H:%M:%S") *)
  env_timestamp : list event -> string;
  (* DS18B20().get_temperature() *)
  env_temperature : list event -> res (option Q);
  (* AnalogIn(ads, channel).voltage *)
  env_voltage : list event -> nat -> res Q;
  (* the echo pulse: its duration, or absent on timeout *)
  env_echo : list event -> res (option Q);
  (* open(data_file, 'a').write(line) and shutil.copy *)
  env_append : list event -> string -> res unit;
  env_backup : list event -> res unit
}.

(** The module-level constants read from config.yaml and the
    environment variables. *)
Record config := {
  THINGSBOARD_URL : string;
  PUBLISH_INTERVAL : pynum;
  SAMPLE_COUNT : Z;
  DISCARD_COUNT : Z;
  UPS_CHECK_INTERVAL : pynum;
  UPS_SHUTDOWN_THRESHOLD : pynum;
  DEVICE_CREDENTIALS : gmap string (option string);
  ALERT_THRESHOLDS : gmap string pynum;
  temperature_offset : Q
}.

Record UPSMonitor := {
  shutdown_threshold : pynum;
  check_interval : pynum;
  shutdown_triggered : bool;
  last_battery_level : option Z
}.

(** [SensorMonitor.sensor_data]: a dict with these seven keys, in this
    order. *)
Record SensorData := {
  temperature : option pynum;
  pH : option pynum;
  conductivity : option pynum;
  level : option pynum;
  recirc_pump : option pynum;
  dispense_pump : option pynum;
  ups_battery : option pynum
}.

Record state := {
  ups_monitor : UPSMonitor;
  sensor_data : SensorData;
  _timer : option handle;
  _ups_timer : option handle;
  _running : bool;
  heap : gmap loc dict;
  trace : list event
}.

(** ** The monad of methods *)

Definition M (A : Type) : Type := state -> res A * state.

Definition ret {A} (a : A) : M A := fun s => (Ret a, s).

Definition raise {A} (e : exn) : M A := fun s => (Raise e, s).

Definition bind {A B} (m : M A) (k : A -> M B) : M B :=
  fun s =>
    match m s with
    | (Ret a, s') => k a s'
    | (Raise e, s') => (Raise e, s')
    end.

Declare Scope py_scope.
Delimit Scope py_scope with py.
Notation "x <- m ;; k" := (bind m (fun x => k))
  (at level 100, m at next level, right associativity) : py_scope.
Notation "m ;;; k" := (bind m (fun _ => k))
  (at level 100, right associativity) : py_scope.
Open Scope py_scope.

(** [try: body  except Exception as e: handler e]. *)
Definition try_except {A} (body : M A) (handler : exn -> M A) : M A :=
  fun s =>
    match body s with
    | (Ret a, s') => (Ret a, s')
    | (Raise e, s') => handler e s'
    end.

(** [try: body  finally: final]. *)
Definition try_finally {A} (body : M A) (final : M unit) : M A :=
  fun s =>
    match body s with
    | (r, s') =>
        match final s' with
        | (Ret _, s'') => (r, s'')
        | (Raise e, s'') => (Raise e, s'')
        end
    end.

Definition get : M state := fun s => (Ret s, s).

Definition modify (f : state -> state) : M unit := fun s => (Ret tt, f s).

Definition lift {A} (r : res A) : M A := fun s => (r, s).

Definition emit (e : event) : M unit :=
  modify (fun s =>
    {| ups_monitor := ups_monitor s; sensor_data := sensor_data s;
       _timer := _timer s; _ups_timer := _ups_timer s;
       _running := _running s; heap := heap s;
       trace := trace s ++ [e] |}).

Definition set_ups_monitor (u : UPSMonitor) : M unit :=
  modify (fun s =>
    {| ups_monitor := u; sensor_data := sensor_data s;
       _timer := _timer s; _ups_timer := _ups_timer s;
       _running := _running s; heap := heap s; trace := trace s |}).

Definition set_sensor_data (d : SensorData) : M unit :=
  modify (fun s =>
    {| ups_monitor := ups_monitor s; sensor_data := d;
       _timer := _timer s; _ups_timer := _ups_timer s;
       _running := _running s; heap := heap s; trace := trace s |}).

Definition set_timer (t : option handle) : M unit :=
  modify (fun s =>
    {| ups_monitor := ups_monitor s; sensor_data := sensor_data s;
       _timer := t; _ups_timer := _ups_timer s;
       _running := _running s; heap := heap s; trace := trace s |}).

Definition set_ups_timer (t : option handle) : M unit :=
  modify (fun s =>
    {| ups_monitor := ups_monitor s; sensor_data := sensor_data s;
       _timer := _timer s; _ups_timer := t;
       _running := _running s; heap := heap s; trace := trace s |}).

Definition set_running (b : bool) : M unit :=
  modify (fun s =>
    {| ups_monitor := ups_monitor s; sensor_data := sensor_data s;
       _timer := _timer s; _ups_timer := _ups_timer s;
       _running := b; heap := heap s; trace := trace s |}).

Definition set_heap (h : gmap loc dict) : M unit :=
  modify (fun s =>
    {| ups_monitor := ups_monitor s; sensor_data := sensor_data s;
       _timer := _timer s; _ups_timer := _ups_timer s;
       _running := _running s; heap := h; trace := trace s |}).

(** [time.sleep(seconds)]. *)
Definition sleep (seconds : Q) : M unit := emit (EvSleep seconds).

Definition nl : string := String "010"%char "".

Section Daemon.

Variable cfg : config.
Variable env : environment.

(** ** class UPSMonitor *)

Definition battery_paths : list string :=
  [ "/sys/class/power_supply/ups-battery/capacity";
    "/sys/class/power_supply/battery/capacity";
    "/sys/class/power_supply/ups/capacity" ].

(** The body of the outer [try] of [get_battery_level]: the word read
    over I2C, masked and clamped to 0..100. *)
Definition read_battery_i2c : M Z :=
  s <- get;;
  let r := env_i2c_word env (trace s) in
  emit (EvI2CRead r);;;
  data <- lift r;;
  let battery_level := Z.land data 255 in
  ret (Z.max 0 (Z.min 100 battery_level)).

(** The [for path in battery_paths] loop: the first path that exists is
    read and returned; [None] when the loop ends without a [return]. *)
Fixpoint read_battery_sysfs (paths : list string) : M (option Z) :=
  match paths with
  | [] => ret None
  | path :: rest =>
      s <- get;;
      match env_sysfs env (trace s) path with
      | None => read_battery_sysfs rest
      | Some r =>
          emit (EvSysfsRead path r);;;
          level <- lift r;;
          ret (Some level)
      end
  end.

Definition get_battery_level : M (option Z) :=
  try_except
    (battery_level <- read_battery_i2c;; ret (Some battery_level))
    (fun _ =>
       try_except (read_battery_sysfs battery_paths) (fun _ => ret None)).

(** [send_emergency_notification]: one POST to the paging service with
    priority 2; whatever the outcome, it is only logged. *)
Definition send_emergency_notification (message : string) : M unit :=
  emit (EvNotify true message).

(** [f"{self.last_battery_level}"]. *)
Definition str_level (l : option Z) : string :=
  match l with
  | Some z => pretty z
  | None => "None"
  end.

Definition set_shutdown_triggered (b : bool) : M unit :=
  s <- get;;
  let u := ups_monitor s in
  set_ups_monitor
    {| shutdown_threshold := shutdown_threshold u;
       check_interval := check_interval u;
       shutdown_triggered := b;
       last_battery_level := last_battery_level u |}.

Definition set_last_battery_level (l : option Z) : M unit :=
  s <- get;;
  let u := ups_monitor s in
  set_ups_monitor
    {| shutdown_threshold := shutdown_threshold u;
       check_interval := check_interval u;
       shutdown_triggered := shutdown_triggered u;
       last_battery_level := l |}.

(** [subprocess.run(cmd, check=True)]. *)
Definition subprocess_run (cmd : list string) : M unit :=
  s <- get;;
  let r := env_run env (trace s) cmd in
  emit (EvRun cmd r);;;
  lift r.

Definition shutdown_cmd : list string := ["sudo"; "shutdown"; "-h"; "now"].
Definition poweroff_cmd : list string := ["sudo"; "poweroff"].

Definition emergency_message (l : option Z) : string :=
  "EMERGENCY: RAS System shutting down due to low UPS battery (" +:+
  str_level l +:+ "%). System will power off in 30 seconds!".

Definition safe_shutdown : M unit :=
  s <- get;;
  if shutdown_triggered (ups_monitor s) then ret tt
  else
    set_shutdown_triggered true;;;
    s <- get;;
    try_except
      (send_emergency_notification
         (emergency_message (last_battery_level (ups_monitor s))))
      (fun _ => ret tt);;;
    sleep 30;;;
    try_except
      (subprocess_run shutdown_cmd)
      (fun _ => try_except (subprocess_run poweroff_cmd) (fun _ => ret tt)).

(** [ALERT_THRESHOLDS[key]]. *)
Definition threshold (key : string) : M pynum :=
  match ALERT_THRESHOLDS cfg !! key with
  | Some v => ret v
  | None => raise (KeyError key)
  end.

Definition warning_message (battery_level : Z) (limit : pynum) : string :=
  "UPS Battery low: " +:+ pretty battery_level +:+
  "%. System will shutdown at " +:+ py_str limit +:+ "%.".

Definition check_battery : M bool :=
  battery_level <- get_battery_level;;
  set_last_battery_level battery_level;;;
  match battery_level with
  | Some lvl =>
      s <- get;;
      let limit := shutdown_threshold (ups_monitor s) in
      if py_le (PyInt lvl) limit then
        safe_shutdown;;;
        ret false
      else
        low <- threshold "ups_battery_low";;
        if py_le (PyInt lvl) low then
          try_except
            (send_emergency_notification (warning_message lvl limit))
            (fun _ => ret tt);;;
          ret true
        else ret true
  | None => ret true
  end.

(** ** class ThingsBoardHTTPClient *)

(** [not token]: an unset or empty token is falsy. *)
Definition token_of (device_name : string) : option string :=
  match DEVICE_CREDENTIALS cfg !! device_name with
  | Some (Some token) => if String.eqb token "" then None else Some token
  | _ => None
  end.

(** [{device_name: data}]: a new dict object. *)
Definition new_dict (d : dict) : M loc :=
  s <- get;;
  let l := fresh (dom (heap s)) in
  set_heap (<[l := d]> (heap s));;;
  ret l.

(** [payload[key] = v] on the dict object at [l]. *)
Definition dict_setitem (l : loc) (key : string) (v : pynum) : M unit :=
  s <- get;;
  match heap s !! l with
  | Some d => set_heap (<[l := <[key := v]> d]> (heap s))
  | None => raise RuntimeError
  end.

Definition deref (l : loc) : M dict :=
  s <- get;;
  match heap s !! l with
  | Some d => ret d
  | None => raise RuntimeError
  end.

(** [self.session.post(url, data=json.dumps(payload), ...)]. *)
Definition session_post (url : string) (payload : dict) : M Z :=
  s <- get;;
  let r := env_post env (trace s) url payload in
  emit (EvPost url payload r);;;
  lift r.

Definition send_telemetry (device_name : string) (data : pyval) : M bool :=
  try_except
    (match token_of device_name with
     | None => ret false
     | Some token =>
         let url := THINGSBOARD_URL cfg +:+ "/api/v1/" +:+ token +:+ "/telemetry" in
         payload <-
           match data with
           | VDict l => ret l
           | VNum v => new_dict {[ device_name := v ]}
           end;;
         s <- get;;
         dict_setitem payload "ts" (PyInt (env_time_ms env (trace s)));;;
         body <- deref payload;;
         status_code <- session_post url body;;
         if (status_code =? 200) || (status_code =? 201) then ret true
         else ret false
     end)
    (fun e =>
       match e with
       | SSLError => ret false
       | ConnectionError => ret false
       | Timeout => ret false
       | _ => ret false
       end).

(** ** class SensorMonitor *)

(** The [for _ in range(samples)] loop of [get_filtered_sample]. *)
Fixpoint collect_readings (sensor_func : M (option Q)) (n : nat)
    (readings : list Q) : M (list Q) :=
  match n with
  | O => ret readings
  | S n' =>
      reading <- sensor_func;;
      let readings :=
        match reading with
        | Some r => readings ++ [r]
        | None => readings
        end in
      sleep 0.1;;;
      collect_readings sensor_func n' readings
  end.

Definition get_filtered_sample (sensor_func : M (option Q))
    (samples discard : Z) : M (option Q) :=
  try_except
    (readings <- collect_readings sensor_func (Z.to_nat samples) [];;
     if Z.of_nat (length readings) <? samples - discard * 2 then ret None
     else
       let readings := list_sort readings in
       let valid_samples :=
         if discard >? 0 then py_slice readings discard (- discard)
         else readings in
       mean <- lift (statistics_mean valid_samples);;
       ret (Some (py_round mean 2)))
    (fun _ => ret None).

(** [AnalogIn(self.ads, channel).voltage]. *)
Definition read_voltage (channel : nat) : M Q :=
  s <- get;;
  let r := env_voltage env (trace s) channel in
  emit (EvVoltage channel r);;;
  lift r.

Definition with_temperature (v : option pynum) (d : SensorData) : SensorData :=
  {| temperature := v; pH := pH d; conductivity := conductivity d;
     level := level d; recirc_pump := recirc_pump d;
     dispense_pump := dispense_pump d; ups_battery := ups_battery d |}.

Definition with_pH (v : option pynum) (d : SensorData) : SensorData :=
  {| temperature := temperature d; pH := v; conductivity := conductivity d;
     level := level d; recirc_pump := recirc_pump d;
     dispense_pump := dispense_pump d; ups_battery := ups_battery d |}.

Definition with_conductivity (v : option pynum) (d : SensorData) : SensorData :=
  {| temperature := temperature d; pH := pH d; conductivity := v;
     level := level d; recirc_pump := recirc_pump d;
     dispense_pump := dispense_pump d; ups_battery := ups_battery d |}.

Definition with_level (v : option pynum) (d : SensorData) : SensorData :=
  {| temperature := temperature d; pH := pH d; conductivity := conductivity d;
     level := v; recirc_pump := recirc_pump d;
     dispense_pump := dispense_pump d; ups_battery := ups_battery d |}.

Definition with_recirc_pump (v : option pynum) (d : SensorData) : SensorData :=
  {| temperature := temperature d; pH := pH d; conductivity := conductivity d;
     level := level d; recirc_pump := v;
     dispense_pump := dispense_pump d; ups_battery := ups_battery d |}.

Definition with_dispense_pump (v : option pynum) (d : SensorData) : SensorData :=
  {| temperature := temperature d; pH := pH d; conductivity := conductivity d;
     level := level d; recirc_pump := recirc_pump d;
     dispense_pump := v; ups_battery := ups_battery d |}.

Definition with_ups_battery (v : option pynum) (d : SensorData) : SensorData :=
  {| temperature := temperature d; pH := pH d; conductivity := conductivity d;
     level := level d; recirc_pump := recirc_pump d;
     dispense_pump := dispense_pump d; ups_battery := v |}.

(** [self.sensor_data[key] = v], one updater per key. *)
Definition store (upd : option pynum -> SensorData -> SensorData)
    (v : option pynum) : M unit :=
  s <- get;;
  set_sensor_data (upd v (sensor_data s)).

Definition ph_measurement : M (option Q) :=
  voltage <- read_voltage 0;;
  ret (Some (py_round (- 6.02987 * voltage + 21.91) 2)).

Definition measure_ph : M unit :=
  v <- get_filtered_sample ph_measurement (SAMPLE_COUNT cfg) (DISCARD_COUNT cfg);;
  store with_pH (PyFloat <$> v).

Definition conductivity_measurement : M (option Q) :=
  voltage <- read_voltage 1;;
  ret (Some (py_round (779.3 * voltage - 302.46) 0)).

Definition measure_conductivity : M unit :=
  v <- get_filtered_sample conductivity_measurement
         (SAMPLE_COUNT cfg) (DISCARD_COUNT cfg);;
  store with_conductivity (PyFloat <$> v).

Definition rpump_measurement : M (option Q) :=
  chan_voltage <- read_voltage 2;;
  let voltage := py_round chan_voltage 2 in
  ret (Some (py_round (Qabs (voltage - 2.57) * 6000) 0)).

Definition measure_rpump : M unit :=
  v <- get_filtered_sample rpump_measurement
         (SAMPLE_COUNT cfg) (DISCARD_COUNT cfg);;
  store with_recirc_pump (PyFloat <$> v).

Definition dpump_measurement : M (option Q) :=
  chan_voltage <- read_voltage 3;;
  let voltage := py_round chan_voltage 2 in
  ret (Some (py_round (Qabs (voltage - 2.56) * 4000) 0)).

Definition measure_dpump : M unit :=
  v <- get_filtered_sample dpump_measurement
         (SAMPLE_COUNT cfg) (DISCARD_COUNT cfg);;
  store with_dispense_pump (PyFloat <$> v).

(** The trigger pulse and the two busy-wait loops on the echo pin are
    one interaction: the pulse duration, or a timeout. *)
Definition level_measurement : M (option Q) :=
  sleep 0.1;;;
  sleep 0.00001;;;
  s <- get;;
  let r := env_echo env (trace s) in
  emit (EvEcho r);;;
  pulse <- lift r;;
  match pulse with
  | None => ret None
  | Some pulse_duration =>
      let dist := (83.0 - py_round (pulse_duration * 17150) 1)%Q in
      ret (Some (py_round (dist * 46.72) 0))
  end.

Definition measure_water_level : M unit :=
  v <- get_filtered_sample level_measurement
         (SAMPLE_COUNT cfg) (DISCARD_COUNT cfg);;
  store with_level (PyFloat <$> v).

Definition measure_temperature : M unit :=
  try_except
    (s <- get;;
     let r := env_temperature env (trace s) in
     emit (EvTemperature r);;;
     temp <- lift r;;
     match temp with
     | Some t =>
         store with_temperature
           (Some (PyFloat (py_round (t + temperature_offset cfg) 1)))
     | None => store with_temperature None
     end)
    (fun _ => store with_temperature None).

Definition measure_ups_battery : M (option Z) :=
  battery_level <- get_battery_level;;
  store with_ups_battery (PyInt <$> battery_level);;;
  ret battery_level.

(** [send_pushover_notification]: one POST with default priority; the
    outcome is only logged. *)
Definition send_pushover_notification (message : string) : M unit :=
  emit (EvNotify false message).

(** One [if value is not None: if value < low: ... elif value > high: ...]
    block of [check_alerts]; the high threshold is looked up only when
    the low test fails. *)
Definition check_two_sided (value : option pynum) (low_key high_key : string)
    (low_message high_message : pynum -> string) (alerts : list string)
    : M (list string) :=
  match value with
  | Some v =>
      low <- threshold low_key;;
      if py_lt v low then ret (alerts ++ [low_message v])
      else
        high <- threshold high_key;;
        if py_gt v high then ret (alerts ++ [high_message v])
        else ret alerts
  | None => ret alerts
  end.

(** One [if value is not None: if value `cmp` low: ...] block. *)
Definition check_one_sided (cmp : pynum -> pynum -> bool)
    (value : option pynum) (low_key : string)
    (low_message : pynum -> string) (alerts : list string)
    : M (list string) :=
  match value with
  | Some v =>
      low <- threshold low_key;;
      if cmp v low then ret (alerts ++ [low_message v]) else ret alerts
  | None => ret alerts
  end.

Definition degree : string := String "194"%char (String "176"%char "").

Definition temperature_low_message (v : pynum) : string :=
  "Temperature low: " +:+ py_str v +:+ degree +:+ "C".
Definition temperature_high_message (v : pynum) : string :=
  "Temperature high: " +:+ py_str v +:+ degree +:+ "C".
Definition ph_low_message (v : pynum) : string := "pH low: " +:+ py_str v.
Definition ph_high_message (v : pynum) : string := "pH high: " +:+ py_str v.
Definition level_low_message (v : pynum) : string :=
  "Water level low: " +:+ py_str v +:+ "L".
Definition level_high_message (v : pynum) : string :=
  "Water level high: " +:+ py_str v +:+ "L".
Definition recirc_low_message (v : pynum) : string :=
  "Recirc pump current low: " +:+ py_str v +:+ "RPM".
Definition dispense_low_message (v : pynum) : string :=
  "Dispense pump current low: " +:+ py_str v +:+ "RPM".
Definition ups_low_message (v : pynum) : string :=
  "UPS Battery low: " +:+ py_str v +:+ "%".

(** [check_alerts] returns nothing in the source; the model returns the
    local list [alerts] so that it can be observed. *)
Definition check_alerts : M (list string) :=
  s <- get;;
  let d := sensor_data s in
  let alerts := [] in
  alerts <- check_two_sided (temperature d) "temp_low" "temp_high"
              temperature_low_message temperature_high_message alerts;;
  alerts <- check_two_sided (pH d) "ph_low" "ph_high"
              ph_low_message ph_high_message alerts;;
  alerts <- check_two_sided (level d) "level_low" "level_high"
              level_low_message level_high_message alerts;;
  alerts <- check_one_sided py_lt (recirc_pump d) "pump_current_low"
              recirc_low_message alerts;;
  alerts <- check_one_sided py_lt (dispense_pump d) "pump_current_low"
              dispense_low_message alerts;;
  alerts <- check_one_sided py_le (ups_battery d) "ups_battery_low"
              ups_low_message alerts;;
  match alerts with
  | [] => ret alerts
  | _ =>
      let alert_message := "RAS Alerts:" +:+ nl +:+ join nl alerts in
      send_pushover_notification alert_message;;;
      ret alerts
  end.

(** [str(value or "")]: a falsy value is replaced by the empty string. *)
Definition or_empty (value : option pynum) : string :=
  match value with
  | Some v => if py_truthy v then py_str v else ""
  | None => ""
  end.

Definition csv_fields (d : SensorData) : list string :=
  [ or_empty (temperature d); or_empty (pH d); or_empty (conductivity d);
    or_empty (level d); or_empty (recirc_pump d);
    or_empty (dispense_pump d); or_empty (ups_battery d) ].

Definition log_data : M unit :=
  try_except
    (s <- get;;
     let timestamp := env_timestamp env (trace s) in
     let data := csv_fields (sensor_data s) in
     let csv_line := timestamp +:+ "," +:+ join "," data +:+ nl in
     let r := env_append env (trace s) csv_line in
     emit (EvAppend csv_line r);;;
     lift r;;;
     s <- get;;
     let r := env_backup env (trace s) in
     emit (EvBackup r);;;
     lift r)
    (fun _ => ret tt).

(** [self.sensor_data.items()], in insertion order. *)
Definition items (d : SensorData) : list (string * option pynum) :=
  [ ("temperature", temperature d); ("pH", pH d);
    ("conductivity", conductivity d); ("level", level d);
    ("recirc_pump", recirc_pump d); ("dispense_pump", dispense_pump d);
    ("ups_battery", ups_battery d) ].

(** The loop of [publish_data]; it returns [(success_count, total_sensors)]. *)
Fixpoint publish_loop (l : list (string * option pynum))
    (success_count total_sensors : Z) : M (Z * Z) :=
  match l with
  | [] => ret (success_count, total_sensors)
  | (sensor_name, value) :: rest =>
      match value with
      | Some v =>
          let total_sensors := total_sensors + 1 in
          success <- send_telemetry sensor_name (VNum v);;
          let success_count :=
            if (success : bool) then success_count + 1 else success_count in
          sleep 0.5;;;
          publish_loop rest success_count total_sensors
      | None => publish_loop rest success_count total_sensors
      end
  end.

Definition publish_data : M unit :=
  try_except
    (s <- get;;
     publish_loop (items (sensor_data s)) 0 0;;;
     ret tt)
    (fun _ => ret tt).

(** [Timer(interval, callback)]: the handle is the length of the trace
    when the timer is made, so no two timers share one. *)
Definition new_timer : M handle :=
  s <- get;;
  ret (length (trace s)).

Definition timer_start (h : handle) (interval : pynum) (callback : loop_id)
    : M unit :=
  emit (EvTimerStart h interval callback).

Definition timer_cancel (h : handle) : M unit := emit (EvTimerCancel h).

Definition stop : M unit :=
  set_running false;;;
  s <- get;;
  match _timer s with
  | Some h => timer_cancel h
  | None => ret tt
  end;;;
  match _ups_timer s with
  | Some h => timer_cancel h
  | None => ret tt
  end.

(** The [try] block of [ups_monitoring_cycle]. *)
Definition ups_cycle_body : M unit :=
  battery_ok <- check_battery;;
  if negb battery_ok then stop else ret tt.

Definition ups_monitoring_cycle : M unit :=
  s <- get;;
  if negb (_running s) then ret tt
  else
    try_finally
      (try_except ups_cycle_body (fun _ => ret tt))
      (s <- get;;
       if _running s then
         h <- new_timer;;
         set_ups_timer (Some h);;;
         timer_start h (UPS_CHECK_INTERVAL cfg) UPSLoop
       else ret tt).

(** The [try] block of [collect_and_publish]. *)
Definition collect_cycle_body : M unit :=
  measure_temperature;;;
  measure_ph;;;
  measure_conductivity;;;
  measure_rpump;;;
  measure_dpump;;;
  measure_water_level;;;
  measure_ups_battery;;;
  publish_data;;;
  log_data;;;
  check_alerts;;;
  ret tt.

Definition collect_and_publish : M unit :=
  s <- get;;
  if negb (_running s) then ret tt
  else
    try_finally
      (try_except collect_cycle_body (fun _ => ret tt))
      (s <- get;;
       if _running s then
         h <- new_timer;;
         set_timer (Some h);;;
         timer_start h (PUBLISH_INTERVAL cfg) MeasureLoop
       else ret tt).

Definition run : M unit :=
  set_running true;;;
  collect_and_publish;;;
  ups_monitoring_cycle.

End Daemon.

(** ** Observing runs *)

(** The state after [SensorMonitor.__init__]. *)
Definition initial_state (cfg : config) : state :=
  {| ups_monitor :=
       {| shutdown_threshold := UPS_SHUTDOWN_THRESHOLD cfg;
          check_interval := UPS_CHECK_INTERVAL cfg;
          shutdown_triggered := false;
          last_battery_level := Some 100 |};
     sensor_data :=
       {| temperature := None; pH := None; conductivity := None;
          level := None; recirc_pump := None; dispense_pump := None;
          ups_battery := None |};
     _timer := None; _ups_timer := None; _running := false;
     heap := ∅; trace := [] |}.

(** The state [s] with its trace replaced. *)
Definition with_trace (t : list event) (s : state) : state :=
  {| ups_monitor := ups_monitor s; sensor_data := sensor_data s;
     _timer := _timer s; _ups_timer := _ups_timer s;
     _running := _running s; heap := heap s; trace := t |}.

(** The events a computation adds to the trace of [s]. *)
Definition new_events {A} (m : M A) (s : state) : list event :=
  skipn (length (trace s)) (trace (snd (m s))).

Definition count_events (p : event -> bool) (t : list event) : nat :=
  length (List.filter p t).

Definition list_string_eqb (a b : list string) : bool :=
  bool_decide (a = b).

(** The three steps of the shutdown sequence, as events. *)
Definition is_emergency_notice (e : event) : bool :=
  match e with
  | EvNotify true message => String.prefix "EMERGENCY:" message
  | _ => false
  end.

Definition is_grace_wait (e : event) : bool :=
  match e with
  | EvSleep seconds => Qeq_bool seconds 30
  | _ => false
  end.

Definition is_shutdown_command (e : event) : bool :=
  match e with
  | EvRun cmd _ => list_string_eqb cmd shutdown_cmd
  | _ => false
  end.

Definition is_poweroff_command (e : event) : bool :=
  match e with
  | EvRun cmd _ => list_string_eqb cmd poweroff_cmd
  | _ => false
  end.

Definition is_shutdown_event (e : event) : bool :=
  is_emergency_notice e || is_grace_wait e ||
  is_shutdown_command e || is_poweroff_command e.

Definition is_notification (e : event) : bool :=
  match e with
  | EvNotify _ _ => true
  | _ => false
  end.

Definition is_timer_start (e : event) : bool :=
  match e with
  | EvTimerStart _ _ _ => true
  | _ => false
  end.

(** A call on the UPS guard: a battery check, or the shutdown routine
    itself.  An exception that escapes a call is dropped, as the caller
    [ups_monitoring_cycle] does. *)
Inductive ups_call := CallCheck | CallShutdown.

Definition do_call (cfg : config) (env : environment) (c : ups_call)
    (s : state) : state :=
  match c with
  | CallCheck => snd (check_battery cfg env s)
  | CallShutdown => snd (safe_shutdown env s)
  end.

Fixpoint do_calls (cfg : config) (env : environment) (cs : list ups_call)
    (s : state) : state :=
  match cs with
  | [] => s
  | c :: cs' => do_calls cfg env cs' (do_call cfg env c s)
  end.

(** The value of [shutdown_triggered] after each call of a sequence. *)
Fixpoint flag_history (cfg : config) (env : environment)
    (cs : list ups_call) (s : state) : list bool :=
  match cs with
  | [] => []
  | c :: cs' =>
      let s' := do_call cfg env c s in
      shutdown_triggered (ups_monitor s') :: flag_history cfg env cs' s'
  end.

(** How often a sequence of flag values goes from [a] to [b]. *)
Fixpoint flips (a b : bool) (l : list bool) : nat :=
  match l with
  | x :: ((y :: _) as l') =>
      (if Bool.eqb x a && Bool.eqb y b then 1 else 0)%nat + flips a b l'
  | _ => O
  end.

(** An environment that answers the I2C reads and the POSTs from
    scripts, one entry per call, in which every command succeeds or
    every command fails, and no sensor answers. *)
Definition is_i2c_read (e : event) : bool :=
  match e with
  | EvI2CRead _ => true
  | _ => false
  end.

Definition scripted_env (words : list (res Z)) (run_ok : bool)
    (statuses : list (res Z)) : environment :=
  {| env_i2c_word := fun t => nth (count_events is_i2c_read t) words (Raise OSError);
     env_sysfs := fun _ _ => None;
     env_run := fun _ _ => if run_ok then Ret tt else Raise CalledProcessError;
     env_post := fun t _ _ =>
       nth (count_events (fun e => match e with EvPost _ _ _ => true | _ => false end) t)
           statuses (Raise ConnectionError);
     env_time_ms := fun t => 1700000000000 + Z.of_nat (length t);
     env_timestamp := fun _ => "2024-05-01,12:00:00";
     env_temperature := fun _ => Ret None;
     env_voltage := fun _ _ => Raise OSError;
     env_echo := fun _ => Ret None;
     env_append := fun _ _ => Ret tt;
     env_backup := fun _ => Ret tt |}.

(** A configuration with the thresholds of the scenarios. *)
Definition scenario_thresholds : gmap string pynum :=
  <[ "temp_low" := PyInt 18 ]> (<[ "temp_high" := PyInt 28 ]>
  (<[ "ph_low" := PyInt 6 ]> (<[ "ph_high" := PyInt 8 ]>
  (<[ "level_low" := PyInt 100 ]> (<[ "level_high" := PyInt 1000 ]>
  (<[ "pump_current_low" := PyInt 50 ]>
  (<[ "ups_battery_low" := PyInt 25 ]> ∅))))))).

Definition scenario_cfg : config :=
  {| THINGSBOARD_URL := "https://tb.example.org";
     PUBLISH_INTERVAL := PyInt 300;
     SAMPLE_COUNT := 7;
     DISCARD_COUNT := 1;
     UPS_CHECK_INTERVAL := PyInt 60;
     UPS_SHUTDOWN_THRESHOLD := PyInt 20;
     DEVICE_CREDENTIALS :=
       <[ "temperature" := Some "tok-temp" ]>
       (<[ "pH" := Some "tok-ph" ]> (<[ "level" := None ]> ∅));
     ALERT_THRESHOLDS := scenario_thresholds;
     temperature_offset := 0 |}.

(** The events between two states of one run. *)
Definition events_since (s s' : state) : list event :=
  skipn (length (trace s)) (trace s').

Definition is_battery_read (e : event) : bool :=
  match e with
  | EvI2CRead _ | EvSysfsRead _ _ => true
  | _ => false
  end.

(** The events of one execution of the shutdown sequence: [r1] is the
    outcome of the shutdown command, [r2] that of the fallback. *)
Definition shutdown_events (l : option Z) (r1 r2 : res unit) : list event :=
  [EvNotify true (emergency_message l); EvSleep 30; EvRun shutdown_cmd r1] ++
  match r1 with
  | Ret _ => []
  | Raise _ => [EvRun poweroff_cmd r2]
  end.

(** No event of the shutdown sequence among [evs]. *)
Definition quiet (evs : list event) : Prop :=
  Forall (fun e => is_shutdown_event e = false) evs.

(** ** Observing a sampling batch *)

(** What successive invocations of [sensor_func] answer, with the
    settling delay after each, up to [n] invocations or the first one
    that raises; and the state they leave. *)
Fixpoint sample_outcomes (sensor_func : M (option Q)) (n : nat) (s : state)
    : list (res (option Q)) * state :=
  match n with
  | O => ([], s)
  | S n' =>
      match sensor_func s with
      | (Ret r, s1) =>
          let (rest, s2) := sample_outcomes sensor_func n' (snd (sleep 0.1 s1)) in
          (Ret r :: rest, s2)
      | (Raise e, s1) => ([Raise e], s1)
      end
  end.

(** The non-absent readings among the raw ones. *)
Fixpoint present (raw : list (option Q)) : list Q :=
  match raw with
  | [] => []
  | Some r :: rest => r :: present rest
  | None :: rest => present rest
  end.

Definition is_echo (e : event) : bool :=
  match e with
  | EvEcho _ => true
  | _ => false
  end.

(** A measurement capability that answers from a script, one entry per
    invocation, and records each invocation in the trace. *)
Definition scripted_sensor (script : list (res (option Q))) : M (option Q) :=
  s <- get;;
  let r := nth (count_events is_echo (trace s)) script (Ret None) in
  emit (EvEcho r);;;
  lift r.

Definition blank_env : environment := scripted_env [] true [].

(** ** The alert rules, in the words of the specification *)

(** The sensor identifiers, in declaration order. *)
Inductive metric :=
| Temperature | PH | Conductivity | Level | RecircPump | DispensePump
| UPSBattery.

Definition sensor_order : list metric :=
  [Temperature; PH; Conductivity; Level; RecircPump; DispensePump; UPSBattery].

Definition value_of (d : SensorData) (m : metric) : option pynum :=
  match m with
  | Temperature => temperature d
  | PH => pH d
  | Conductivity => conductivity d
  | Level => level d
  | RecircPump => recirc_pump d
  | DispensePump => dispense_pump d
  | UPSBattery => ups_battery d
  end.

(** The configured bounds, by name. *)
Record bounds := {
  temp_low : pynum; temp_high : pynum;
  ph_low : pynum; ph_high : pynum;
  level_low : pynum; level_high : pynum;
  pump_current_low : pynum;
  ups_battery_low : pynum
}.

(** [ALERT_THRESHOLDS] holds the eight bounds [b]. *)
Definition configured (cfg : config) (b : bounds) : Prop :=
  ALERT_THRESHOLDS cfg !! "temp_low" = Some (temp_low b) /\
  ALERT_THRESHOLDS cfg !! "temp_high" = Some (temp_high b) /\
  ALERT_THRESHOLDS cfg !! "ph_low" = Some (ph_low b) /\
  ALERT_THRESHOLDS cfg !! "ph_high" = Some (ph_high b) /\
  ALERT_THRESHOLDS cfg !! "level_low" = Some (level_low b) /\
  ALERT_THRESHOLDS cfg !! "level_high" = Some (level_high b) /\
  ALERT_THRESHOLDS cfg !! "pump_current_low" = Some (pump_current_low b) /\
  ALERT_THRESHOLDS cfg !! "ups_battery_low" = Some (ups_battery_low b).

Definition below (v bound : pynum) : Prop := (py_to_Q v < py_to_Q bound)%Q.
Definition above (v bound : pynum) : Prop := (py_to_Q bound < py_to_Q v)%Q.

(** A value is within the bounds of its metric: between the two bounds
    of a two-sided metric, not below the bound of a pump current, and
    strictly above the bound of the UPS battery; conductivity has no
    bound. *)
Definition within (b : bounds) (m : metric) (v : pynum) : Prop :=
  match m with
  | Temperature => ~ below v (temp_low b) /\ ~ above v (temp_high b)
  | PH => ~ below v (ph_low b) /\ ~ above v (ph_high b)
  | Level => ~ below v (level_low b) /\ ~ above v (level_high b)
  | Conductivity => True
  | RecircPump => ~ below v (pump_current_low b)
  | DispensePump => ~ below v (pump_current_low b)
  | UPSBattery => above v (ups_battery_low b)
  end.

(** The reading of "within bounds" that treats every low bound alike:
    a value equal to its low bound is within. *)
Definition within_inclusive (b : bounds) (m : metric) (v : pynum) : Prop :=
  match m with
  | UPSBattery => ~ below v (ups_battery_low b)
  | _ => within b m v
  end.

(** The alert of one metric for a present value: low before high. *)
Definition metric_alert (b : bounds) (m : metric) (v : pynum) : option string :=
  match m with
  | Temperature =>
      if py_lt v (temp_low b) then Some (temperature_low_message v)
      else if py_gt v (temp_high b) then Some (temperature_high_message v)
      else None
  | PH =>
      if py_lt v (ph_low b) then Some (ph_low_message v)
      else if py_gt v (ph_high b) then Some (ph_high_message v)
      else None
  | Conductivity => None
  | Level =>
      if py_lt v (level_low b) then Some (level_low_message v)
      else if py_gt v (level_high b) then Some (level_high_message v)
      else None
  | RecircPump =>
      if py_lt v (pump_current_low b) then Some (recirc_low_message v) else None
  | DispensePump =>
      if py_lt v (pump_current_low b) then Some (dispense_low_message v)
      else None
  | UPSBattery =>
      if py_le v (ups_battery_low b) then Some (ups_low_message v) else None
  end.

(** What a snapshot reports for a metric: nothing when the value is
    absent. *)
Definition reported (b : bounds) (d : SensorData) (m : metric) : option string :=
  match value_of d m with
  | Some v => metric_alert b m v
  | None => None
  end.

(** The alerts of a snapshot: one pass over the metrics in declaration
    order. *)
Fixpoint alerts_in_order (b : bounds) (d : SensorData) (ms : list metric)
    : list string :=
  match ms with
  | [] => []
  | m :: rest =>
      match reported b d m with
      | Some message => message :: alerts_in_order b d rest
      | None => alerts_in_order b d rest
      end
  end.

Definition scenario_bounds : bounds :=
  {| temp_low := PyInt 18; temp_high := PyInt 28;
     ph_low := PyInt 6; ph_high := PyInt 8;
     level_low := PyInt 100; level_high := PyInt 1000;
     pump_current_low := PyInt 50; ups_battery_low := PyInt 25 |}.

Definition no_data : SensorData :=
  {| temperature := None; pH := None; conductivity := None; level := None;
     recirc_pump := None; dispense_pump := None; ups_battery := None |}.

(** The state after [__init__] with the snapshot [d] measured. *)
Definition with_data (d : SensorData) (cfg : config) : state :=
  snd (set_sensor_data d (initial_state cfg)).

(** ** Observing telemetry *)

(** No credential is configured for the device: the key is missing, its
    environment variable is unset, or the token is empty. *)
Definition no_credential (cfg : config) (device_name : string) : Prop :=
  DEVICE_CREDENTIALS cfg !! device_name = None \/
  DEVICE_CREDENTIALS cfg !! device_name = Some None \/
  DEVICE_CREDENTIALS cfg !! device_name = Some (Some "").

Definition has_credential (cfg : config) (device_name token : string) : Prop :=
  DEVICE_CREDENTIALS cfg !! device_name = Some (Some token) /\ token <> "".

(** The data argument refers to an object that exists. *)
Definition valid_data (s : state) (data : pyval) : Prop :=
  match data with
  | VNum _ => True
  | VDict l => is_Some (heap s !! l)
  end.

Definition telemetry_url (cfg : config) (token : string) : string :=
  THINGSBOARD_URL cfg +:+ "/api/v1/" +:+ token +:+ "/telemetry".

(** What [send_telemetry] returns for an outcome of the POST. *)
Definition accepted (r : res Z) : bool :=
  match r with
  | Ret status_code => (status_code =? 200) || (status_code =? 201)
  | Raise _ => false
  end.

(** The state after [__init__] with the dict objects [h] in the heap. *)
Definition with_heap (h : gmap loc dict) (cfg : config) : state :=
  snd (set_heap h (initial_state cfg)).

(** ** Observing the loops *)

(** A computation that starts no timer; when [keep] is set it also
    leaves [_running] as it found it. *)
Definition frame {A} (keep : bool) (m : M A) : Prop :=
  forall s,
    (keep = true -> _running (snd (m s)) = _running s) /\
    exists evs,
      trace (snd (m s)) = trace s ++ evs /\
      Forall (fun e => is_timer_start e = false) evs.

(** A sequence of timer callbacks, run one after the other. *)
Fixpoint run_callbacks (cfg : config) (env : environment)
    (callbacks : list loop_id) (s : state) : state :=
  match callbacks with
  | [] => s
  | MeasureLoop :: rest =>
      run_callbacks cfg env rest (snd (collect_and_publish cfg env s))
  | UPSLoop :: rest =>
      run_callbacks cfg env rest (snd (ups_monitoring_cycle cfg env s))
  end.

(** A configuration without alert thresholds, and a state in which the
    loops run. *)
Definition cfg_without_thresholds : config :=
  {| THINGSBOARD_URL := THINGSBOARD_URL scenario_cfg;
     PUBLISH_INTERVAL := PUBLISH_INTERVAL scenario_cfg;
     SAMPLE_COUNT := SAMPLE_COUNT scenario_cfg;
     DISCARD_COUNT := DISCARD_COUNT scenario_cfg;
     UPS_CHECK_INTERVAL := UPS_CHECK_INTERVAL scenario_cfg;
     UPS_SHUTDOWN_THRESHOLD := UPS_SHUTDOWN_THRESHOLD scenario_cfg;
     DEVICE_CREDENTIALS := DEVICE_CREDENTIALS scenario_cfg;
     ALERT_THRESHOLDS := ∅;
     temperature_offset := temperature_offset scenario_cfg |}.

Definition running_state (cfg : config) : state :=
  snd (set_running true (initial_state cfg)).

(** A snapshot with the recirculation pump stopped and the battery
    empty. *)
Definition stopped_pump_data : SensorData :=
  {| temperature := Some (PyFloat 21.5);
     pH := Some (PyFloat 7.2);
     conductivity := Some (PyFloat 410);
     level := Some (PyFloat 500);
     recirc_pump := Some (PyFloat 0);
     dispense_pump := Some (PyFloat 120);
     ups_battery := Some (PyInt 0) |}.

(** ** Further observations *)

(** The state [s] with the UPS monitor and the trace replaced. *)
Definition with_ups (u : UPSMonitor) (t : list event) (s : state) : state :=
  {| ups_monitor := u; sensor_data := sensor_data s;
     _timer := _timer s; _ups_timer := _ups_timer s;
     _running := _running s; heap := heap s; trace := t |}.

Definition is_timer_cancel (e : event) : bool :=
  match e with
  | EvTimerCancel _ => true
  | _ => false
  end.

Definition is_post (e : event) : bool :=
  match e with
  | EvPost _ _ _ => true
  | _ => false
  end.


(** The throttling delay of [publish_data]. *)
Definition is_throttle (e : event) : bool :=
  match e with
  | EvSleep seconds => Qeq_bool seconds 0.5
  | _ => false
  end.

(** The URL of a POST event. *)
Definition post_url (e : event) : option string :=
  match e with
  | EvPost url _ _ => Some url
  | _ => None
  end.

(** The cancellation of a timer handle, if there is one. *)
Definition cancel_of (h : option handle) : list event :=
  match h with
  | Some h => [EvTimerCancel h]
  | None => []
  end.

(** A computation that only adds events allowed by [allowed] to the
    trace. *)
Definition emits {A} (allowed : event -> bool) (m : M A) : Prop :=
  forall s, exists evs,
    trace (snd (m s)) = trace s ++ evs /\
    Forall (fun e => allowed e = true) evs.

(** The events of the UPS guard: battery reads, notifications, waits and
    commands. *)
Definition is_ups_event (e : event) : bool :=
  match e with
  | EvI2CRead _ | EvSysfsRead _ _ | EvNotify _ _ | EvSleep _ | EvRun _ _ =>
      true
  | _ => false
  end.

(** The events of the measurement phase of a cycle. *)
Definition is_measure_event (e : event) : bool :=
  match e with
  | EvTemperature _ | EvVoltage _ _ | EvEcho _ | EvSleep _
  | EvI2CRead _ | EvSysfsRead _ _ => true
  | _ => false
  end.

(** The events of [publish_data]. *)
Definition is_publish_event (e : event) : bool :=
  match e with
  | EvPost _ _ _ | EvSleep _ => true
  | _ => false
  end.

Definition is_timer_event (e : event) : bool :=
  is_timer_start e || is_timer_cancel e.

(** The seven measurements of a cycle, in the order of the source. *)
Definition measure_all (cfg : config) (env : environment) : M unit :=
  measure_temperature cfg env;;;
  measure_ph cfg env;;;
  measure_conductivity cfg env;;;
  measure_rpump cfg env;;;
  measure_dpump cfg env;;;
  measure_water_level cfg env;;;
  measure_ups_battery env;;;
  ret tt.

(** The URLs [publish_data] is to post to for a list of items: one per
    present value whose sensor has a token, in the order of the items. *)
Fixpoint publish_urls (cfg : config) (l : list (string * option pynum))
    : list string :=
  match l with
  | [] => []
  | (name, Some _) :: rest =>
      match token_of cfg name with
      | Some token => telemetry_url cfg token :: publish_urls cfg rest
      | None => publish_urls cfg rest
      end
  | (_, None) :: rest => publish_urls cfg rest
  end.

(** The URLs of the POSTs in a trace, in order. *)
Fixpoint post_urls (evs : list event) : list string :=
  match evs with
  | [] => []
  | e :: rest =>
      match post_url e with
      | Some url => url :: post_urls rest
      | None => post_urls rest
      end
  end.

(** How many items hold a value. *)
Fixpoint present_count (l : list (string * option pynum)) : nat :=
  match l with
  | [] => O
  | (_, Some _) :: rest => S (present_count rest)
  | (_, None) :: rest => present_count rest
  end.

(** A computation that never raises. *)
Definition returns {A} (m : M A) : Prop :=
  forall s, exists a, fst (m s) = Ret a.



(** A computation that leaves the record of the UPS guard alone. *)
Definition keeps_guard {A} (m : M A) : Prop :=
  forall s, ups_monitor (snd (m s)) = ups_monitor s.

(** What only the shutdown sequence does: a command, or a notification
    of emergency priority. *)
Definition is_guard_action (e : event) : bool :=
  match e with
  | EvRun _ _ => true
  | EvNotify emergency _ => emergency
  | _ => false
  end.

(** The environment [blank_env] with an echo that always answers with
    the pulse duration [d]. *)
Definition echo_env (d : Q) : environment :=
  {| env_i2c_word := env_i2c_word blank_env;
     env_sysfs := env_sysfs blank_env;
     env_run := env_run blank_env;
     env_post := env_post blank_env;
     env_time_ms := env_time_ms blank_env;
     env_timestamp := env_timestamp blank_env;
     env_temperature := env_temperature blank_env;
     env_voltage := env_voltage blank_env;
     env_echo := fun _ => Ret (Some d);
     env_append := env_append blank_env;
     env_backup := env_backup blank_env |}.



(** ** A loop with [stop()] on another thread *)

(** The callbacks run on timer threads, and [stop()] on another thread:
    the thread of the UPS loop when the battery is critical, or the main
    thread through [cleanup].  Nothing in the source is locked, so the
    threads can be switched between any two statements.  A call of a
    loop is followed from one statement to the next, and [stop()]
    likewise.  The [try] block with its [except] is one step: nothing in
    it reads or writes [_running] or the timers, but for the [stop()]
    the UPS loop itself calls, so where in the block a switch falls
    makes no difference to them. *)

Definition loop_call (cfg : config) (env : environment) (l : loop_id)
    : M unit :=
  match l with
  | MeasureLoop => collect_and_publish cfg env
  | UPSLoop => ups_monitoring_cycle cfg env
  end.

Definition loop_body (cfg : config) (env : environment) (l : loop_id)
    : M unit :=
  match l with
  | MeasureLoop => collect_cycle_body cfg env
  | UPSLoop => ups_cycle_body cfg env
  end.

(** [self._timer = ...] or [self._ups_timer = ...]. *)
Definition loop_set_handle (l : loop_id) : option handle -> M unit :=
  match l with
  | MeasureLoop => set_timer
  | UPSLoop => set_ups_timer
  end.

Definition loop_interval (cfg : config) (l : loop_id) : pynum :=
  match l with
  | MeasureLoop => PUBLISH_INTERVAL cfg
  | UPSLoop => UPS_CHECK_INTERVAL cfg
  end.

(** Where a call of a loop stands: before its entry guard
    [if not self._running: return], before its [try] block, before the
    test [if self._running] of its [finally] block, before the
    statement that makes and stores the timer, before [start()] on the
    timer just stored, or returned. *)
Inductive loop_point :=
| AtGuard
| AtBody
| AtTest
| AtCreate
| AtStart (h : handle)
| Returned.

Definition loop_step (cfg : config) (env : environment) (l : loop_id)
    (c : loop_point) (s : state) : loop_point * state :=
  match c with
  | AtGuard => (if negb (_running s) then Returned else AtBody, s)
  | AtBody =>
      (AtTest, snd (try_except (loop_body cfg env l) (fun _ => ret tt) s))
  | AtTest => (if _running s then AtCreate else Returned, s)
  | AtCreate =>
      match new_timer s with
      | (Ret h, s1) => (AtStart h, snd (loop_set_handle l (Some h) s1))
      | (Raise _, s1) => (Returned, s1)
      end
  | AtStart h => (Returned, snd (timer_start h (loop_interval cfg l) l s))
  | Returned => (Returned, s)
  end.

(** Where a call of [stop()] stands: before [self._running = False],
    before the cancellation of [_timer], before that of [_ups_timer], or
    returned. *)
Inductive stop_point :=
| AtFlag
| AtTimer
| AtUpsTimer
| Stopped.

Definition stop_step (p : stop_point) (s : state) : stop_point * state :=
  match p with
  | AtFlag => (AtTimer, snd (set_running false s))
  | AtTimer =>
      (AtUpsTimer,
       snd (match _timer s with
            | Some h => timer_cancel h
            | None => ret tt
            end s))
  | AtUpsTimer =>
      (Stopped,
       snd (match _ups_timer s with
            | Some h => timer_cancel h
            | None => ret tt
            end s))
  | Stopped => (Stopped, s)
  end.

(** The two threads, and a run of them under a schedule that says which
    thread executes its next statement. *)
Inductive thread := LoopThread | StopThread.

Definition threads : Type := loop_point * stop_point * state.

Definition loop_of (c : threads) : loop_point := fst (fst c).
Definition stop_of (c : threads) : stop_point := snd (fst c).
Definition state_of (c : threads) : state := snd c.

Definition thread_step (cfg : config) (env : environment) (l : loop_id)
    (t : thread) (c : threads) : threads :=
  match t with
  | LoopThread =>
      let (c', s') := loop_step cfg env l (loop_of c) (state_of c) in
      (c', stop_of c, s')
  | StopThread =>
      let (p', s') := stop_step (stop_of c) (state_of c) in
      (loop_of c, p', s')
  end.

Fixpoint interleave (cfg : config) (env : environment) (l : loop_id)
    (schedule : list thread) (c : threads) : threads :=
  match schedule with
  | [] => c
  | t :: rest => interleave cfg env l rest (thread_step cfg env l t c)
  end.

(** How many statements of the loop a schedule executes. *)
Fixpoint loop_steps (schedule : list thread) : nat :=
  match schedule with
  | [] => O
  | LoopThread :: rest => S (loop_steps rest)
  | StopThread :: rest => loop_steps rest
  end.

(** The test of the [finally] block has passed and the timer is due. *)
Definition arming (c : loop_point) : bool :=
  match c with
  | AtCreate | AtStart _ => true
  | _ => false
  end.

(** * Properties *)

(** ** The monad and the trace *)

Ltac run_monad :=
  cbv [bind ret raise get modify emit lift try_except try_finally sleep
       set_ups_monitor set_sensor_data set_timer set_ups_timer set_running
       set_heap set_shutdown_triggered set_last_battery_level
       send_emergency_notification send_pushover_notification
       subprocess_run new_timer timer_start timer_cancel with_trace];
  cbn [trace ups_monitor sensor_data _timer _ups_timer _running heap
       shutdown_triggered last_battery_level shutdown_threshold
       check_interval fst snd].

Lemma with_trace_id (s : state) : with_trace (trace s) s = s.
Proof. destruct s; reflexivity. Qed.

Lemma with_trace_app (s : state) (a b : list event) :
  with_trace (trace (with_trace (trace s ++ a) s) ++ b)
             (with_trace (trace s ++ a) s)
  = with_trace (trace s ++ (a ++ b)) s.
Proof. unfold with_trace; cbn. now rewrite app_assoc. Qed.

Section UPSFacts.

Variable cfg : config.
Variable env : environment.

Lemma read_battery_sysfs_trace (paths : list string) (s : state) :
  exists r evs,
    read_battery_sysfs env paths s = (r, with_trace (trace s ++ evs) s) /\
    Forall (fun e => is_battery_read e = true) evs.
Proof.
  induction paths as [|path rest IH]; cbn [read_battery_sysfs].
  - exists (Ret None), []. run_monad. rewrite app_nil_r.
    destruct s; auto.
  - run_monad. destruct (env_sysfs env (trace s) path) as [r|].
    + destruct r as [z|e]; eexists _, [_]; (split; [reflexivity | auto]).
    + apply IH.
Qed.

Lemma get_battery_level_trace (s : state) :
  exists r evs,
    get_battery_level env s = (Ret r, with_trace (trace s ++ evs) s) /\
    Forall (fun e => is_battery_read e = true) evs.
Proof.
  unfold get_battery_level, read_battery_i2c. run_monad.
  destruct (env_i2c_word env (trace s)) as [z|e] eqn:Hi.
  - eexists _, [_]. split; [reflexivity|]. auto.
  - set (s1 := {| trace := _ |}).
    destruct (read_battery_sysfs_trace battery_paths s1) as (r & evs & Hr & Hev).
    rewrite Hr. subst s1. cbn.
    destruct r as [l|e'].
    + exists l, (EvI2CRead (Raise e) :: evs). rewrite <- app_assoc. cbn.
      split; [reflexivity|]. constructor; auto.
    + exists None, (EvI2CRead (Raise e) :: evs). rewrite <- app_assoc. cbn.
      split; [reflexivity|]. constructor; auto.
Qed.

Lemma safe_shutdown_noop (s : state) :
  shutdown_triggered (ups_monitor s) = true ->
  safe_shutdown env s = (Ret tt, s).
Proof. intros H. unfold safe_shutdown. run_monad. now rewrite H. Qed.

Lemma safe_shutdown_first (s : state) :
  shutdown_triggered (ups_monitor s) = false ->
  exists r1 r2 s',
    safe_shutdown env s = (Ret tt, s') /\
    shutdown_triggered (ups_monitor s') = true /\
    last_battery_level (ups_monitor s') = last_battery_level (ups_monitor s) /\
    _running s' = _running s /\
    trace s' =
      trace s ++ shutdown_events (last_battery_level (ups_monitor s)) r1 r2.
Proof.
  intros H. unfold safe_shutdown. run_monad. rewrite H.
  match goal with |- context [env_run env ?t shutdown_cmd] =>
    destruct (env_run env t shutdown_cmd) as [[]|e1] eqn:H1 end.
  - eexists (Ret tt), (Ret tt), _. split; [reflexivity|]. cbn.
    repeat split. now rewrite <- !app_assoc.
  - match goal with |- context [env_run env ?t poweroff_cmd] =>
      destruct (env_run env t poweroff_cmd) as [[]|e2] eqn:H2 end;
    eexists (Raise e1), _, _; (split; [reflexivity|]); cbn;
    repeat split; now rewrite <- !app_assoc.
Qed.

Lemma warning_not_shutdown_event (l : Z) (limit : pynum) :
  is_shutdown_event (EvNotify true (warning_message l limit)) = false.
Proof. reflexivity. Qed.

Lemma battery_read_not_shutdown_event (e : event) :
  is_battery_read e = true -> is_shutdown_event e = false.
Proof. destruct e; cbn; congruence. Qed.

Lemma battery_reads_not_shutdown (evs : list event) :
  Forall (fun e => is_battery_read e = true) evs ->
  Forall (fun e => is_shutdown_event e = false) evs.
Proof.
  induction 1; constructor; auto using battery_read_not_shutdown_event.
Qed.

(** One battery check either leaves the flag alone and adds no event of
    the shutdown sequence, or raises the flag and adds the sequence
    once. *)
Lemma check_battery_step (s : state) :
  exists r evs s',
    check_battery cfg env s = (r, s') /\
    trace s' = trace s ++ evs /\
    _running s' = _running s /\
    ((shutdown_triggered (ups_monitor s')
        = shutdown_triggered (ups_monitor s) /\
      Forall (fun e => is_shutdown_event e = false) evs) \/
     (shutdown_triggered (ups_monitor s) = false /\
      shutdown_triggered (ups_monitor s') = true /\
      exists pre l r1 r2,
        evs = pre ++ shutdown_events l r1 r2 /\
        Forall (fun e => is_shutdown_event e = false) pre)).
Proof.
  destruct (get_battery_level_trace s) as (lvl & evs0 & Hg & Hev).
  apply battery_reads_not_shutdown in Hev.
  unfold check_battery. unfold bind at 1. rewrite Hg.
  run_monad.
  destruct lvl as [l|].
  2:{ eexists _, evs0, _. split; [reflexivity|]. cbn. repeat split. left; auto. }
  run_monad.
  destruct (py_le (PyInt l) (shutdown_threshold (ups_monitor s))) eqn:Hle;
    run_monad.
  - match goal with |- context [safe_shutdown env ?x] => set (s1 := x) end.
    destruct (shutdown_triggered (ups_monitor s)) eqn:Ht.
    + rewrite (safe_shutdown_noop s1) by (subst s1; cbn; auto).
      eexists _, evs0, _. split; [reflexivity|]. subst s1; cbn.
      repeat split. left; auto.
    + destruct (safe_shutdown_first s1) as (r1 & r2 & s' & Hs & Hf & _ & Hr & Htr);
        [subst s1; cbn; auto|].
      rewrite Hs. eexists _, (evs0 ++ _), s'. split; [reflexivity|].
      rewrite Htr, Hr. subst s1; cbn. rewrite <- app_assoc.
      repeat split. right. repeat split; auto.
      eexists evs0, _, r1, r2. split; [reflexivity|auto].
  - unfold threshold.
    destruct (ALERT_THRESHOLDS cfg !! "ups_battery_low") as [low|] eqn:Hlow;
      run_monad.
    + destruct (py_le (PyInt l) low) eqn:Hw; run_monad.
      * eexists _, (evs0 ++ [_]), _. split; [reflexivity|]. cbn.
        rewrite <- app_assoc. repeat split. left. split; auto.
        apply Forall_app; split; auto.
      * eexists _, evs0, _. split; [reflexivity|]. cbn. repeat split. left; auto.
    + eexists _, evs0, _. split; [reflexivity|]. cbn. repeat split. left; auto.
Qed.

Lemma count_events_app (p : event -> bool) (a b : list event) :
  count_events p (a ++ b) = (count_events p a + count_events p b)%nat.
Proof. unfold count_events. now rewrite List.filter_app, length_app. Qed.

Lemma count_events_none (p : event -> bool) (evs : list event) :
  (forall e, p e = true -> is_shutdown_event e = true) ->
  Forall (fun e => is_shutdown_event e = false) evs ->
  count_events p evs = 0%nat.
Proof.
  intros Hp. induction 1 as [|e evs He _ IH]; [reflexivity|].
  unfold count_events in *. cbn. destruct (p e) eqn:Hpe; [|exact IH].
  apply Hp in Hpe. congruence.
Qed.

Lemma count_shutdown_events (l : option Z) (r1 r2 : res unit) :
  count_events is_emergency_notice (shutdown_events l r1 r2) = 1%nat /\
  count_events is_grace_wait (shutdown_events l r1 r2) = 1%nat /\
  count_events is_shutdown_command (shutdown_events l r1 r2) = 1%nat.
Proof. destruct r1; repeat split; reflexivity. Qed.

Lemma events_since_app (s s' : state) (evs : list event) :
  trace s' = trace s ++ evs -> events_since s s' = evs.
Proof.
  unfold events_since. intros ->.
  induction (trace s) as [|e t IH]; [reflexivity | exact IH].
Qed.

Lemma do_call_step (c : ups_call) (s : state) :
  exists evs,
    trace (do_call cfg env c s) = trace s ++ evs /\
    ((shutdown_triggered (ups_monitor (do_call cfg env c s))
        = shutdown_triggered (ups_monitor s) /\ quiet evs) \/
     (shutdown_triggered (ups_monitor s) = false /\
      shutdown_triggered (ups_monitor (do_call cfg env c s)) = true /\
      exists pre l r1 r2,
        evs = pre ++ shutdown_events l r1 r2 /\ quiet pre)).
Proof.
  destruct c; cbn [do_call].
  - destruct (check_battery_step s) as (r & evs & s' & Hc & Ht & _ & H).
    rewrite Hc. cbn. exists evs. auto.
  - destruct (shutdown_triggered (ups_monitor s)) eqn:Hf.
    + rewrite safe_shutdown_noop by exact Hf. cbn. exists [].
      rewrite app_nil_r. split; [reflexivity|]. left. split; [exact Hf|].
      constructor.
    + destruct (safe_shutdown_first s Hf) as (r1 & r2 & s' & Hs & Hf' & _ & _ & Ht).
      rewrite Hs. cbn. eexists. split; [exact Ht|]. right.
      repeat split; auto. eexists [], _, r1, r2. split; [reflexivity|].
      constructor.
Qed.

Lemma flips_cons (x y a b : bool) (l : list bool) :
  flips x y (a :: b :: l)
  = ((if Bool.eqb a x && Bool.eqb b y then 1 else 0) + flips x y (b :: l))%nat.
Proof. reflexivity. Qed.

Lemma flips_all_true (x y : bool) (l : list bool) :
  Forall (eq true) l -> (x = false \/ y = false) ->
  flips x y (true :: l) = 0%nat.
Proof.
  intros Hl Hxy. induction l as [|b l IH]; [reflexivity|].
  inversion Hl as [|? ? Hb Hl']; subst.
  rewrite flips_cons, (IH Hl').
  destruct x, y; destruct Hxy; try discriminate; reflexivity.
Qed.

(** Once the flag is up, no call lowers it or adds an event of the
    shutdown sequence. *)
Lemma calls_after_trigger (cs : list ups_call) (s : state) :
  shutdown_triggered (ups_monitor s) = true ->
  exists evs,
    trace (do_calls cfg env cs s) = trace s ++ evs /\
    shutdown_triggered (ups_monitor (do_calls cfg env cs s)) = true /\
    quiet evs /\
    Forall (eq true) (flag_history cfg env cs s).
Proof.
  revert s. induction cs as [|c cs IH]; intros s Hf; cbn.
  - exists []. rewrite app_nil_r. repeat split; auto; constructor.
  - destruct (do_call_step c s) as (evs1 & Ht1 & [[Hf1 Hq1] | [Hf0 _]]);
      [|congruence].
    rewrite Hf in Hf1.
    destruct (IH _ Hf1) as (evs2 & Ht2 & Hf2 & Hq2 & Hh).
    exists (evs1 ++ evs2). rewrite Ht2, Ht1, <- app_assoc.
    repeat split; auto;
      try (apply Forall_app; split; assumption); try (constructor; auto).
Qed.

Lemma calls_invariant (cs : list ups_call) (s : state) :
  exists evs,
    trace (do_calls cfg env cs s) = trace s ++ evs /\
    (count_events is_emergency_notice evs <= 1)%nat /\
    (count_events is_grace_wait evs <= 1)%nat /\
    (count_events is_shutdown_command evs <= 1)%nat /\
    (flips false true
       (shutdown_triggered (ups_monitor s) :: flag_history cfg env cs s)
       <= 1)%nat /\
    flips true false
      (shutdown_triggered (ups_monitor s) :: flag_history cfg env cs s)
      = 0%nat.
Proof.
  assert (He : forall e, is_emergency_notice e = true -> is_shutdown_event e = true)
    by (intros e H; unfold is_shutdown_event; now rewrite H).
  assert (Hg : forall e, is_grace_wait e = true -> is_shutdown_event e = true)
    by (intros e H; unfold is_shutdown_event; rewrite H;
        now rewrite orb_true_r).
  assert (Hc : forall e, is_shutdown_command e = true -> is_shutdown_event e = true)
    by (intros e H; unfold is_shutdown_event; rewrite H;
        now rewrite !orb_true_r).
  revert s. induction cs as [|c cs IH]; intros s.
  - exists []. cbn. rewrite app_nil_r. repeat split; auto.
  - cbn [do_calls flag_history].
    destruct (do_call_step c s) as (evs1 & Ht1 & [[Hf1 Hq1] | (Hf0 & Hf1 & Hev)]).
    + destruct (IH (do_call cfg env c s)) as (evs2 & Ht2 & H1 & H2 & H3 & H4 & H5).
      exists (evs1 ++ evs2). rewrite Ht2, Ht1, <- app_assoc.
      split; [reflexivity|].
      rewrite !count_events_app, !(count_events_none _ evs1) by auto.
      rewrite !flips_cons. rewrite Hf1 in *.
      repeat split; auto.
      * destruct (shutdown_triggered (ups_monitor s)); exact H4.
      * destruct (shutdown_triggered (ups_monitor s)); exact H5.
    + destruct Hev as (pre & l & r1 & r2 & -> & Hq).
      destruct (calls_after_trigger cs _ Hf1) as (evs2 & Ht2 & _ & Hq2 & Hh).
      destruct (count_shutdown_events l r1 r2) as (C1 & C2 & C3).
      exists ((pre ++ shutdown_events l r1 r2) ++ evs2).
      rewrite Ht2, Ht1, <- !app_assoc. split; [reflexivity|].
      rewrite !count_events_app, !(count_events_none _ pre),
        !(count_events_none _ evs2), C1, C2, C3 by auto.
      rewrite !flips_cons, Hf0, Hf1.
      rewrite !flips_all_true by auto. cbn. repeat split; lia.
Qed.

End UPSFacts.

(** C1. Across any sequence of battery checks and direct calls of the
    shutdown routine, from any state: [shutdown_triggered] rises at most
    once and never falls; the emergency notification, the grace wait
    and the shutdown command each happen at most once; and once
    [safe_shutdown] has been called, every later call of it returns at
    once and changes nothing. *)
Theorem C1_shutdown_at_most_once (cfg : config) (env : environment)
    (cs later : list ups_call) (s : state) :
  let s' := do_calls cfg env cs s in
  let flags := shutdown_triggered (ups_monitor s) :: flag_history cfg env cs s in
  let after := do_calls cfg env later (do_call cfg env CallShutdown s) in
  (flips false true flags <= 1)%nat /\
  flips true false flags = 0%nat /\
  (count_events is_emergency_notice (events_since s s') <= 1)%nat /\
  (count_events is_grace_wait (events_since s s') <= 1)%nat /\
  (count_events is_shutdown_command (events_since s s') <= 1)%nat /\
  safe_shutdown env after = (Ret tt, after).
Proof.
  intros s' flags after.
  destruct (calls_invariant cfg env cs s) as (evs & Ht & H1 & H2 & H3 & H4 & H5).
  rewrite (events_since_app s s' evs Ht).
  repeat split; auto.
  apply safe_shutdown_noop.
  assert (Hf : shutdown_triggered (ups_monitor (do_call cfg env CallShutdown s)) = true).
  { cbn [do_call].
    destruct (shutdown_triggered (ups_monitor s)) eqn:Hf.
    - now rewrite safe_shutdown_noop.
    - destruct (safe_shutdown_first env s Hf) as (r1 & r2 & s1 & Hs & Hf' & _).
      now rewrite Hs. }
  destruct (calls_after_trigger cfg env later _ Hf) as (? & _ & Hf' & _).
  exact Hf'.
Qed.


(** ** The battery bands *)

Lemma skipn_length_app {A} (a b : list A) : skipn (length a) (a ++ b) = b.
Proof. induction a as [|x a IH]; [reflexivity | exact IH]. Qed.

Lemma battery_reads_not_notifications (evs : list event) :
  Forall (fun e => is_battery_read e = true) evs ->
  List.filter is_notification evs = [].
Proof.
  induction 1 as [|e evs He _ IH]; [reflexivity|].
  cbn. destruct e; cbn in *; try discriminate; exact IH.
Qed.

(** A reading above the shutdown threshold: the check records the
    level, warns when the reading is at or below the warning threshold,
    and returns [True]. *)
Lemma check_battery_above_eq (cfg : config) (env : environment) (s : state)
    (l : Z) (low : pynum) :
  fst (get_battery_level env s) = Ret (Some l) ->
  ALERT_THRESHOLDS cfg !! "ups_battery_low" = Some low ->
  py_le (PyInt l) (shutdown_threshold (ups_monitor s)) = false ->
  exists reads,
    Forall (fun e => is_battery_read e = true) reads /\
    check_battery cfg env s =
      (Ret true,
       with_trace
         (trace s ++ reads ++
          if py_le (PyInt l) low
          then [EvNotify true
                  (warning_message l (shutdown_threshold (ups_monitor s)))]
          else [])
         (snd (set_last_battery_level (Some l) s))).
Proof.
  intros Hl Hlow Hlim.
  destruct (get_battery_level_trace env s) as (lvl & evs0 & Hg & Hev).
  rewrite Hg in Hl. cbn in Hl. injection Hl as ->.
  exists evs0. split; [exact Hev|].
  unfold check_battery. unfold bind at 1. rewrite Hg.
  run_monad. rewrite Hlim. unfold threshold. rewrite Hlow. run_monad.
  destruct (py_le (PyInt l) low); run_monad.
  - now rewrite <- app_assoc.
  - now rewrite app_nil_r.
Qed.

Lemma check_battery_above (cfg : config) (env : environment) (s : state)
    (l : Z) (low : pynum) :
  fst (get_battery_level env s) = Ret (Some l) ->
  ALERT_THRESHOLDS cfg !! "ups_battery_low" = Some low ->
  py_le (PyInt l) (shutdown_threshold (ups_monitor s)) = false ->
  fst (check_battery cfg env s) = Ret true /\
  List.filter is_notification (new_events (check_battery cfg env) s) =
    if py_le (PyInt l) low
    then [EvNotify true (warning_message l (shutdown_threshold (ups_monitor s)))]
    else [].
Proof.
  intros Hl Hlow Hlim.
  destruct (check_battery_above_eq cfg env s l low Hl Hlow Hlim)
    as (reads & Hr & Heq).
  unfold new_events. rewrite Heq. cbn [fst snd with_trace trace].
  split; [reflexivity|].
  rewrite skipn_length_app, List.filter_app.
  rewrite (battery_reads_not_notifications reads Hr).
  now destruct (py_le (PyInt l) low).
Qed.

(** A reading at or below the shutdown threshold: the check records the
    level, calls [safe_shutdown] and returns [False]. *)
Lemma check_battery_critical_eq (cfg : config) (env : environment)
    (s : state) (l : Z) :
  fst (get_battery_level env s) = Ret (Some l) ->
  py_le (PyInt l) (shutdown_threshold (ups_monitor s)) = true ->
  exists reads,
    Forall (fun e => is_battery_read e = true) reads /\
    check_battery cfg env s =
      (Ret false,
       snd (safe_shutdown env
              (with_trace (trace s ++ reads)
                 (snd (set_last_battery_level (Some l) s))))).
Proof.
  intros Hl Hlim.
  destruct (get_battery_level_trace env s) as (lvl & evs0 & Hg & Hev).
  rewrite Hg in Hl. cbn in Hl. injection Hl as ->.
  exists evs0. split; [exact Hev|].
  unfold check_battery. unfold bind at 1. rewrite Hg.
  run_monad. rewrite Hlim. run_monad.
  match goal with |- context [safe_shutdown env ?x] => set (s1 := x) end.
  destruct (shutdown_triggered (ups_monitor s)) eqn:Ht.
  - now rewrite (safe_shutdown_noop env s1) by (subst s1; cbn; auto).
  - destruct (safe_shutdown_first env s1) as (r1 & r2 & s' & Hs & _);
      [subst s1; cbn; auto|].
    now rewrite Hs.
Qed.

(** The shutdown sequence runs in that check if the flag was down, and
    nothing but the battery read happens if it was up. *)
Lemma check_battery_critical (cfg : config) (env : environment) (s : state)
    (l : Z) :
  fst (get_battery_level env s) = Ret (Some l) ->
  py_le (PyInt l) (shutdown_threshold (ups_monitor s)) = true ->
  fst (check_battery cfg env s) = Ret false /\
  exists reads,
    Forall (fun e => is_battery_read e = true) reads /\
    if shutdown_triggered (ups_monitor s)
    then new_events (check_battery cfg env) s = reads
    else exists r1 r2,
      new_events (check_battery cfg env) s
      = reads ++ shutdown_events (Some l) r1 r2.
Proof.
  intros Hl Hlim.
  destruct (check_battery_critical_eq cfg env s l Hl Hlim)
    as (reads & Hr & Heq).
  unfold new_events. rewrite Heq. split; [reflexivity|].
  exists reads. split; [exact Hr|]. cbn [snd].
  set (s1 := with_trace _ _).
  destruct (shutdown_triggered (ups_monitor s)) eqn:Ht.
  - rewrite (safe_shutdown_noop env s1) by (subst s1; cbn; auto).
    subst s1; cbn. apply skipn_length_app.
  - destruct (safe_shutdown_first env s1) as (r1 & r2 & s' & Hs & _ & _ & _ & Htr);
      [subst s1; cbn; auto|].
    exists r1, r2. rewrite Hs. cbn [snd]. rewrite Htr. subst s1; cbn.
    rewrite <- app_assoc. apply skipn_length_app.
Qed.

Lemma py_le_true (a b : pynum) :
  py_le a b = true <-> (py_to_Q a <= py_to_Q b)%Q.
Proof. apply Qle_bool_iff. Qed.

Lemma py_le_false (a b : pynum) :
  py_le a b = false <-> (py_to_Q b < py_to_Q a)%Q.
Proof.
  unfold py_le. rewrite <- not_true_iff_false, Qle_bool_iff.
  split; [apply Qnot_le_lt | apply Qlt_not_le].
Qed.

(** C4, as the code has it.  With the warning threshold 25 and the
    shutdown threshold 20, the readings 55, 30, 18 give: nothing on the
    first check, nothing on the second (30 is above 25), and on the third
    the shutdown sequence once, the check returning [False].  In general
    a reading above the shutdown threshold returns [True]; it sends one
    warning, on every such check, when it is at or below the warning
    threshold and none when it is above. *)
Theorem C4_battery_bands :
  (let env := scripted_env [Ret 55; Ret 30; Ret 18] true [] in
   let s0 := initial_state scenario_cfg in
   let s1 := snd (check_battery scenario_cfg env s0) in
   let s2 := snd (check_battery scenario_cfg env s1) in
   let s3 := snd (check_battery scenario_cfg env s2) in
   fst (check_battery scenario_cfg env s0) = Ret true /\
   events_since s0 s1 = [EvI2CRead (Ret 55)] /\
   fst (check_battery scenario_cfg env s1) = Ret true /\
   events_since s1 s2 = [EvI2CRead (Ret 30)] /\
   fst (check_battery scenario_cfg env s2) = Ret false /\
   events_since s2 s3 =
     EvI2CRead (Ret 18) :: shutdown_events (Some 18) (Ret tt) (Ret tt)) /\
  (forall (cfg : config) (env : environment) (s : state) (l : Z) (low : pynum),
     fst (get_battery_level env s) = Ret (Some l) ->
     ALERT_THRESHOLDS cfg !! "ups_battery_low" = Some low ->
     (py_to_Q (shutdown_threshold (ups_monitor s)) < inject_Z l)%Q ->
     fst (check_battery cfg env s) = Ret true /\
     ((inject_Z l <= py_to_Q low)%Q ->
      List.filter is_notification (new_events (check_battery cfg env) s) =
        [EvNotify true
           (warning_message l (shutdown_threshold (ups_monitor s)))]) /\
     ((py_to_Q low < inject_Z l)%Q ->
      List.filter is_notification (new_events (check_battery cfg env) s) = [])).
Proof.
  split.
  - vm_compute. repeat split; reflexivity.
  - intros cfg env s l low Hl Hlow Hlim.
    apply (py_le_false (PyInt l)) in Hlim.
    destruct (check_battery_above cfg env s l low Hl Hlow Hlim) as [Hr Hn].
    split; [exact Hr|]. split; intros Hb.
    + apply (py_le_true (PyInt l)) in Hb. now rewrite Hb in Hn.
    + apply (py_le_false (PyInt l)) in Hb. now rewrite Hb in Hn.
Qed.

(** The band between the thresholds is not empty: a reading of 23 warns. *)
Lemma C4_battery_bands_witness :
  let env := scripted_env [Ret 23] true [] in
  let s := initial_state scenario_cfg in
  fst (check_battery scenario_cfg env s) = Ret true /\
  List.filter is_notification (new_events (check_battery scenario_cfg env) s)
  = [EvNotify true "UPS Battery low: 23%. System will shutdown at 20%."].
Proof.
  intros env s.
  destruct C4_battery_bands as [_ H].
  destruct (H scenario_cfg env s 23 (PyInt 25)) as (Hr & Hw & _).
  - reflexivity.
  - reflexivity.
  - reflexivity.
  - split; [exact Hr|]. apply Hw. vm_compute. discriminate.
Defined.

(** C4 as stated fails: on the second check the reading is 30, above the
    warning threshold 25, and no notification is sent. *)
Lemma C4_counterexample :
  let env := scripted_env [Ret 55; Ret 30; Ret 18] true [] in
  let s1 := snd (check_battery scenario_cfg env (initial_state scenario_cfg)) in
  fst (get_battery_level env s1) = Ret (Some 30) /\
  ALERT_THRESHOLDS scenario_cfg !! "ups_battery_low" = Some (PyInt 25) /\
  shutdown_threshold (ups_monitor s1) = PyInt 20 /\
  ~ exists b message,
      In (EvNotify b message) (new_events (check_battery scenario_cfg env) s1).
Proof.
  vm_compute. repeat split.
  intros (b & message & [H | []]). discriminate.
Qed.

(** ** Sorting and slicing *)

Lemma insert_sorted_perm (x : Q) (l : list Q) :
  Permutation (x :: l) (insert_sorted x l).
Proof.
  induction l as [|y l IH]; cbn [insert_sorted]; [reflexivity|].
  destruct (Qle_bool x y); [reflexivity|].
  rewrite perm_swap. now apply perm_skip.
Qed.

Lemma list_sort_perm (l : list Q) : Permutation l (list_sort l).
Proof.
  induction l as [|x l IH]; cbn [list_sort]; [reflexivity|].
  rewrite <- insert_sorted_perm. now apply perm_skip.
Qed.




Lemma list_sort_length (l : list Q) : length (list_sort l) = length l.
Proof. symmetry. apply Permutation_length, list_sort_perm. Qed.

(** [l[d:-d]] for [0 < d] drops [d] elements at each end, and is empty
    when there are not more than [2 * d]. *)
Lemma py_slice_trim {A} (l : list A) (d : Z) :
  0 < d ->
  exists lo hi,
    length lo = Nat.min (Z.to_nat d) (length l) /\
    l = lo ++ py_slice l d (- d) ++ hi /\
    (2 * d < Z.of_nat (length l) -> length hi = Z.to_nat d) /\
    (Z.of_nat (length l) <= 2 * d -> py_slice l d (- d) = []).
Proof.
  intros Hd. unfold py_slice, slice_index.
  set (n := length l).
  replace (d <? 0) with false by (symmetry; apply Z.ltb_ge; lia).
  replace (- d <? 0) with true by (symmetry; apply Z.ltb_lt; lia).
  set (lo := Z.min d (Z.of_nat n)).
  set (hi := Z.max (Z.of_nat n + - d) 0).
  exists (firstn (Z.to_nat lo) l),
         (skipn (Z.to_nat (hi - lo)) (skipn (Z.to_nat lo) l)).
  repeat split.
  - rewrite length_firstn. fold n. subst lo. lia.
  - now rewrite !firstn_skipn.
  - intros Hk. rewrite !length_skipn. fold n. subst lo hi. lia.
  - intros Hk. replace (Z.to_nat (hi - lo)) with O by (subst lo hi; lia).
    reflexivity.
Qed.

(** ** The sampling batch *)

Lemma map_Ret_inv {A} (xs : list (res A)) (r : res A) (raw : list A) :
  r :: xs = map Ret raw ->
  exists a raw', raw = a :: raw' /\ r = Ret a /\ xs = map Ret raw'.
Proof.
  destruct raw as [|a raw']; cbn; intros H; [discriminate|].
  injection H as -> ->. eauto.
Qed.

(** When no invocation raises, the loop gathers the present readings in
    order and leaves the state the invocations leave. *)
Lemma collect_readings_all (f : M (option Q)) (n : nat) :
  forall (s s' : state) (acc : list Q) (raw : list (option Q)),
    sample_outcomes f n s = (map Ret raw, s') ->
    collect_readings f n acc s = (Ret (acc ++ present raw), s') /\
    length raw = n.
Proof.
  induction n as [|n IH]; intros s s' acc raw H;
    cbn [sample_outcomes collect_readings] in H |- *.
  - injection H as H <-. destruct raw; [|discriminate].
    cbn. now rewrite app_nil_r.
  - unfold bind at 1. destruct (f s) as [[r|e] s1].
    + destruct (sample_outcomes f n (snd (sleep 0.1 s1))) as [rest s2] eqn:Hrest.
      injection H as H <-.
      apply map_Ret_inv in H as (a & raw' & -> & Ha & ->).
      injection Ha as ->.
      unfold bind at 1. destruct (sleep 0.1 s1) as [[[]|e] s1'] eqn:Hs;
        [|discriminate Hs].
      cbn [snd] in Hrest.
      destruct (IH _ _ (match a with Some r => acc ++ [r] | None => acc end)
                  _ Hrest) as [Hc Hl].
      rewrite Hc. cbn [length]. split; [|now rewrite Hl].
      destruct a; cbn [present]; [now rewrite <- app_assoc | reflexivity].
    + injection H as H _. destruct raw; discriminate.
Qed.

(** When an invocation raises, the loop ends there with that exception,
    in the state that invocation leaves. *)
Lemma collect_readings_raise (f : M (option Q)) (n : nat) :
  forall (s s' : state) (acc : list Q) (raw : list (option Q)) (e : exn),
    sample_outcomes f n s = (map Ret raw ++ [Raise e], s') ->
    collect_readings f n acc s = (Raise e, s').
Proof.
  induction n as [|n IH]; intros s s' acc raw e H;
    cbn [sample_outcomes collect_readings] in H |- *.
  - injection H as H _. destruct raw; discriminate.
  - unfold bind at 1. destruct (f s) as [[r|e0] s1].
    + destruct (sample_outcomes f n (snd (sleep 0.1 s1))) as [rest s2] eqn:Hrest.
      injection H as H <-.
      destruct raw as [|a raw']; cbn in H; [discriminate|].
      injection H as -> ->.
      unfold bind at 1. destruct (sleep 0.1 s1) as [[[]|e1] s1'] eqn:Hs;
        [|discriminate Hs].
      cbn [snd] in Hrest. now apply (IH _ _ _ _ _ Hrest).
    + injection H as H <-.
      destruct raw as [|a raw']; cbn in H.
      * now injection H as ->.
      * injection H as _ H. destruct raw'; discriminate.
Qed.

Lemma get_filtered_sample_all (f : M (option Q)) (N D : Z) (s s' : state)
    (raw : list (option Q)) :
  sample_outcomes f (Z.to_nat N) s = (map Ret raw, s') ->
  get_filtered_sample f N D s =
    (Ret (if Z.of_nat (length (present raw)) <? N - D * 2 then None
          else
            match statistics_mean
                    (if D >? 0
                     then py_slice (list_sort (present raw)) D (- D)
                     else list_sort (present raw)) with
            | Ret mean => Some (py_round mean 2)
            | Raise _ => None
            end),
     s').
Proof.
  intros H. apply (collect_readings_all f _ s s' []) in H as [H _].
  unfold get_filtered_sample, try_except. unfold bind at 1. rewrite H.
  cbn [app]. destruct (_ <? _); [reflexivity|].
  run_monad. now destruct (statistics_mean _).
Qed.

Lemma get_filtered_sample_raise (f : M (option Q)) (N D : Z) (s s' : state)
    (raw : list (option Q)) (e : exn) :
  sample_outcomes f (Z.to_nat N) s = (map Ret raw ++ [Raise e], s') ->
  get_filtered_sample f N D s = (Ret None, s').
Proof.
  intros H. apply (collect_readings_raise f _ s s' []) in H.
  unfold get_filtered_sample, try_except. unfold bind at 1. now rewrite H.
Qed.


From Stdlib Require Import Lqa.






(** C3, as the code has it.  [get_filtered_sample] never raises.  When
    an invocation of the capability raises, after any number that did
    not, the batch ends there: the result is [None] and the state is the
    one that invocation left, so no later sample is taken. *)
Theorem C3_exception_ends_batch (f : M (option Q)) (N D : Z) (s s' : state)
    (raw : list (option Q)) (e : exn) :
  sample_outcomes f (Z.to_nat N) s = (map Ret raw ++ [Raise e], s') ->
  get_filtered_sample f N D s = (Ret None, s') /\
  forall (g : M (option Q)) (N' D' : Z) (t : state),
    exists r, fst (get_filtered_sample g N' D' t) = Ret r.
Proof.
  intros H. split; [now apply (get_filtered_sample_raise f N D s s' raw e)|].
  intros g N' D' t. unfold get_filtered_sample, try_except.
  destruct (bind _ _ t) as [[r|e'] t']; cbn; eauto.
Qed.

Lemma C3_exception_ends_batch_witness :
  let f := scripted_sensor
             [Ret (Some 1%Q); Raise OSError; Ret (Some 3%Q); Ret (Some 4%Q);
              Ret (Some 5%Q)] in
  let s := initial_state scenario_cfg in
  get_filtered_sample f 5 1 s = (Ret None, snd (sample_outcomes f 5 s)).
Proof.
  intros f s.
  apply (C3_exception_ends_batch f 5 1 s (snd (sample_outcomes f 5 s))
           [Some 1%Q] OSError).
  vm_compute. reflexivity.
Defined.

(** C3 as stated fails: with 5 samples and 1 discarded, the second
    invocation raises; the capability is invoked twice, not five times,
    and the result is [None]; had that sample been merely absent, the
    result would be 7/2, the mean of the kept window of the four other
    readings. *)
Lemma C3_counterexample :
  let f := scripted_sensor
             [Ret (Some 1%Q); Raise OSError; Ret (Some 3%Q); Ret (Some 4%Q);
              Ret (Some 5%Q)] in
  let s := initial_state scenario_cfg in
  fst (get_filtered_sample f 5 1 s) = Ret None /\
  count_events is_echo (trace (snd (get_filtered_sample f 5 1 s))) = 2%nat /\
  fst (get_filtered_sample
         (scripted_sensor
            [Ret (Some 1%Q); Ret None; Ret (Some 3%Q); Ret (Some 4%Q);
             Ret (Some 5%Q)]) 5 1 s)
  = Ret (Some (7 # 2)%Q).
Proof. vm_compute. repeat split. Qed.

(** ** Alerts *)

Lemma check_two_sided_eq (cfg : config) (value : option pynum)
    (low_key high_key : string) (lm hm : pynum -> string)
    (alerts : list string) (s : state) (low high : pynum) :
  ALERT_THRESHOLDS cfg !! low_key = Some low ->
  ALERT_THRESHOLDS cfg !! high_key = Some high ->
  check_two_sided cfg value low_key high_key lm hm alerts s =
    (Ret (alerts ++
          match value with
          | Some v =>
              if py_lt v low then [lm v]
              else if py_gt v high then [hm v] else []
          | None => []
          end), s).
Proof.
  intros Hl Hh. unfold check_two_sided, threshold.
  destruct value as [v|]; [|now rewrite app_nil_r].
  rewrite Hl, Hh. run_monad.
  destruct (py_lt v low); [reflexivity|].
  destruct (py_gt v high); [reflexivity | now rewrite app_nil_r].
Qed.

Lemma check_one_sided_eq (cfg : config) (cmp : pynum -> pynum -> bool)
    (value : option pynum) (low_key : string) (lm : pynum -> string)
    (alerts : list string) (s : state) (low : pynum) :
  ALERT_THRESHOLDS cfg !! low_key = Some low ->
  check_one_sided cfg cmp value low_key lm alerts s =
    (Ret (alerts ++
          match value with
          | Some v => if cmp v low then [lm v] else []
          | None => []
          end), s).
Proof.
  intros Hl. unfold check_one_sided, threshold.
  destruct value as [v|]; [|now rewrite app_nil_r].
  rewrite Hl. run_monad.
  destruct (cmp v low); [reflexivity | now rewrite app_nil_r].
Qed.

(** [check_alerts] computes the alerts of the snapshot in declaration
    order, and raises nothing when the thresholds are configured. *)
Lemma check_alerts_in_order (cfg : config) (b : bounds) (s : state) :
  configured cfg b ->
  fst (check_alerts cfg s) =
    Ret (alerts_in_order b (sensor_data s) sensor_order).
Proof.
  intros (H1 & H2 & H3 & H4 & H5 & H6 & H7 & H8).
  unfold check_alerts. unfold bind at 1. unfold get at 1. cbv beta iota.
  unfold bind at 1.
  rewrite (check_two_sided_eq cfg _ _ _ _ _ _ _ _ _ H1 H2).
  unfold bind at 1.
  rewrite (check_two_sided_eq cfg _ _ _ _ _ _ _ _ _ H3 H4).
  unfold bind at 1.
  rewrite (check_two_sided_eq cfg _ _ _ _ _ _ _ _ _ H5 H6).
  unfold bind at 1.
  rewrite (check_one_sided_eq cfg _ _ _ _ _ _ _ H7).
  unfold bind at 1.
  rewrite (check_one_sided_eq cfg _ _ _ _ _ _ _ H7).
  unfold bind at 1.
  rewrite (check_one_sided_eq cfg _ _ _ _ _ _ _ H8).
  match goal with
  | |- fst (match ?l with [] => _ | _ :: _ => _ end _) = Ret ?r =>
      assert (Hl : l = r); [|rewrite Hl; destruct r; reflexivity]
  end.
  cbn [alerts_in_order sensor_order]. unfold reported.
  cbn [value_of metric_alert app].
  destruct (sensor_data s) as [t p c l r d u]; cbn [temperature pH conductivity
    level recirc_pump dispense_pump ups_battery].
  destruct t as [t|], p as [p|], l as [l|], r as [r|], d as [d|], u as [u|], c;
    repeat match goal with
    | |- context [if ?c then _ else _] => destruct c
    end; reflexivity.
Qed.

Lemma py_lt_true (v bound : pynum) : py_lt v bound = true <-> below v bound.
Proof.
  unfold py_lt, Qlt_bool, below. rewrite negb_true_iff.
  apply (py_le_false bound v).
Qed.

Lemma py_lt_false (v bound : pynum) : py_lt v bound = false <-> ~ below v bound.
Proof. rewrite <- py_lt_true. now destruct (py_lt v bound). Qed.

Lemma py_gt_true (v bound : pynum) : py_gt v bound = true <-> above v bound.
Proof. apply (py_lt_true bound v). Qed.

Lemma py_gt_false (v bound : pynum) : py_gt v bound = false <-> ~ above v bound.
Proof. rewrite <- py_gt_true. now destruct (py_gt v bound). Qed.

Lemma py_le_above (v bound : pynum) : py_le v bound = false <-> above v bound.
Proof. apply py_le_false. Qed.

Lemma metric_alert_within (b : bounds) (m : metric) (v : pynum) :
  within b m v -> metric_alert b m v = None.
Proof.
  destruct m; cbn [within metric_alert]; try reflexivity.
  1-3: intros [Hl Hh]; apply py_lt_false in Hl; apply py_gt_false in Hh;
       now rewrite Hl, Hh.
  1-2: intros Hl; apply py_lt_false in Hl; now rewrite Hl.
  intros Ha. apply py_le_above in Ha. now rewrite Ha.
Qed.

Lemma metric_alert_outside (b : bounds) (m : metric) (v : pynum) :
  ~ within b m v -> exists message, metric_alert b m v = Some message.
Proof.
  destruct m; cbn [within metric_alert]; intros H.
  1,2,4: match goal with |- context [py_lt ?x ?l] =>
           destruct (py_lt x l) eqn:Hl; [eauto|] end;
         match goal with |- context [py_gt ?x ?h] =>
           destruct (py_gt x h) eqn:Hh; [eauto|] end;
         exfalso; apply H; split;
         [now apply py_lt_false | now apply py_gt_false].
  - exfalso. now apply H.
  - destruct (py_lt v _) eqn:Hl; [eauto|].
    exfalso. now apply H, py_lt_false.
  - destruct (py_lt v _) eqn:Hl; [eauto|].
    exfalso. now apply H, py_lt_false.
  - destruct (py_le v _) eqn:Hl; [eauto|].
    exfalso. now apply H, py_le_above.
Qed.

Lemma alerts_in_order_none (b : bounds) (d : SensorData) (ms : list metric) :
  (forall m, In m ms -> reported b d m = None) ->
  alerts_in_order b d ms = [].
Proof.
  induction ms as [|m ms IH]; intros H; cbn [alerts_in_order]; [reflexivity|].
  rewrite (H m) by now left. apply IH. intros m' Hm'. apply H. now right.
Qed.

Lemma alerts_in_order_single (b : bounds) (d : SensorData) (ms : list metric)
    (m : metric) (message : string) :
  List.NoDup ms -> In m ms ->
  reported b d m = Some message ->
  (forall m', m' <> m -> reported b d m' = None) ->
  alerts_in_order b d ms = [message].
Proof.
  intros Hnd Hin Hm Hothers.
  induction ms as [|m0 ms IH]; [destruct Hin|].
  inversion Hnd as [|? ? Hnotin Hnd']; subst. cbn [alerts_in_order].
  destruct Hin as [-> | Hin].
  - rewrite Hm. f_equal. apply alerts_in_order_none.
    intros m' Hm'. apply Hothers. intros ->. contradiction.
  - rewrite (Hothers m0) by (intros ->; contradiction). now apply IH.
Qed.

Lemma sensor_order_complete (m : metric) : In m sensor_order.
Proof. destruct m; cbn; tauto. Qed.

Lemma sensor_order_nodup : List.NoDup sensor_order.
Proof.
  unfold sensor_order.
  repeat (constructor; [cbn; intros H; repeat destruct H as [H|H]; try discriminate; exact H|]).
  constructor.
Qed.

(** C5, as the code has it.  With the eight thresholds configured, the
    alerts are those the metrics report, in sensor-declaration order; an
    absent value reports nothing; when every present value is within its
    bounds there is no alert, where for the UPS battery within means
    strictly above its bound; when one metric alone is outside its bounds
    there is exactly one alert, the one of that metric; and a two-sided
    metric below its low bound reports the low message whatever its high
    bound.  The snapshot temperature 15.0, pH 7.0, level 500 with bounds
    18.., 6..8 and 100..1000 gives the one alert of the temperature. *)
Theorem C5_alert_evaluation :
  (forall (cfg : config) (b : bounds) (s : state),
     configured cfg b ->
     let d := sensor_data s in
     let alerts := fst (check_alerts cfg s) in
     alerts = Ret (alerts_in_order b d sensor_order) /\
     (forall m, value_of d m = None -> reported b d m = None) /\
     ((forall m v, value_of d m = Some v -> within b m v) ->
      alerts = Ret []) /\
     (forall m v,
        value_of d m = Some v -> ~ within b m v ->
        (forall m' v', m' <> m -> value_of d m' = Some v' -> within b m' v') ->
        exists message,
          metric_alert b m v = Some message /\ alerts = Ret [message]) /\
     (forall v, below v (temp_low b) ->
        metric_alert b Temperature v = Some (temperature_low_message v)) /\
     (forall v, below v (ph_low b) ->
        metric_alert b PH v = Some (ph_low_message v)) /\
     (forall v, below v (level_low b) ->
        metric_alert b Level v = Some (level_low_message v))) /\
  fst (check_alerts scenario_cfg
         (with_data
            (with_temperature (Some (PyFloat 15.0))
               (with_pH (Some (PyFloat 7.0))
                  (with_level (Some (PyFloat 500)) no_data)))
            scenario_cfg))
  = Ret ["Temperature low: 15.0" +:+ degree +:+ "C"].
Proof.
  split; [|vm_compute; reflexivity].
  intros cfg b s Hcfg d alerts. subst alerts.
  rewrite (check_alerts_in_order cfg b s Hcfg). fold d.
  assert (Hin : forall m v, value_of d m = Some v -> within b m v ->
                            reported b d m = None).
  { intros m v Hv Hw. unfold reported. rewrite Hv.
    now apply metric_alert_within. }
  split; [reflexivity|]. split; [|split; [|split]].
  - intros m Hm. unfold reported. now rewrite Hm.
  - intros Hall. f_equal. apply alerts_in_order_none. intros m _.
    destruct (value_of d m) as [v|] eqn:Hv.
    + apply (Hin m v Hv), (Hall m v Hv).
    + unfold reported. now rewrite Hv.
  - intros m v Hv Hout Hothers.
    destruct (metric_alert_outside b m v Hout) as [message Hm].
    exists message. split; [exact Hm|]. f_equal.
    apply (alerts_in_order_single b d sensor_order m message).
    + apply sensor_order_nodup.
    + apply sensor_order_complete.
    + unfold reported. now rewrite Hv.
    + intros m' Hne. destruct (value_of d m') as [v'|] eqn:Hv'.
      * apply (Hin m' v' Hv'), (Hothers m' v' Hne Hv').
      * unfold reported. now rewrite Hv'.
  - repeat split; intros v Hb; apply py_lt_true in Hb;
      cbn [metric_alert]; now rewrite Hb.
Qed.

(** A snapshot with the temperature alone outside its bounds. *)
Lemma C5_alert_evaluation_witness :
  let d := with_temperature (Some (PyFloat 15.0))
             (with_pH (Some (PyFloat 7.0))
                (with_level (Some (PyFloat 500)) no_data)) in
  fst (check_alerts scenario_cfg (with_data d scenario_cfg))
  = Ret (alerts_in_order scenario_bounds d sensor_order).
Proof.
  intros d.
  destruct C5_alert_evaluation as [H _].
  destruct (H scenario_cfg scenario_bounds (with_data d scenario_cfg))
    as [Horder _].
  - vm_compute. repeat split.
  - exact Horder.
Defined.

(** C5 as stated fails: every present value is within its bounds when a
    value equal to a low bound counts as within, the battery being at
    its bound 25; yet there is an alert. *)
Lemma C5_counterexample :
  let d := with_temperature (Some (PyFloat 20.0))
             (with_pH (Some (PyFloat 7.0))
                (with_level (Some (PyFloat 500))
                   (with_recirc_pump (Some (PyFloat 50))
                      (with_ups_battery (Some (PyInt 25)) no_data)))) in
  configured scenario_cfg scenario_bounds /\
  (forall m v, value_of d m = Some v -> within_inclusive scenario_bounds m v) /\
  fst (check_alerts scenario_cfg (with_data d scenario_cfg))
  = Ret ["UPS Battery low: 25%"].
Proof.
  intros d. split; [vm_compute; repeat split|].
  split; [|vm_compute; reflexivity].
  intros m v Hv. destruct m; cbn in Hv; try discriminate;
    injection Hv as <-; vm_compute; repeat split; intros H; discriminate H.
Qed.

Lemma in_alerts_in_order (b : bounds) (d : SensorData) (ms : list metric)
    (message : string) :
  In message (alerts_in_order b d ms) <->
  exists m, In m ms /\ reported b d m = Some message.
Proof.
  induction ms as [|m0 ms IH]; cbn [alerts_in_order].
  - split; [intros [] | intros (m & [] & _)].
  - destruct (reported b d m0) as [x|] eqn:H0.
    + split.
      * intros [<- | Hin]; [exists m0; split; [now left | exact H0]|].
        apply IH in Hin as (m & Hm & Hr). exists m. split; [now right | exact Hr].
      * intros (m & [<- | Hm] & Hr).
        -- left. congruence.
        -- right. apply IH. eauto.
    + rewrite IH. split.
      * intros (m & Hm & Hr). exists m. split; [now right | exact Hr].
      * intros (m & [<- | Hm] & Hr); [congruence | eauto].
Qed.

Ltac unfold_messages :=
  unfold temperature_low_message, temperature_high_message, ph_low_message,
    ph_high_message, level_low_message, level_high_message,
    recirc_low_message, dispense_low_message, ups_low_message in *;
  cbn [String.append] in *.

(** The messages of different metrics differ: only the metric itself
    reports its low message. *)
Lemma reported_low_message (b : bounds) (d : SensorData) (m0 m : metric)
    (v : pynum) (lm : pynum -> string) :
  (m0 = RecircPump /\ lm = recirc_low_message) \/
  (m0 = DispensePump /\ lm = dispense_low_message) \/
  (m0 = UPSBattery /\ lm = ups_low_message) ->
  reported b d m = Some (lm v) -> m = m0.
Proof.
  intros Hm0 H. unfold reported in H.
  destruct (value_of d m) as [w|]; [|discriminate].
  destruct Hm0 as [[-> ->] | [[-> ->] | [-> ->]]];
    destruct m; cbn [metric_alert] in H; try reflexivity;
    repeat match type of H with
    | context [if ?c then _ else _] => destruct c
    end; try discriminate H;
    unfold_messages; discriminate H.
Qed.

(** C8, as the code has it.  A pump current alerts exactly when its
    present value is strictly below the bound; the UPS battery alerts
    exactly when its present value is at or below its bound, so a value
    equal to the bound alerts for the battery and not for the pumps. *)
Theorem C8_one_sided_alerts (cfg : config) (b : bounds) (s : state)
    (alerts : list string) :
  configured cfg b ->
  fst (check_alerts cfg s) = Ret alerts ->
  (forall v, recirc_pump (sensor_data s) = Some v ->
     (In (recirc_low_message v) alerts <-> below v (pump_current_low b))) /\
  (forall v, dispense_pump (sensor_data s) = Some v ->
     (In (dispense_low_message v) alerts <-> below v (pump_current_low b))) /\
  (forall v, ups_battery (sensor_data s) = Some v ->
     (In (ups_low_message v) alerts <-> ~ above v (ups_battery_low b))).
Proof.
  intros Hcfg Ha. rewrite (check_alerts_in_order cfg b s Hcfg) in Ha.
  assert (Heq : alerts = alerts_in_order b (sensor_data s) sensor_order)
    by congruence.
  subst alerts. clear Ha.
  split; [|split]; intros v Hv; rewrite in_alerts_in_order.
  - rewrite <- py_lt_true. split.
    + intros (m & _ & Hr).
      assert (m = RecircPump) as ->
        by (eapply reported_low_message; [|exact Hr]; auto).
      unfold reported in Hr. cbn [value_of metric_alert] in Hr.
      rewrite Hv in Hr. now destruct (py_lt v _).
    + intros Hlt. exists RecircPump. split; [apply sensor_order_complete|].
      unfold reported. cbn [value_of metric_alert]. now rewrite Hv, Hlt.
  - rewrite <- py_lt_true. split.
    + intros (m & _ & Hr).
      assert (m = DispensePump) as ->
        by (eapply reported_low_message; [|exact Hr]; auto).
      unfold reported in Hr. cbn [value_of metric_alert] in Hr.
      rewrite Hv in Hr. now destruct (py_lt v _).
    + intros Hlt. exists DispensePump. split; [apply sensor_order_complete|].
      unfold reported. cbn [value_of metric_alert]. now rewrite Hv, Hlt.
  - rewrite <- py_le_above, not_false_iff_true. split.
    + intros (m & _ & Hr).
      assert (m = UPSBattery) as ->
        by (eapply reported_low_message; [|exact Hr]; auto).
      unfold reported in Hr. cbn [value_of metric_alert] in Hr.
      rewrite Hv in Hr. now destruct (py_le v _).
    + intros Hle. exists UPSBattery. split; [apply sensor_order_complete|].
      unfold reported. cbn [value_of metric_alert]. now rewrite Hv, Hle.
Qed.

(** At the bound: a pump current of 50 with bound 50 does not alert, a
    battery level of 25 with bound 25 does. *)
Lemma C8_one_sided_alerts_witness :
  let d := with_recirc_pump (Some (PyFloat 50))
             (with_ups_battery (Some (PyInt 25)) no_data) in
  let alerts := ["UPS Battery low: 25%"] in
  ~ In (recirc_low_message (PyFloat 50)) alerts /\
  In (ups_low_message (PyInt 25)) alerts.
Proof.
  intros d alerts.
  destruct (C8_one_sided_alerts scenario_cfg scenario_bounds
              (with_data d scenario_cfg) alerts) as (Hr & _ & Hu).
  - vm_compute. repeat split.
  - vm_compute. reflexivity.
  - split.
    + intros Hin. apply (Hr (PyFloat 50)) in Hin; [|reflexivity].
      vm_compute in Hin. discriminate Hin.
    + apply (Hu (PyInt 25)); [reflexivity|].
      vm_compute. intros H. discriminate H.
Defined.

(** C8 as stated fails: a battery level equal to its bound alerts. *)
Lemma C8_counterexample :
  let d := with_ups_battery (Some (PyInt 25)) no_data in
  ALERT_THRESHOLDS scenario_cfg !! "ups_battery_low" = Some (PyInt 25) /\
  fst (check_alerts scenario_cfg (with_data d scenario_cfg))
  = Ret ["UPS Battery low: 25%"].
Proof. vm_compute. split; reflexivity. Qed.

(** ** Telemetry *)

Lemma token_of_none (cfg : config) (device_name : string) :
  no_credential cfg device_name -> token_of cfg device_name = None.
Proof. unfold token_of. intros [H | [H | H]]; now rewrite H. Qed.

Lemma token_of_some (cfg : config) (device_name token : string) :
  has_credential cfg device_name token ->
  token_of cfg device_name = Some token.
Proof.
  intros [H Hne]. unfold token_of. rewrite H.
  destruct (String.eqb token "") eqn:He; [|reflexivity].
  apply String.eqb_eq in He. contradiction.
Qed.

Lemma send_telemetry_no_token (cfg : config) (env : environment)
    (device_name : string) (data : pyval) (s : state) :
  token_of cfg device_name = None ->
  send_telemetry cfg env device_name data s = (Ret false, s).
Proof. intros H. unfold send_telemetry, try_except. now rewrite H. Qed.

(** With a dict argument the payload is the caller's object: the
    timestamp is stored into it, then it is posted. *)
Lemma send_telemetry_dict (cfg : config) (env : environment)
    (device_name token : string) (l : loc) (d : dict) (s : state) :
  token_of cfg device_name = Some token ->
  heap s !! l = Some d ->
  let d' := <[ "ts" := PyInt (env_time_ms env (trace s)) ]> d in
  let r := env_post env (trace s) (telemetry_url cfg token) d' in
  send_telemetry cfg env device_name (VDict l) s =
    (Ret (accepted r),
     snd (emit (EvPost (telemetry_url cfg token) d' r)
            (snd (set_heap (<[ l := d' ]> (heap s)) s)))).
Proof.
  intros Ht Hl d' r. unfold send_telemetry, try_except. rewrite Ht.
  unfold dict_setitem, deref, session_post. run_monad.
  rewrite Hl. run_monad. rewrite lookup_insert_eq. run_monad.
  fold (telemetry_url cfg token). fold d'. fold r.
  destruct r as [code|e]; cbn [accepted].
  - now destruct ((code =? 200) || (code =? 201)).
  - now destruct e.
Qed.

(** With a number the payload is a new dict, at a location the heap did
    not hold. *)
Lemma send_telemetry_num (cfg : config) (env : environment)
    (device_name token : string) (v : pynum) (s : state) :
  token_of cfg device_name = Some token ->
  let l := fresh (dom (heap s)) in
  let d' := <[ "ts" := PyInt (env_time_ms env (trace s)) ]>
              ({[ device_name := v ]} : dict) in
  let r := env_post env (trace s) (telemetry_url cfg token) d' in
  heap s !! l = None /\
  send_telemetry cfg env device_name (VNum v) s =
    (Ret (accepted r),
     snd (emit (EvPost (telemetry_url cfg token) d' r)
            (snd (set_heap (<[ l := d' ]> (heap s)) s)))).
Proof.
  intros Ht l d' r. split.
  { apply not_elem_of_dom. apply is_fresh. }
  unfold send_telemetry, try_except. rewrite Ht.
  unfold new_dict, dict_setitem, deref, session_post. run_monad.
  fold l. rewrite lookup_insert_eq. run_monad. rewrite lookup_insert_eq.
  run_monad. rewrite insert_insert_eq.
  fold (telemetry_url cfg token). fold d'. fold r.
  destruct r as [code|e]; cbn [accepted].
  - now destruct ((code =? 200) || (code =? 201)).
  - now destruct e.
Qed.

Lemma new_events_emit {A} (m : M A) (s : state) (r : res A)
    (h : gmap loc dict) (e : event) :
  m s = (r, snd (emit e (snd (set_heap h s)))) ->
  new_events m s = [e].
Proof.
  intros H. unfold new_events. rewrite H. cbn.
  apply skipn_length_app.
Qed.

Lemma accepted_iff (r : res Z) :
  accepted r = true <-> r = Ret 200 \/ r = Ret 201.
Proof.
  destruct r as [code|e]; cbn [accepted].
  - rewrite orb_true_iff, !Z.eqb_eq. split.
    + intros [-> | ->]; auto.
    + intros [H | H]; injection H; auto.
  - split; [discriminate | intros [H | H]; discriminate H].
Qed.

(** C6.  [send_telemetry] never raises.  Without a credential for the
    device it returns [False] and leaves the state, trace included, as it
    was: no request is made.  With one it makes exactly one POST to the
    device's URL and returns [True] exactly when the POST answers with
    status 200 or 201; any other status and any exception of the POST
    give [False]. *)
Theorem C6_publish_outcome (cfg : config) (env : environment)
    (device_name : string) (data : pyval) (s : state) :
  (exists b, fst (send_telemetry cfg env device_name data s) = Ret b) /\
  (no_credential cfg device_name ->
   send_telemetry cfg env device_name data s = (Ret false, s)) /\
  (forall token,
     has_credential cfg device_name token ->
     valid_data s data ->
     exists payload,
       let r := env_post env (trace s) (telemetry_url cfg token) payload in
       new_events (send_telemetry cfg env device_name data) s
         = [EvPost (telemetry_url cfg token) payload r] /\
       fst (send_telemetry cfg env device_name data s) = Ret (accepted r) /\
       (accepted r = true <-> r = Ret 200 \/ r = Ret 201)).
Proof.
  split; [|split].
  - unfold send_telemetry, try_except.
    match goal with |- context [match ?b s with _ => _ end] =>
      destruct (b s) as [[b0|e] s0] end.
    + eauto.
    + exists false. now destruct e.
  - intros H. apply send_telemetry_no_token. now apply token_of_none.
  - intros token Hc Hv. apply token_of_some in Hc.
    destruct data as [v|l].
    + destruct (send_telemetry_num cfg env device_name token v s Hc) as [_ He].
      eexists. cbv zeta. rewrite He. split; [|split].
      * eapply new_events_emit. exact He.
      * reflexivity.
      * apply accepted_iff.
    + destruct Hv as [d Hd].
      pose proof (send_telemetry_dict cfg env device_name token l d s Hc Hd) as He.
      cbv zeta in He. eexists. cbv zeta. rewrite He. split; [|split].
      * eapply new_events_emit. exact He.
      * reflexivity.
      * apply accepted_iff.
Qed.

(** A device with a token, answered 503: one POST, and [False]. *)
Lemma C6_publish_outcome_witness :
  let env := scripted_env [] true [Ret 503] in
  let s := initial_state scenario_cfg in
  exists payload,
    new_events (send_telemetry scenario_cfg env "temperature"
                  (VNum (PyFloat 21.5))) s
      = [EvPost "https://tb.example.org/api/v1/tok-temp/telemetry" payload
           (Ret 503)] /\
    fst (send_telemetry scenario_cfg env "temperature" (VNum (PyFloat 21.5)) s)
      = Ret false.
Proof.
  intros env s.
  destruct (C6_publish_outcome scenario_cfg env "temperature"
              (VNum (PyFloat 21.5)) s) as (_ & _ & H).
  destruct (H "tok-temp") as (payload & Hev & Hr & _).
  - split; [reflexivity | discriminate].
  - exact I.
  - exists payload. split; [exact Hev | exact Hr].
Defined.

(** C10, as the code has it.  With a credential configured for the
    device and a dict as data, the dict object of the caller holds the
    key ["ts"] after the call, whatever the outcome of the POST; the
    payload posted is that object after the insertion; no other object
    changes; and with a number as data the caller's objects are left as
    they were.  For a device without credential the same call returns
    [False] at the guard on the token, before the payload is built: the
    dict and everything else are as they were. *)
Theorem C10_dict_argument_mutated (cfg : config) (env : environment)
    (device_name token : string) (l : loc) (d : dict) (s : state) :
  has_credential cfg device_name token ->
  heap s !! l = Some d ->
  let s' := snd (send_telemetry cfg env device_name (VDict l) s) in
  let ts := PyInt (env_time_ms env (trace s)) in
  heap s' !! l = Some (<[ "ts" := ts ]> d) /\
  (<[ "ts" := ts ]> d : dict) !! "ts" = Some ts /\
  (exists r,
     new_events (send_telemetry cfg env device_name (VDict l)) s
     = [EvPost (telemetry_url cfg token) (<[ "ts" := ts ]> d) r]) /\
  (forall l', l' <> l -> heap s' !! l' = heap s !! l') /\
  (forall v,
     heap (snd (send_telemetry cfg env device_name (VNum v) s)) !! l = Some d) /\
  (forall other,
     no_credential cfg other ->
     send_telemetry cfg env other (VDict l) s = (Ret false, s)).
Proof.
  intros Hc Hd s' ts. apply token_of_some in Hc.
  pose proof (send_telemetry_dict cfg env device_name token l d s Hc Hd) as He.
  cbv zeta in He. fold ts in He.
  subst s'. split; [|split; [|split; [|split; [|split]]]].
  6:{ intros other Hn. apply send_telemetry_no_token. now apply token_of_none. }
  - rewrite He. cbn. apply lookup_insert_eq.
  - apply lookup_insert_eq.
  - eexists. eapply new_events_emit. exact He.
  - intros l' Hne. rewrite He. cbn. now apply lookup_insert_ne.
  - intros v.
    destruct (send_telemetry_num cfg env device_name token v s Hc) as [Hf Hn].
    rewrite Hn. cbn. rewrite lookup_insert_ne; [exact Hd|].
    intros Heq. rewrite Heq in Hf. congruence.
Qed.

(** The caller's dict [{"temperature": 21.5}] after a failed POST. *)
Lemma C10_dict_argument_mutated_witness :
  let env := scripted_env [] true [Raise Timeout] in
  let d : dict := {[ "temperature" := PyFloat 21.5 ]} in
  let s := with_heap {[ 1%positive := d ]} scenario_cfg in
  d !! "ts" = None /\
  heap (snd (send_telemetry scenario_cfg env "temperature" (VDict 1%positive) s))
    !! 1%positive
  = Some (<[ "ts" := PyInt 1700000000000 ]> d).
Proof.
  intros env d s. split; [reflexivity|].
  destruct (C10_dict_argument_mutated scenario_cfg env "temperature"
              "tok-temp" 1%positive d s) as [H _].
  - split; [reflexivity | discriminate].
  - reflexivity.
  - exact H.
Defined.

(** C10 as stated fails for a device without credential: the device
    ["level"] has no token, the call returns [False] without a request,
    and the caller's dict is the one it passed, without ["ts"]. *)
Lemma C10_counterexample :
  let env := scripted_env [] true [Ret 200] in
  let d : dict := {[ "level" := PyFloat 500 ]} in
  let s := with_heap {[ 1%positive := d ]} scenario_cfg in
  let call := send_telemetry scenario_cfg env "level" (VDict 1%positive) in
  fst (call s) = Ret false /\
  heap (snd (call s)) !! 1%positive = Some d /\
  d !! "ts" = None /\
  new_events call s = [].
Proof. vm_compute. repeat split. Qed.

(** ** The loops *)

Section Frames.

Variable keep : bool.

Lemma frame_ret {A} (a : A) : frame keep (ret a).
Proof. intros s. split; [reflexivity|]. exists []. now rewrite app_nil_r. Qed.

Lemma frame_raise {A} (e : exn) : frame keep (@raise A e).
Proof. intros s. split; [reflexivity|]. exists []. now rewrite app_nil_r. Qed.

Lemma frame_lift {A} (r : res A) : frame keep (lift r).
Proof. intros s. split; [reflexivity|]. exists []. now rewrite app_nil_r. Qed.

Lemma frame_get : frame keep get.
Proof. intros s. split; [reflexivity|]. exists []. now rewrite app_nil_r. Qed.

Lemma frame_bind {A B} (m : M A) (k : A -> M B) :
  frame keep m -> (forall a, frame keep (k a)) -> frame keep (bind m k).
Proof.
  intros Hm Hk s. unfold bind.
  destruct (Hm s) as [Hr (evs & Ht & Hq)].
  destruct (m s) as [[a|e] s1]; cbn [snd] in *.
  - destruct (Hk a s1) as [Hr' (evs' & Ht' & Hq')]. split.
    + intros Hkeep. now rewrite Hr', Hr.
    + exists (evs ++ evs'). rewrite Ht', Ht, app_assoc.
      split; [reflexivity | now apply Forall_app].
  - split; [exact Hr | eauto].
Qed.

Lemma frame_try_except {A} (m : M A) (h : exn -> M A) :
  frame keep m -> (forall e, frame keep (h e)) -> frame keep (try_except m h).
Proof.
  intros Hm Hh s. unfold try_except.
  destruct (Hm s) as [Hr (evs & Ht & Hq)].
  destruct (m s) as [[a|e] s1]; cbn [snd] in *.
  - split; [exact Hr | eauto].
  - destruct (Hh e s1) as [Hr' (evs' & Ht' & Hq')]. split.
    + intros Hkeep. now rewrite Hr', Hr.
    + exists (evs ++ evs'). rewrite Ht', Ht, app_assoc.
      split; [reflexivity | now apply Forall_app].
Qed.

Lemma frame_emit (e : event) : is_timer_start e = false -> frame keep (emit e).
Proof.
  intros He s. split; [reflexivity|]. exists [e]. split; [reflexivity|].
  now constructor.
Qed.

Lemma frame_modify (f : state -> state) :
  (forall s, trace (f s) = trace s /\ _running (f s) = _running s) ->
  frame keep (modify f).
Proof.
  intros Hf s. destruct (Hf s) as [Ht Hr]. split; [intros _; exact Hr|].
  exists []. cbn. now rewrite app_nil_r.
Qed.

End Frames.

Ltac frame_modify :=
  apply frame_modify; intros ?; split; reflexivity.

Ltac frame_step :=
  first
    [ apply frame_ret | apply frame_raise | apply frame_lift | apply frame_get
    | apply frame_emit; reflexivity
    | frame_modify
    | apply frame_bind; [|intros ?]
    | apply frame_try_except; [|intros ?]
    | match goal with
      | |- frame _ (match ?x with _ => _ end) => destruct x
      end ].

Ltac frame_auto := repeat frame_step.

Section LoopFacts.

Variable cfg : config.
Variable env : environment.
Variable keep : bool.

Lemma frame_read_battery_sysfs (paths : list string) :
  frame keep (read_battery_sysfs env paths).
Proof.
  induction paths as [|p rest IH]; cbn [read_battery_sysfs].
  - frame_auto.
  - apply frame_bind; [apply frame_get|]. intros s.
    destruct (env_sysfs env (trace s) p); [|exact IH].
    unfold emit. frame_auto.
Qed.

Lemma frame_get_battery_level : frame keep (get_battery_level env).
Proof.
  unfold get_battery_level, read_battery_i2c, emit.
  frame_auto; apply frame_read_battery_sysfs.
Qed.

Lemma frame_safe_shutdown : frame keep (safe_shutdown env).
Proof.
  unfold safe_shutdown, set_shutdown_triggered, set_ups_monitor,
    send_emergency_notification, sleep, subprocess_run, emit.
  frame_auto.
Qed.

Lemma frame_check_battery : frame keep (check_battery cfg env).
Proof.
  unfold check_battery, set_last_battery_level, set_ups_monitor, threshold,
    send_emergency_notification, emit.
  apply frame_bind; [apply frame_get_battery_level|]. intros lvl.
  frame_auto; apply frame_safe_shutdown.
Qed.

Lemma frame_send_telemetry (device_name : string) (data : pyval) :
  frame keep (send_telemetry cfg env device_name data).
Proof.
  unfold send_telemetry, new_dict, dict_setitem, deref, session_post,
    set_heap, emit.
  frame_auto.
Qed.

Lemma frame_collect_readings (f : M (option Q)) (n : nat) (acc : list Q) :
  frame keep f -> frame keep (collect_readings f n acc).
Proof.
  intros Hf. revert acc. induction n as [|n IH]; intros acc;
    cbn [collect_readings]; [frame_auto|].
  apply frame_bind; [exact Hf|]. intros r.
  apply frame_bind; [unfold sleep, emit; frame_auto|]. intros _. apply IH.
Qed.

Lemma frame_get_filtered_sample (f : M (option Q)) (N D : Z) :
  frame keep f -> frame keep (get_filtered_sample f N D).
Proof.
  intros Hf. unfold get_filtered_sample.
  apply frame_try_except; [|intros ?; frame_auto].
  apply frame_bind; [now apply frame_collect_readings|]. intros readings.
  frame_auto.
Qed.

Lemma frame_store (upd : option pynum -> SensorData -> SensorData)
    (v : option pynum) :
  frame keep (store upd v).
Proof. unfold store, set_sensor_data. frame_auto. Qed.

Lemma frame_read_voltage (channel : nat) : frame keep (read_voltage env channel).
Proof. unfold read_voltage, emit. frame_auto. Qed.

Lemma frame_measure_filtered (f : M (option Q))
    (upd : option pynum -> SensorData -> SensorData) :
  frame keep f ->
  frame keep
    (v <- get_filtered_sample f (SAMPLE_COUNT cfg) (DISCARD_COUNT cfg);;
     store upd (PyFloat <$> v)).
Proof.
  intros Hf. apply frame_bind; [now apply frame_get_filtered_sample|].
  intros v. apply frame_store.
Qed.

Lemma frame_publish_loop (l : list (string * option pynum)) (a b : Z) :
  frame keep (publish_loop cfg env l a b).
Proof.
  revert a b. induction l as [|[name [v|]] rest IH]; intros a b;
    cbn [publish_loop]; [frame_auto| |apply IH].
  apply frame_bind; [apply frame_send_telemetry|]. intros ok.
  apply frame_bind; [unfold sleep, emit; frame_auto|]. intros _. apply IH.
Qed.

Lemma frame_check_alerts : frame keep (check_alerts cfg).
Proof.
  unfold check_alerts, check_two_sided, check_one_sided, threshold,
    send_pushover_notification, emit.
  frame_auto.
Qed.

Lemma frame_collect_cycle_body : frame keep (collect_cycle_body cfg env).
Proof.
  unfold collect_cycle_body.
  apply frame_bind.
  { unfold measure_temperature, emit. frame_auto; apply frame_store. }
  intros _. apply frame_bind.
  { apply frame_measure_filtered. unfold ph_measurement.
    apply frame_bind; [apply frame_read_voltage | intros ?; frame_auto]. }
  intros _. apply frame_bind.
  { apply frame_measure_filtered. unfold conductivity_measurement.
    apply frame_bind; [apply frame_read_voltage | intros ?; frame_auto]. }
  intros _. apply frame_bind.
  { apply frame_measure_filtered. unfold rpump_measurement.
    apply frame_bind; [apply frame_read_voltage | intros ?; frame_auto]. }
  intros _. apply frame_bind.
  { apply frame_measure_filtered. unfold dpump_measurement.
    apply frame_bind; [apply frame_read_voltage | intros ?; frame_auto]. }
  intros _. apply frame_bind.
  { apply frame_measure_filtered. unfold level_measurement, sleep, emit.
    frame_auto. }
  intros _. apply frame_bind.
  { unfold measure_ups_battery.
    apply frame_bind; [apply frame_get_battery_level|]. intros lvl.
    apply frame_bind; [apply frame_store | intros ?; frame_auto]. }
  intros _. apply frame_bind.
  { unfold publish_data. apply frame_try_except; [|intros ?; frame_auto].
    apply frame_bind; [apply frame_get|]. intros s.
    apply frame_bind; [apply frame_publish_loop | intros ?; frame_auto]. }
  intros _. apply frame_bind.
  { unfold log_data, emit. frame_auto. }
  intros _. apply frame_bind; [apply frame_check_alerts|].
  intros ?. frame_auto.
Qed.

End LoopFacts.

Lemma count_events_forall_false (p : event -> bool) (evs : list event) :
  Forall (fun e => p e = false) evs -> count_events p evs = 0%nat.
Proof.
  induction 1 as [|e evs He _ IH]; [reflexivity|].
  unfold count_events in *. cbn. now rewrite He.
Qed.

Lemma stop_spec (s : state) :
  fst (stop s) = Ret tt /\ _running (snd (stop s)) = false.
Proof.
  split; unfold stop; run_monad; now destruct (_timer s), (_ups_timer s).
Qed.

Lemma frame_stop : frame false stop.
Proof.
  intros t. split; [discriminate|]. unfold stop. run_monad.
  destruct (_timer t), (_ups_timer t); cbn;
    eexists; (split; [try rewrite <- app_assoc; try reflexivity;
                      symmetry; apply app_nil_r |]);
    repeat constructor.
Qed.

(** The shape both loops share: a guard on [_running], the body under
    [try ... except Exception], and the re-arming under [finally]. *)
Lemma cycle_spec (body : M unit) (set_handle : option handle -> M unit)
    (interval : pynum) (loop : loop_id) (s : state) :
  frame false body ->
  (forall h t, fst (set_handle h t) = Ret tt /\
               trace (snd (set_handle h t)) = trace t /\
               _running (snd (set_handle h t)) = _running t) ->
  let cycle : M unit :=
    s <- get;;
    if negb (_running s) then ret tt
    else
      try_finally
        (try_except body (fun _ => ret tt))
        (s <- get;;
         if _running s then
           h <- new_timer;;
           set_handle (Some h);;;
           timer_start h interval loop
         else ret tt) in
  fst (cycle s) = Ret tt /\
  count_events is_timer_start (new_events cycle s)
    = (if _running (snd (cycle s)) then 1 else 0)%nat /\
  (_running s = false -> cycle s = (Ret tt, s)) /\
  (_running s = true -> _running (snd (cycle s)) = _running (snd (body s))).
Proof.
  intros Hbody Hset cycle.
  assert (H : exists s' evs,
            cycle s = (Ret tt, s') /\
            trace s' = trace s ++ evs /\
            count_events is_timer_start evs
              = (if _running s' then 1 else 0)%nat /\
            (_running s = false -> s' = s) /\
            (_running s = true -> _running s' = _running (snd (body s)))).
  { subst cycle.
    cbv [bind get ret try_finally try_except new_timer timer_start emit modify].
    destruct (_running s) eqn:Hrun; cbn [negb].
    2:{ exists s, []. rewrite app_nil_r, Hrun. repeat split; auto; discriminate. }
    destruct (Hbody s) as [_ (evs & Ht & Hq)].
    assert (Hin : (let (r, s') := body s in
                   match r with
                   | Ret a => (Ret a, s')
                   | Raise _ => (Ret tt, s')
                   end) = (Ret tt, snd (body s)))
      by (destruct (body s) as [[[]|e] s1]; reflexivity).
    rewrite Hin. set (s1 := snd (body s)) in *.
    destruct (_running s1) eqn:Hrun1.
    - match goal with |- context [set_handle ?h s1] =>
        destruct (Hset h s1) as (Hr & Htr & Hrn);
        destruct (set_handle h s1) as [r s2]
      end.
      cbn [fst snd] in *. subst r. cbn [trace _running].
      eexists _, (evs ++ [_]). split; [reflexivity|]. cbn [trace _running].
      rewrite Htr, Ht, Hrn, Hrun1, <- app_assoc.
      rewrite count_events_app, (count_events_forall_false _ evs Hq).
      repeat split; auto; discriminate.
    - exists s1, evs. rewrite Hrun1.
      rewrite (count_events_forall_false _ evs Hq).
      repeat split; auto; discriminate. }
  destruct H as (s' & evs & Hc & Ht & Hn & H0 & H1).
  unfold new_events. rewrite Hc. cbn [fst snd].
  rewrite Ht, skipn_length_app.
  repeat split; auto. intros Hr. now rewrite (H0 Hr).
Qed.

Lemma frame_ups_cycle_body (cfg : config) (env : environment) :
  frame false (ups_cycle_body cfg env).
Proof.
  unfold ups_cycle_body.
  apply frame_bind; [apply frame_check_battery|]. intros ok.
  destruct ok; cbn [negb]; [apply frame_ret | apply frame_stop].
Qed.

Lemma set_timer_spec (h : option handle) (t : state) :
  fst (set_timer h t) = Ret tt /\
  trace (snd (set_timer h t)) = trace t /\
  _running (snd (set_timer h t)) = _running t.
Proof. repeat split. Qed.

Lemma set_ups_timer_spec (h : option handle) (t : state) :
  fst (set_ups_timer h t) = Ret tt /\
  trace (snd (set_ups_timer h t)) = trace t /\
  _running (snd (set_ups_timer h t)) = _running t.
Proof. repeat split. Qed.

(** When the UPS body raises, the exception comes from the battery
    check, which leaves [_running] alone. *)
Lemma ups_cycle_body_raise (cfg : config) (env : environment) (s : state)
    (e : exn) :
  fst (ups_cycle_body cfg env s) = Raise e ->
  _running (snd (ups_cycle_body cfg env s)) = _running s.
Proof.
  unfold ups_cycle_body, bind. intros H.
  destruct (frame_check_battery cfg env true s) as [Hk _].
  destruct (check_battery cfg env s) as [[ok|e'] s1]; cbn [snd] in *.
  - destruct ok; cbn [negb] in *; [now apply Hk|].
    destruct (stop_spec s1) as [Hs _]. congruence.
  - now apply Hk.
Qed.

Lemma run_callbacks_stopped (cfg : config) (env : environment)
    (callbacks : list loop_id) (s : state) :
  _running s = false -> run_callbacks cfg env callbacks s = s.
Proof.
  intros Hr. induction callbacks as [|[] rest IH]; cbn [run_callbacks];
    [reflexivity| |].
  - destruct (cycle_spec (collect_cycle_body cfg env) set_timer
                (PUBLISH_INTERVAL cfg) MeasureLoop s
                (frame_collect_cycle_body cfg env false) set_timer_spec)
      as (_ & _ & H0 & _).
    specialize (H0 Hr).
    change (collect_and_publish cfg env s = (Ret tt, s)) in H0.
    rewrite H0. exact IH.
  - destruct (cycle_spec (ups_cycle_body cfg env) set_ups_timer
                (UPS_CHECK_INTERVAL cfg) UPSLoop s
                (frame_ups_cycle_body cfg env) set_ups_timer_spec)
      as (_ & _ & H0 & _).
    specialize (H0 Hr).
    change (ups_monitoring_cycle cfg env s = (Ret tt, s)) in H0.
    rewrite H0. exact IH.
Qed.

(** What a loop does when [_running] is true: the body, then the timer
    if [_running] is still true. *)
Lemma cycle_eq (body : M unit) (set_handle : option handle -> M unit)
    (interval : pynum) (loop : loop_id) (s : state) :
  _running s = true ->
  (forall h t, fst (set_handle h t) = Ret tt) ->
  let cycle : M unit :=
    s <- get;;
    if negb (_running s) then ret tt
    else
      try_finally
        (try_except body (fun _ => ret tt))
        (s <- get;;
         if _running s then
           h <- new_timer;;
           set_handle (Some h);;;
           timer_start h interval loop
         else ret tt) in
  let s1 := snd (body s) in
  cycle s =
    (Ret tt,
     if _running s1
     then snd (timer_start (length (trace s1)) interval loop
                 (snd (set_handle (Some (length (trace s1))) s1)))
     else s1).
Proof.
  intros Hrun Hset cycle s1. subst cycle.
  cbv [bind get ret try_finally try_except new_timer timer_start emit modify].
  rewrite Hrun. cbn [negb].
  assert (Hin : (let (r, s') := body s in
                 match r with
                 | Ret a => (Ret a, s')
                 | Raise _ => (Ret tt, s')
                 end) = (Ret tt, s1))
    by (subst s1; destruct (body s) as [[[]|e] s']; reflexivity).
  rewrite Hin. destruct (_running s1); [|reflexivity].
  match goal with |- context [set_handle ?h s1] =>
    rewrite (surjective_pairing (set_handle h s1)), (Hset h s1)
  end.
  reflexivity.
Qed.

Lemma stop_eq (s : state) :
  stop s =
    (Ret tt,
     with_trace (trace s ++ cancel_of (_timer s) ++ cancel_of (_ups_timer s))
       (snd (set_running false s))).
Proof.
  unfold stop. run_monad.
  destruct (_timer s), (_ups_timer s); cbn;
    rewrite <- ?app_assoc, ?app_nil_r; reflexivity.
Qed.

(** ** A loop with [stop()] on another thread *)

Lemma try_except_swallow (body : M unit) (s : state) :
  try_except body (fun _ => ret tt) s = (Ret tt, snd (body s)).
Proof. unfold try_except, ret. destruct (body s) as [[[]|e] s1]; reflexivity. Qed.

Lemma frame_loop_body (cfg : config) (env : environment) (l : loop_id) :
  frame false (loop_body cfg env l).
Proof.
  destruct l; [apply frame_collect_cycle_body | apply frame_ups_cycle_body].
Qed.

(** No body sets [_running]: a flag that is false stays false. *)
Lemma loop_body_stays_stopped (cfg : config) (env : environment)
    (l : loop_id) (s : state) :
  _running s = false -> _running (snd (loop_body cfg env l s)) = false.
Proof.
  intros Hr. destruct l; cbn [loop_body].
  - destruct (frame_collect_cycle_body cfg env true s) as [Hk _].
    now rewrite (Hk eq_refl).
  - unfold ups_cycle_body, bind.
    destruct (frame_check_battery cfg env true s) as [Hk _].
    specialize (Hk eq_refl).
    destruct (check_battery cfg env s) as [[ok|e] s1]; cbn [snd] in *.
    + destruct ok; cbn [negb]; [|apply stop_spec].
      unfold ret. cbn [snd]. now rewrite Hk.
    + now rewrite Hk.
Qed.

(** One statement of a loop: what it adds to the trace, and where the
    call stands afterwards. *)
Lemma loop_step_spec (cfg : config) (env : environment) (l : loop_id)
    (c : loop_point) (s : state) :
  exists evs,
    trace (snd (loop_step cfg env l c s)) = trace s ++ evs /\
    count_events is_timer_start evs
      = (match c with AtStart _ => 1 | _ => 0 end)%nat /\
    (_running s = false ->
     _running (snd (loop_step cfg env l c s)) = false) /\
    fst (loop_step cfg env l c s)
      = match c with
        | AtGuard => if _running s then AtBody else Returned
        | AtBody => AtTest
        | AtTest => if _running s then AtCreate else Returned
        | AtCreate => AtStart (length (trace s))
        | AtStart _ | Returned => Returned
        end.
Proof.
  destruct c; cbn [loop_step fst snd].
  - exists []. rewrite app_nil_r. repeat split; auto.
    now destruct (_running s).
  - rewrite try_except_swallow. cbn [snd].
    destruct (frame_loop_body cfg env l s) as [_ (evs & Ht & Hq)].
    exists evs. split; [exact Ht|].
    split; [now apply count_events_forall_false|].
    split; [apply loop_body_stays_stopped | reflexivity].
  - exists []. rewrite app_nil_r. repeat split; auto.
  - exists []. rewrite app_nil_r. destruct l; repeat split; auto.
  - exists [EvTimerStart h (loop_interval cfg l) l]. repeat split; auto.
  - exists []. rewrite app_nil_r. repeat split; auto.
Qed.

Lemma stop_step_spec (p : stop_point) (s : state) :
  exists evs,
    trace (snd (stop_step p s)) = trace s ++ evs /\
    count_events is_timer_start evs = 0%nat /\
    (_running s = false -> _running (snd (stop_step p s)) = false).
Proof.
  destruct p; cbn [stop_step fst snd].
  - exists []. rewrite app_nil_r. repeat split.
  - destruct (_timer s) as [h|].
    + exists [EvTimerCancel h]. repeat split; auto.
    + exists []. rewrite app_nil_r. repeat split; auto.
  - destruct (_ups_timer s) as [h|].
    + exists [EvTimerCancel h]. repeat split; auto.
    + exists []. rewrite app_nil_r. repeat split; auto.
  - exists []. rewrite app_nil_r. repeat split; auto.
Qed.

(** The timers a run of the two threads starts, under any schedule. *)
Lemma interleave_starts (cfg : config) (env : environment) (l : loop_id)
    (schedule : list thread) :
  forall (c : loop_point) (p : stop_point) (s : state),
  exists evs,
    trace (state_of (interleave cfg env l schedule (c, p, s)))
      = trace s ++ evs /\
    (count_events is_timer_start evs <= 1)%nat /\
    (c = Returned -> count_events is_timer_start evs = 0%nat) /\
    (_running s = false -> arming c = false ->
     count_events is_timer_start evs = 0%nat) /\
    (_running s = false ->
     _running (state_of (interleave cfg env l schedule (c, p, s))) = false) /\
    ((exists h, c = AtStart h) -> (1 <= loop_steps schedule)%nat ->
     count_events is_timer_start evs = 1%nat) /\
    (c = AtCreate -> (2 <= loop_steps schedule)%nat ->
     count_events is_timer_start evs = 1%nat).
Proof.
  induction schedule as [|t rest IH]; intros c p s.
  - exists []. cbn [interleave state_of snd loop_steps].
    rewrite app_nil_r. unfold count_events. cbn.
    repeat split; auto; intros; lia.
  - cbn [interleave]. destruct t; cbn [thread_step loop_of stop_of state_of
                                        fst snd loop_steps].
    + destruct (loop_step_spec cfg env l c s) as (evs1 & Ht1 & Hc1 & Hr1 & Hn1).
      destruct (loop_step cfg env l c s) as [c1 s1]. cbn [fst snd] in *.
      destruct (IH c1 p s1) as (evs2 & Ht2 & Hle & Hret & Hstop & Hrun & Hst & Hcr).
      exists (evs1 ++ evs2). rewrite Ht2, Ht1, app_assoc, count_events_app, Hc1.
      split; [reflexivity|].
      destruct c; subst c1; cbn [arming].
      * (* entry guard *)
        split; [lia|]. split; [discriminate|]. split.
        { intros Hf _. rewrite Hf in *. cbn. now apply Hret. }
        split; [intros Hf; now apply Hrun, Hr1|].
        split; [intros [h Hh]; discriminate | discriminate].
      * (* body *)
        split; [lia|]. split; [discriminate|]. split.
        { intros Hf _. cbn. apply Hstop; [now apply Hr1 | reflexivity]. }
        split; [intros Hf; now apply Hrun, Hr1|].
        split; [intros [h Hh]; discriminate | discriminate].
      * (* test *)
        split; [lia|]. split; [discriminate|]. split.
        { intros Hf _. rewrite Hf in *. cbn. now apply Hret. }
        split; [intros Hf; now apply Hrun, Hr1|].
        split; [intros [h Hh]; discriminate | discriminate].
      * (* timer made and stored *)
        split; [lia|]. split; [discriminate|]. split; [discriminate|].
        split; [intros Hf; now apply Hrun, Hr1|].
        split; [intros [h Hh]; discriminate|].
        intros _ Hn. cbn. apply Hst; [eauto | lia].
      * (* start *)
        rewrite (Hret eq_refl).
        split; [lia|]. split; [discriminate|]. split; [discriminate|].
        split; [intros Hf; now apply Hrun, Hr1|].
        split; [reflexivity | discriminate].
      * (* returned *)
        rewrite (Hret eq_refl).
        split; [lia|]. split; [reflexivity|]. split; [reflexivity|].
        split; [intros Hf; now apply Hrun, Hr1|].
        split; [intros [h Hh]; discriminate | discriminate].
    + destruct (stop_step_spec p s) as (evs1 & Ht1 & Hc1 & Hr1).
      destruct (stop_step p s) as [p1 s1]. cbn [fst snd] in *.
      destruct (IH c p1 s1) as (evs2 & Ht2 & Hle & Hret & Hstop & Hrun & Hst & Hcr).
      exists (evs1 ++ evs2). rewrite Ht2, Ht1, app_assoc, count_events_app, Hc1.
      cbn [Nat.add].
      split; [reflexivity|]. split; [exact Hle|]. split; [exact Hret|].
      split; [intros Hf Ha; apply Hstop; auto|].
      split; [intros Hf; now apply Hrun, Hr1|].
      split; [exact Hst | exact Hcr].
Qed.

Ltac step_threads :=
  cbn [repeat interleave thread_step loop_of stop_of state_of fst snd
       loop_step stop_step negb].

(** The statements of a loop, executed without a switch, are a call of
    the loop. *)
Lemma loop_thread_alone (cfg : config) (env : environment) (l : loop_id)
    (p : stop_point) (s : state) :
  interleave cfg env l (repeat LoopThread 5) (AtGuard, p, s)
  = (Returned, p, snd (loop_call cfg env l s)).
Proof.
  destruct (_running s) eqn:Hrun.
  - assert (Hc : loop_call cfg env l s =
              (Ret tt,
               let s1 := snd (loop_body cfg env l s) in
               if _running s1
               then snd (timer_start (length (trace s1)) (loop_interval cfg l) l
                           (snd (loop_set_handle l (Some (length (trace s1))) s1)))
               else s1)).
    { destruct l; cbn [loop_call loop_body loop_interval loop_set_handle].
      - exact (cycle_eq (collect_cycle_body cfg env) set_timer
                 (PUBLISH_INTERVAL cfg) MeasureLoop s Hrun (fun _ _ => eq_refl)).
      - exact (cycle_eq (ups_cycle_body cfg env) set_ups_timer
                 (UPS_CHECK_INTERVAL cfg) UPSLoop s Hrun (fun _ _ => eq_refl)). }
    rewrite Hc. cbv zeta. cbn [snd].
    step_threads. rewrite Hrun. step_threads.
    rewrite try_except_swallow. cbn [snd].
    destruct (_running (snd (loop_body cfg env l s))); step_threads;
      reflexivity.
  - assert (Hc : loop_call cfg env l s = (Ret tt, s)).
    { destruct l; cbn [loop_call];
        [unfold collect_and_publish | unfold ups_monitoring_cycle];
        unfold bind, get; now rewrite Hrun. }
    rewrite Hc. step_threads. rewrite Hrun. step_threads. reflexivity.
Qed.

(** The statements of [stop()], executed without a switch, are [stop()]. *)
Lemma stop_thread_alone (cfg : config) (env : environment) (l : loop_id)
    (c : loop_point) (s : state) :
  interleave cfg env l (repeat StopThread 3) (c, AtFlag, s)
  = (c, Stopped, snd (stop s)).
Proof.
  cbn [repeat interleave thread_step loop_of stop_of state_of fst snd stop_step].
  rewrite stop_eq. unfold set_running, modify, timer_cancel, emit, ret.
  cbn. destruct (_timer s), (_ups_timer s); cbn;
    rewrite <- ?app_assoc, ?app_nil_r; reflexivity.
Qed.

(** C7, as the code has it.  A call of either loop returns without
    raising, whatever happens in its body, and starts exactly one timer
    when [_running] is true at its end and none when it is false; the
    measurement loop leaves [_running] as it was, and when the body of
    either loop raises while [_running] is true the timer is still
    started.  With [stop()] on another thread, under every schedule of
    the statements of the two: the test of the [finally] block lets a
    loop go on to its timer exactly when it reads [_running] as true; a
    loop starts at most one timer; a loop that has not yet passed the
    test when [_running] is false starts none, so the test is what
    keeps a stopped loop from rescheduling itself; but a loop that has
    passed the test starts its timer whatever [stop()] does in between,
    after [stop()] has returned included.  Once [_running] is false it stays false, and
    whichever callbacks fire from then on, that of such a late timer
    included, change nothing and start no timer. *)
Theorem C7_loops_rearm (cfg : config) (env : environment) (s : state) :
  let armed (cycle : M unit) :=
    count_events is_timer_start (new_events cycle s) in
  let started (l : loop_id) (schedule : list thread) (c : loop_point)
      (p : stop_point) :=
    count_events is_timer_start
      (events_since s (state_of (interleave cfg env l schedule (c, p, s)))) in
  (fst (ups_monitoring_cycle cfg env s) = Ret tt /\
   armed (ups_monitoring_cycle cfg env)
     = (if _running (snd (ups_monitoring_cycle cfg env s)) then 1 else 0)%nat /\
   (forall e, _running s = true ->
      fst (ups_cycle_body cfg env s) = Raise e ->
      armed (ups_monitoring_cycle cfg env) = 1%nat)) /\
  (fst (collect_and_publish cfg env s) = Ret tt /\
   armed (collect_and_publish cfg env)
     = (if _running (snd (collect_and_publish cfg env s)) then 1 else 0)%nat /\
   _running (snd (collect_and_publish cfg env s)) = _running s /\
   (forall e, _running s = true ->
      fst (collect_cycle_body cfg env s) = Raise e ->
      armed (collect_and_publish cfg env) = 1%nat)) /\
  (forall l p c,
     interleave cfg env l (repeat LoopThread 5) (AtGuard, p, s)
       = (Returned, p, snd (loop_call cfg env l s)) /\
     interleave cfg env l (repeat StopThread 3) (c, AtFlag, s)
       = (c, Stopped, snd (stop s))) /\
  (forall l,
     loop_step cfg env l AtTest s
     = (if _running s then AtCreate else Returned, s)) /\
  (forall l schedule c p,
     (started l schedule c p <= 1)%nat /\
     (_running s = false -> arming c = false ->
      started l schedule c p = 0%nat) /\
     ((2 <= loop_steps schedule)%nat ->
      started l schedule AtCreate p = 1%nat) /\
     (_running s = false ->
      let s' := state_of (interleave cfg env l schedule (c, p, s)) in
      _running s' = false /\
      forall callbacks, run_callbacks cfg env callbacks s' = s')) /\
  (_running (snd (stop s)) = false /\
   forall callbacks,
     run_callbacks cfg env callbacks (snd (stop s)) = snd (stop s)).
Proof.
  intros armed started. subst armed started. cbv beta.
  destruct (cycle_spec (ups_cycle_body cfg env) set_ups_timer
              (UPS_CHECK_INTERVAL cfg) UPSLoop s
              (frame_ups_cycle_body cfg env) set_ups_timer_spec)
    as (U1 & U2 & U3 & U4).
  destruct (cycle_spec (collect_cycle_body cfg env) set_timer
              (PUBLISH_INTERVAL cfg) MeasureLoop s
              (frame_collect_cycle_body cfg env false) set_timer_spec)
    as (C1 & C2 & C3 & C4).
  fold (ups_monitoring_cycle cfg env) in U1, U2, U3, U4.
  fold (collect_and_publish cfg env) in C1, C2, C3, C4.
  assert (Hkeep : _running (snd (collect_and_publish cfg env s)) = _running s).
  { destruct (_running s) eqn:Hr.
    - rewrite (C4 eq_refl).
      destruct (frame_collect_cycle_body cfg env true s) as [Hk _].
      rewrite Hk by reflexivity. exact Hr.
    - now rewrite (C3 eq_refl). }
  split; [|split; [|split; [|split; [|split]]]].
  - split; [exact U1|]. split; [exact U2|].
    intros e Hr He. rewrite U2, (U4 Hr).
    now rewrite (ups_cycle_body_raise cfg env s e He), Hr.
  - split; [exact C1|]. split; [exact C2|]. split; [exact Hkeep|].
    intros e Hr _. now rewrite C2, Hkeep, Hr.
  - intros l p c. split; [apply loop_thread_alone | apply stop_thread_alone].
  - intros l. reflexivity.
  - intros l schedule c p.
    destruct (interleave_starts cfg env l schedule c p s)
      as (evs & Ht & Hle & _ & Hstop & Hrun & _ & _).
    rewrite (events_since_app _ _ _ Ht).
    split; [exact Hle|]. split; [exact Hstop|]. split.
    + intros Hn.
      destruct (interleave_starts cfg env l schedule AtCreate p s)
        as (evs' & Ht' & _ & _ & _ & _ & _ & Hcr).
      rewrite (events_since_app _ _ _ Ht'). now apply Hcr.
    + intros Hf. cbv zeta. split; [now apply Hrun|].
      intros callbacks. apply run_callbacks_stopped. now apply Hrun.
  - destruct (stop_spec s) as [_ Hs]. split; [exact Hs|].
    intros callbacks. now apply run_callbacks_stopped.
Qed.

(** Without alert thresholds and with a battery reading of 55 both
    bodies raise [KeyError], and both loops still start their timer; and
    a measurement loop that stands at its test in a stopped system
    starts no timer, whatever the schedule. *)
Lemma C7_loops_rearm_witness :
  let env := scripted_env [Ret 55; Ret 55] true [] in
  let s := running_state cfg_without_thresholds in
  fst (collect_cycle_body cfg_without_thresholds env s)
    = Raise (KeyError "ups_battery_low") /\
  count_events is_timer_start
    (new_events (collect_and_publish cfg_without_thresholds env) s) = 1%nat /\
  count_events is_timer_start
    (new_events (ups_monitoring_cycle cfg_without_thresholds env) s) = 1%nat /\
  count_events is_timer_start
    (events_since (initial_state scenario_cfg)
       (state_of (interleave scenario_cfg env MeasureLoop
                    [StopThread; LoopThread; StopThread; LoopThread]
                    (AtTest, AtFlag, initial_state scenario_cfg)))) = 0%nat.
Proof.
  intros env s.
  destruct (C7_loops_rearm cfg_without_thresholds env s)
    as ((_ & _ & Hu) & (_ & _ & _ & Hc) & _).
  destruct (C7_loops_rearm scenario_cfg env (initial_state scenario_cfg))
    as (_ & _ & _ & _ & Hi & _).
  destruct (Hi MeasureLoop [StopThread; LoopThread; StopThread; LoopThread]
              AtTest AtFlag) as (_ & Hstop & _).
  split; [vm_compute; reflexivity|]. split; [|split].
  - apply (Hc (KeyError "ups_battery_low")); vm_compute; reflexivity.
  - apply (Hu (KeyError "ups_battery_low")); vm_compute; reflexivity.
  - apply Hstop; reflexivity.
Defined.

(** C7 as stated fails when [stop()] runs on another thread between the
    test of the [finally] block and [start()].  The measurement loop
    passes its guard, runs its body and passes its test; then [stop()]
    runs to its end, [_running] is false; then the loop makes and starts
    its timer: it has rescheduled itself after [stop()]. *)
Lemma C7_counterexample :
  let cfg := scenario_cfg in
  let env := scripted_env [Ret 55] true [] in
  let c1 := interleave cfg env MeasureLoop
              [LoopThread; LoopThread; LoopThread;
               StopThread; StopThread; StopThread]
              (AtGuard, AtFlag, running_state cfg) in
  let c2 := interleave cfg env MeasureLoop [LoopThread; LoopThread] c1 in
  loop_of c1 = AtCreate /\
  stop_of c1 = Stopped /\
  _running (state_of c1) = false /\
  loop_of c2 = Returned /\
  _running (state_of c2) = false /\
  exists h,
    events_since (state_of c1) (state_of c2)
    = [EvTimerStart h (PUBLISH_INTERVAL cfg) MeasureLoop].
Proof. vm_compute. repeat split. eexists. reflexivity. Qed.

(** ** The local log *)

Lemma log_data_events (env : environment) (s : state) :
  let line := env_timestamp env (trace s) +:+ "," +:+
              join "," (csv_fields (sensor_data s)) +:+ nl in
  exists r backup,
    new_events (log_data env) s = EvAppend line r :: backup /\
    Forall (fun e => match e with EvBackup _ => True | _ => False end) backup.
Proof.
  intros line. unfold new_events, log_data. run_monad. fold line.
  destruct (env_append env (trace s) line) as [[]|e]; run_monad.
  - match goal with |- context [env_backup env ?t] =>
      destruct (env_backup env t) as [[]|e] end;
      cbn; rewrite <- app_assoc, skipn_length_app; eauto.
  - cbn. rewrite skipn_length_app. eauto.
Qed.

(** C9 on a snapshot with a value of 0.  One line is appended, with the
    timestamp and the seven fields; an absent value gives the empty
    field and a non-zero value its text; but a value of 0 gives the empty
    field too: with the pump current 0.0 and the battery level 0 the
    line ends in the fields [,,120.0,] where the claim has
    [,0.0,120.0,0]. *)
Theorem C9_zero_logged_as_empty :
  (forall (env : environment) (s : state),
     exists r backup,
       new_events (log_data env) s
       = EvAppend (env_timestamp env (trace s) +:+ "," +:+
                   join "," (csv_fields (sensor_data s)) +:+ nl) r
         :: backup /\
       Forall (fun e => match e with EvBackup _ => True | _ => False end)
         backup) /\
  or_empty None = "" /\
  (forall v, py_truthy v = true -> or_empty (Some v) = py_str v) /\
  or_empty (Some (PyInt 0)) = "" /\
  or_empty (Some (PyFloat 0)) = "" /\
  new_events (log_data blank_env) (with_data stopped_pump_data scenario_cfg)
  = [EvAppend ("2024-05-01,12:00:00,21.5,7.2,410.0,500.0,,120.0," +:+ nl)
       (Ret tt);
     EvBackup (Ret tt)].
Proof.
  split; [exact log_data_events|].
  split; [reflexivity|]. split.
  - intros v Hv. cbn [or_empty]. now rewrite Hv.
  - repeat split; vm_compute; reflexivity.
Qed.

(** * Further properties of the code *)

(** ** Reading the battery *)

(** X1.  When the I2C read answers a word, [get_battery_level] makes no
    other read and returns the low byte of the word, capped at 100: the
    level lies in 0..100 and the high byte of the word plays no part. *)
Theorem X1_battery_level_from_i2c (env : environment) (s : state) (w : Z) :
  env_i2c_word env (trace s) = Ret w ->
  get_battery_level env s =
    (Ret (Some (Z.min 100 (w mod 256))),
     with_trace (trace s ++ [EvI2CRead (Ret w)]) s) /\
  0 <= Z.min 100 (w mod 256) <= 100.
Proof.
  intros Hw. split.
  - unfold get_battery_level, read_battery_i2c. run_monad. rewrite Hw.
    run_monad. change 255 with (Z.ones 8). rewrite Z.land_ones by lia.
    change (2 ^ 8) with 256.
    rewrite Z.max_r; [reflexivity|].
    pose proof (Z.mod_pos_bound w 256). lia.
  - pose proof (Z.mod_pos_bound w 256). lia.
Qed.

Lemma X1_battery_level_from_i2c_witness :
  fst (get_battery_level (scripted_env [Ret 511] true [])
         (initial_state scenario_cfg))
  = Ret (Some 100).
Proof.
  destruct (X1_battery_level_from_i2c (scripted_env [Ret 511] true [])
              (initial_state scenario_cfg) 511) as [H _].
  - reflexivity.
  - rewrite H. reflexivity.
Defined.

Lemma read_battery_sysfs_missing (env : environment) (paths : list string)
    (s : state) :
  (forall p, In p paths -> env_sysfs env (trace s) p = None) ->
  read_battery_sysfs env paths s = (Ret None, s).
Proof.
  induction paths as [|p rest IH]; intros H; cbn [read_battery_sysfs];
    [reflexivity|].
  unfold bind at 1. unfold get at 1. cbv beta iota.
  rewrite (H p) by now left. apply IH. intros q Hq. apply H. now right.
Qed.

Lemma read_battery_sysfs_first (env : environment)
    (before after : list string) (p : string) (r : res Z) (s : state) :
  (forall q, In q before -> env_sysfs env (trace s) q = None) ->
  env_sysfs env (trace s) p = Some r ->
  read_battery_sysfs env (before ++ p :: after) s =
    (match r with Ret z => Ret (Some z) | Raise e => Raise e end,
     with_trace (trace s ++ [EvSysfsRead p r]) s).
Proof.
  induction before as [|q rest IH]; intros Hb Hp; cbn [app read_battery_sysfs].
  - run_monad. rewrite Hp. run_monad. now destruct r.
  - unfold bind at 1. unfold get at 1. cbv beta iota.
    rewrite (Hb q) by now left. apply IH; [|exact Hp].
    intros q' Hq'. apply Hb. now right.
Qed.

(** X2.  When the I2C read raises, the capacity files are tried in
    order.  If none exists the level is unknown.  Otherwise only the
    first one that exists is read: its value is the level, as it is and
    without the cap at 100, and if reading it fails the level is unknown
    and the later files are not tried.  No exception escapes. *)
Theorem X2_battery_level_from_sysfs (env : environment) (s : state) (e : exn) :
  env_i2c_word env (trace s) = Raise e ->
  let t := trace s ++ [EvI2CRead (Raise e)] in
  ((forall p, In p battery_paths -> env_sysfs env t p = None) ->
   get_battery_level env s = (Ret None, with_trace t s)) /\
  (forall before p after r,
     battery_paths = before ++ p :: after ->
     (forall q, In q before -> env_sysfs env t q = None) ->
     env_sysfs env t p = Some r ->
     get_battery_level env s =
       (Ret (match r with Ret z => Some z | Raise _ => None end),
        with_trace (t ++ [EvSysfsRead p r]) s)).
Proof.
  intros He t.
  assert (Hstart : forall k : M (option Z),
            try_except
              (battery_level <- read_battery_i2c env;; ret (Some battery_level))
              (fun _ => k) s = k (with_trace t s)).
  { intros k. unfold read_battery_i2c. run_monad. now rewrite He. }
  split.
  - intros Hnone. unfold get_battery_level. rewrite Hstart.
    unfold try_except.
    now rewrite (read_battery_sysfs_missing env battery_paths (with_trace t s)).
  - intros before p after r Hsplit Hbefore Hp.
    unfold get_battery_level. rewrite Hstart. unfold try_except.
    rewrite Hsplit.
    rewrite (read_battery_sysfs_first env before after p r (with_trace t s))
      by assumption.
    destruct r; reflexivity.
Qed.

Lemma X2_battery_level_from_sysfs_witness :
  let env :=
    {| env_i2c_word := fun _ => Raise OSError;
       env_sysfs := fun _ p =>
         if String.eqb p "/sys/class/power_supply/battery/capacity"
         then Some (Ret 150) else None;
       env_run := env_run blank_env; env_post := env_post blank_env;
       env_time_ms := env_time_ms blank_env;
       env_timestamp := env_timestamp blank_env;
       env_temperature := env_temperature blank_env;
       env_voltage := env_voltage blank_env; env_echo := env_echo blank_env;
       env_append := env_append blank_env;
       env_backup := env_backup blank_env |} in
  fst (get_battery_level env (initial_state scenario_cfg)) = Ret (Some 150).
Proof.
  intros env.
  destruct (X2_battery_level_from_sysfs env (initial_state scenario_cfg) OSError)
    as [_ H]; [reflexivity|].
  rewrite (H ["/sys/class/power_supply/ups-battery/capacity"]
             "/sys/class/power_supply/battery/capacity"
             ["/sys/class/power_supply/ups/capacity"] (Ret 150)).
  - reflexivity.
  - reflexivity.
  - intros q [<- | []]. reflexivity.
  - reflexivity.
Defined.

(** ** The shutdown routine and the battery check *)

(** X3.  On its first call [safe_shutdown] returns normally whatever the
    commands do.  It notifies, waits 30 s and runs the shutdown command;
    the power-off command is run exactly when the shutdown command
    raised, and its own failure is swallowed. *)
Theorem X3_shutdown_fallback (env : environment) (s : state) :
  shutdown_triggered (ups_monitor s) = false ->
  let lvl := last_battery_level (ups_monitor s) in
  let t := trace s ++ [EvNotify true (emergency_message lvl); EvSleep 30] in
  let r1 := env_run env t shutdown_cmd in
  let r2 := env_run env (t ++ [EvRun shutdown_cmd r1]) poweroff_cmd in
  fst (safe_shutdown env s) = Ret tt /\
  new_events (safe_shutdown env) s = shutdown_events lvl r1 r2 /\
  count_events is_poweroff_command (new_events (safe_shutdown env) s)
    = match r1 with Ret _ => 0%nat | Raise _ => 1%nat end.
Proof.
  intros Hf lvl t r1 r2.
  assert (H : exists s',
            safe_shutdown env s = (Ret tt, s') /\
            trace s' = trace s ++ shutdown_events lvl r1 r2).
  { assert (Et : (trace s ++ [EvNotify true (emergency_message lvl)])
                   ++ [EvSleep 30] = t)
      by (subst t; now rewrite <- app_assoc).
    subst r2 r1. unfold safe_shutdown. run_monad. rewrite Hf. run_monad.
    fold lvl. rewrite !Et.
    destruct (env_run env t shutdown_cmd) as [[]|e1]; run_monad.
    - eexists. split; [reflexivity|]. cbn. subst t.
      now rewrite <- !app_assoc.
    - destruct (env_run env (t ++ [EvRun shutdown_cmd (Raise e1)])
                  poweroff_cmd) as [[]|e2];
        eexists; (split; [reflexivity|]); cbn; subst t;
        now rewrite <- !app_assoc. }
  destruct H as (s' & Hs & Ht).
  unfold new_events. rewrite Hs. cbn [fst snd]. rewrite Ht, skipn_length_app.
  repeat split. now destruct r1.
Qed.

Lemma X3_shutdown_fallback_witness :
  let env := scripted_env [] false [] in
  new_events (safe_shutdown env) (initial_state scenario_cfg)
  = shutdown_events (Some 100) (Raise CalledProcessError)
      (Raise CalledProcessError).
Proof.
  intros env.
  destruct (X3_shutdown_fallback env (initial_state scenario_cfg))
    as (_ & H & _); [reflexivity|].
  exact H.
Defined.

(** [safe_shutdown] touches the UPS monitor and the trace only, and of
    the monitor only the flag. *)
Lemma safe_shutdown_fields (env : environment) (s : state) :
  exists u evs,
    snd (safe_shutdown env s) = with_ups u (trace s ++ evs) s /\
    last_battery_level u = last_battery_level (ups_monitor s) /\
    shutdown_threshold u = shutdown_threshold (ups_monitor s).
Proof.
  unfold safe_shutdown. run_monad.
  destruct (shutdown_triggered (ups_monitor s)); run_monad.
  - exists (ups_monitor s), []. rewrite app_nil_r.
    repeat split. now destruct s.
  - match goal with |- context [env_run env ?t shutdown_cmd] =>
      destruct (env_run env t shutdown_cmd) as [[]|e1] end; run_monad.
    + eexists _, [_; _; _]. cbn. rewrite <- !app_assoc. repeat split.
    + match goal with |- context [env_run env ?t poweroff_cmd] =>
        destruct (env_run env t poweroff_cmd) as [[]|e2] end;
      eexists _, [_; _; _; _]; cbn; rewrite <- !app_assoc; repeat split.
Qed.

(** [check_battery] touches the UPS monitor and the trace only. *)
Lemma check_battery_fields (cfg : config) (env : environment) (s : state) :
  exists u evs,
    snd (check_battery cfg env s) = with_ups u (trace s ++ evs) s /\
    shutdown_threshold u = shutdown_threshold (ups_monitor s).
Proof.
  destruct (get_battery_level_trace env s) as (lvl & evs0 & Hg & _).
  unfold check_battery. unfold bind at 1. rewrite Hg. run_monad.
  destruct lvl as [l|].
  2:{ eexists _, evs0. split; reflexivity. }
  run_monad.
  destruct (py_le (PyInt l) (shutdown_threshold (ups_monitor s))); run_monad.
  - match goal with |- context [safe_shutdown env ?x] =>
      destruct (safe_shutdown_fields env x) as (u & evs & Hs & _ & Hthr);
      destruct (safe_shutdown env x) as [[[]|e] s'] end;
      cbn [snd] in *; subst s'; cbn in Hthr |- *;
      eexists u, (evs0 ++ evs); rewrite <- app_assoc; split; auto.
  - unfold threshold.
    destruct (ALERT_THRESHOLDS cfg !! "ups_battery_low") as [low|]; run_monad.
    + destruct (py_le (PyInt l) low); run_monad.
      * eexists _, (evs0 ++ [_]). rewrite <- app_assoc. split; reflexivity.
      * eexists _, evs0. split; reflexivity.
    + eexists _, evs0. split; reflexivity.
Qed.

(** The four ways a battery check goes, by the reading and the
    thresholds. *)
Lemma check_battery_cases (cfg : config) (env : environment) (s : state) :
  exists reading reads,
    get_battery_level env s = (Ret reading, with_trace (trace s ++ reads) s) /\
    Forall (fun e => is_battery_read e = true) reads /\
    let s1 := with_trace (trace s ++ reads)
                (snd (set_last_battery_level reading s)) in
    check_battery cfg env s =
      match reading with
      | None => (Ret true, s1)
      | Some l =>
          if py_le (PyInt l) (shutdown_threshold (ups_monitor s))
          then (Ret false, snd (safe_shutdown env s1))
          else
            match ALERT_THRESHOLDS cfg !! "ups_battery_low" with
            | None => (Raise (KeyError "ups_battery_low"), s1)
            | Some low =>
                if py_le (PyInt l) low
                then (Ret true,
                      snd (emit (EvNotify true
                                   (warning_message l
                                      (shutdown_threshold (ups_monitor s))))
                             s1))
                else (Ret true, s1)
            end
      end.
Proof.
  destruct (get_battery_level_trace env s) as (lvl & evs0 & Hg & Hev).
  exists lvl, evs0. split; [exact Hg|]. split; [exact Hev|].
  unfold check_battery. unfold bind at 1. rewrite Hg. run_monad.
  destruct lvl as [l|]; [|reflexivity]. run_monad.
  destruct (py_le (PyInt l) (shutdown_threshold (ups_monitor s))); run_monad.
  - match goal with |- context [safe_shutdown env ?x] =>
      destruct (safe_shutdown_fields env x) as (u & evs & Hs & _);
      destruct (safe_shutdown env x) as [[[]|e] s'] eqn:Hss end.
    + reflexivity.
    + exfalso. revert Hss. unfold safe_shutdown. run_monad.
      destruct (shutdown_triggered (ups_monitor s)); run_monad;
        [discriminate|].
      repeat match goal with
      | |- context [env_run env ?t ?c] => destruct (env_run env t c) as [[]|?]
      end; discriminate.
  - unfold threshold.
    destruct (ALERT_THRESHOLDS cfg !! "ups_battery_low") as [low|]; run_monad;
      [|reflexivity].
    destruct (py_le (PyInt l) low); reflexivity.
Qed.

(** X4.  [check_battery] records the reading as [last_battery_level] on
    every call, an unknown reading included.  It returns [False] exactly
    when the reading is known and at or below the shutdown threshold.  An
    unknown reading returns [True], leaves the flag alone and sends
    nothing. *)
Theorem X4_check_battery_result (cfg : config) (env : environment)
    (s : state) :
  let s' := snd (check_battery cfg env s) in
  exists reading,
    fst (get_battery_level env s) = Ret reading /\
    last_battery_level (ups_monitor s') = reading /\
    (fst (check_battery cfg env s) = Ret false <->
     exists l, reading = Some l /\
       (inject_Z l <= py_to_Q (shutdown_threshold (ups_monitor s)))%Q) /\
    (reading = None ->
     fst (check_battery cfg env s) = Ret true /\
     shutdown_triggered (ups_monitor s') = shutdown_triggered (ups_monitor s) /\
     count_events is_notification (new_events (check_battery cfg env) s)
       = 0%nat).
Proof.
  intros s'. subst s'.
  destruct (check_battery_cases cfg env s) as (reading & reads & Hg & Hr & Hc).
  cbv zeta in Hc. exists reading. rewrite Hg. split; [reflexivity|].
  unfold new_events. rewrite Hc. clear Hc.
  destruct reading as [l|].
  - destruct (py_le (PyInt l) (shutdown_threshold (ups_monitor s))) eqn:Hle.
    + cbn [fst snd].
      match goal with |- context [safe_shutdown env ?x] =>
        destruct (safe_shutdown_fields env x) as (u & evs & Hs & Hl & _) end.
      rewrite Hs. cbn [with_ups ups_monitor]. rewrite Hl.
      split; [reflexivity|]. split; [|discriminate]. split; [|reflexivity].
      intros _. exists l. split; [reflexivity|].
      now apply (py_le_true (PyInt l)).
    + assert (Hno : ~ exists l0, Some l = Some l0 /\
                (inject_Z l0 <= py_to_Q (shutdown_threshold (ups_monitor s)))%Q).
      { intros (l0 & [= <-] & Hq). apply (py_le_true (PyInt l)) in Hq.
        congruence. }
      destruct (ALERT_THRESHOLDS cfg !! "ups_battery_low") as [low|];
        [destruct (py_le (PyInt l) low)|]; cbn;
        (split; [reflexivity|]); (split; [|discriminate]);
        (split; [discriminate | intros H; contradiction]).
  - cbn. split; [reflexivity|]. split.
    + split; [discriminate | intros (l & Hl & _); discriminate].
    + intros _. repeat split. rewrite skipn_length_app.
      unfold count_events. now rewrite battery_reads_not_notifications.
Qed.

(** X5.  Without the key ["ups_battery_low"] in the alert thresholds, a
    reading above the shutdown threshold makes [check_battery] raise
    [KeyError] after it has recorded the level, with no notification and
    the flag unchanged; a reading at or below the shutdown threshold is
    handled as with any other thresholds, since that path never looks
    the key up. *)
Theorem X5_missing_warning_threshold (cfg : config) (env : environment)
    (s : state) (l : Z) :
  fst (get_battery_level env s) = Ret (Some l) ->
  ALERT_THRESHOLDS cfg !! "ups_battery_low" = None ->
  let s' := snd (check_battery cfg env s) in
  (py_le (PyInt l) (shutdown_threshold (ups_monitor s)) = false ->
   fst (check_battery cfg env s) = Raise (KeyError "ups_battery_low") /\
   last_battery_level (ups_monitor s') = Some l /\
   shutdown_triggered (ups_monitor s') = shutdown_triggered (ups_monitor s) /\
   count_events is_notification (new_events (check_battery cfg env) s)
     = 0%nat) /\
  (py_le (PyInt l) (shutdown_threshold (ups_monitor s)) = true ->
   forall cfg', check_battery cfg env s = check_battery cfg' env s).
Proof.
  intros Hl Hkey s'. subst s'.
  destruct (check_battery_cases cfg env s) as (reading & reads & Hg & Hr & Hc).
  cbv zeta in Hc. rewrite Hg in Hl. cbn in Hl. injection Hl as ->.
  split; intros Hle.
  - unfold new_events. rewrite Hc, Hle, Hkey. cbn.
    repeat split. rewrite skipn_length_app.
    unfold count_events. now rewrite battery_reads_not_notifications.
  - intros cfg'.
    destruct (check_battery_cases cfg' env s) as (reading' & reads' & Hg' & _ & Hc').
    cbv zeta in Hc'. rewrite Hg in Hg'. injection Hg' as <- Ht.
    apply app_inv_head in Ht. subst reads'. rewrite Hc, Hc', Hle. reflexivity.
Qed.

Lemma X5_missing_warning_threshold_witness :
  let env := scripted_env [Ret 55] true [] in
  fst (check_battery cfg_without_thresholds env
         (initial_state cfg_without_thresholds))
  = Raise (KeyError "ups_battery_low").
Proof.
  intros env.
  destruct (X5_missing_warning_threshold cfg_without_thresholds env
              (initial_state cfg_without_thresholds) 55) as [H _].
  - reflexivity.
  - reflexivity.
  - apply H. reflexivity.
Defined.

(** ** Which events a method can add *)

Section Emits.

Variable allowed : event -> bool.

Lemma emits_ret {A} (a : A) : emits allowed (ret a).
Proof. intros s. exists []. now rewrite app_nil_r. Qed.

Lemma emits_raise {A} (e : exn) : emits allowed (@raise A e).
Proof. intros s. exists []. now rewrite app_nil_r. Qed.

Lemma emits_lift {A} (r : res A) : emits allowed (lift r).
Proof. intros s. exists []. now rewrite app_nil_r. Qed.

Lemma emits_get : emits allowed get.
Proof. intros s. exists []. now rewrite app_nil_r. Qed.

Lemma emits_bind {A B} (m : M A) (k : A -> M B) :
  emits allowed m -> (forall a, emits allowed (k a)) ->
  emits allowed (bind m k).
Proof.
  intros Hm Hk s. unfold bind.
  destruct (Hm s) as (evs & Ht & Hq).
  destruct (m s) as [[a|e] s1]; cbn [snd] in *; [|eauto].
  destruct (Hk a s1) as (evs' & Ht' & Hq').
  exists (evs ++ evs'). rewrite Ht', Ht, app_assoc.
  split; [reflexivity | now apply Forall_app].
Qed.

Lemma emits_try_except {A} (m : M A) (h : exn -> M A) :
  emits allowed m -> (forall e, emits allowed (h e)) ->
  emits allowed (try_except m h).
Proof.
  intros Hm Hh s. unfold try_except.
  destruct (Hm s) as (evs & Ht & Hq).
  destruct (m s) as [[a|e] s1]; cbn [snd] in *; [eauto|].
  destruct (Hh e s1) as (evs' & Ht' & Hq').
  exists (evs ++ evs'). rewrite Ht', Ht, app_assoc.
  split; [reflexivity | now apply Forall_app].
Qed.

Lemma emits_emit (e : event) : allowed e = true -> emits allowed (emit e).
Proof. intros He s. exists [e]. split; [reflexivity | now constructor]. Qed.

Lemma emits_modify (f : state -> state) :
  (forall s, trace (f s) = trace s) -> emits allowed (modify f).
Proof. intros Hf s. exists []. cbn. now rewrite Hf, app_nil_r. Qed.

End Emits.

Lemma emits_weaken {A} (p q : event -> bool) (m : M A) :
  (forall e, p e = true -> q e = true) -> emits p m -> emits q m.
Proof.
  intros Hpq Hm s. destruct (Hm s) as (evs & Ht & Hq).
  exists evs. split; [exact Ht|]. clear Ht.
  induction Hq as [|e l He _ IH]; [constructor|].
  constructor; [apply Hpq; exact He | exact IH].
Qed.


Ltac emits_step :=
  first
    [ apply emits_ret | apply emits_raise | apply emits_lift | apply emits_get
    | apply emits_emit; reflexivity
    | apply emits_modify; intros ?; reflexivity
    | apply emits_bind; [|intros ?]
    | apply emits_try_except; [|intros ?]
    | match goal with
      | |- emits _ (match ?x with _ => _ end) => destruct x
      end ].

Ltac emits_auto := repeat emits_step.

Section EmitsFacts.

Variable cfg : config.
Variable env : environment.

Lemma emits_read_battery_sysfs (paths : list string) :
  emits is_battery_read (read_battery_sysfs env paths).
Proof.
  induction paths as [|p rest IH]; cbn [read_battery_sysfs].
  - emits_auto.
  - apply emits_bind; [apply emits_get|]. intros s.
    destruct (env_sysfs env (trace s) p); [|exact IH].
    unfold emit. emits_auto.
Qed.

Lemma emits_get_battery_level : emits is_battery_read (get_battery_level env).
Proof.
  unfold get_battery_level, read_battery_i2c, emit.
  apply emits_try_except; [emits_auto|]. intros _.
  apply emits_try_except; [apply emits_read_battery_sysfs | intros _; emits_auto].
Qed.

Lemma emits_safe_shutdown : emits is_ups_event (safe_shutdown env).
Proof.
  unfold safe_shutdown, set_shutdown_triggered, set_ups_monitor,
    send_emergency_notification, sleep, subprocess_run, emit.
  emits_auto.
Qed.

Lemma emits_check_battery : emits is_ups_event (check_battery cfg env).
Proof.
  unfold check_battery, set_last_battery_level, set_ups_monitor, threshold,
    send_emergency_notification, emit.
  apply emits_bind.
  { apply (emits_weaken is_battery_read); [|apply emits_get_battery_level].
    intros []; cbn; congruence. }
  intros lvl. emits_auto; apply emits_safe_shutdown.
Qed.

Lemma emits_send_telemetry (device_name : string) (data : pyval) :
  emits is_post (send_telemetry cfg env device_name data).
Proof.
  unfold send_telemetry, new_dict, dict_setitem, deref, session_post,
    set_heap, emit.
  emits_auto.
Qed.

Lemma emits_publish_loop (l : list (string * option pynum)) (a b : Z) :
  emits is_publish_event (publish_loop cfg env l a b).
Proof.
  revert a b. induction l as [|[name [v|]] rest IH]; intros a b;
    cbn [publish_loop]; [emits_auto| |apply IH].
  apply emits_bind.
  { apply (emits_weaken is_post); [|apply emits_send_telemetry].
    intros []; cbn; congruence. }
  intros ok. apply emits_bind; [unfold sleep, emit; emits_auto|].
  intros _. apply IH.
Qed.

Lemma emits_publish_data : emits is_publish_event (publish_data cfg env).
Proof.
  unfold publish_data. apply emits_try_except; [|intros ?; emits_auto].
  apply emits_bind; [apply emits_get|]. intros s.
  apply emits_bind; [apply emits_publish_loop | intros ?; emits_auto].
Qed.

Lemma emits_collect_readings (f : M (option Q)) (n : nat) (acc : list Q) :
  emits is_measure_event f ->
  emits is_measure_event (collect_readings f n acc).
Proof.
  intros Hf. revert acc. induction n as [|n IH]; intros acc;
    cbn [collect_readings]; [emits_auto|].
  apply emits_bind; [exact Hf|]. intros r.
  apply emits_bind; [unfold sleep, emit; emits_auto|]. intros _. apply IH.
Qed.

Lemma emits_measure_filtered (f : M (option Q))
    (upd : option pynum -> SensorData -> SensorData) :
  emits is_measure_event f ->
  emits is_measure_event
    (v <- get_filtered_sample f (SAMPLE_COUNT cfg) (DISCARD_COUNT cfg);;
     store upd (PyFloat <$> v)).
Proof.
  intros Hf. apply emits_bind.
  - unfold get_filtered_sample.
    apply emits_try_except; [|intros ?; emits_auto].
    apply emits_bind; [now apply emits_collect_readings|]. intros readings.
    emits_auto.
  - intros v. unfold store, set_sensor_data. emits_auto.
Qed.

Lemma emits_read_voltage (channel : nat) :
  emits is_measure_event (read_voltage env channel).
Proof. unfold read_voltage, emit. emits_auto. Qed.

Lemma emits_measure_all : emits is_measure_event (measure_all cfg env).
Proof.
  unfold measure_all.
  apply emits_bind.
  { unfold measure_temperature, store, set_sensor_data, emit. emits_auto. }
  intros _. apply emits_bind.
  { apply emits_measure_filtered. unfold ph_measurement.
    apply emits_bind; [apply emits_read_voltage | intros ?; emits_auto]. }
  intros _. apply emits_bind.
  { apply emits_measure_filtered. unfold conductivity_measurement.
    apply emits_bind; [apply emits_read_voltage | intros ?; emits_auto]. }
  intros _. apply emits_bind.
  { apply emits_measure_filtered. unfold rpump_measurement.
    apply emits_bind; [apply emits_read_voltage | intros ?; emits_auto]. }
  intros _. apply emits_bind.
  { apply emits_measure_filtered. unfold dpump_measurement.
    apply emits_bind; [apply emits_read_voltage | intros ?; emits_auto]. }
  intros _. apply emits_bind.
  { apply emits_measure_filtered. unfold level_measurement, sleep, emit.
    emits_auto. }
  intros _. apply emits_bind; [|intros ?; emits_auto].
  unfold measure_ups_battery.
  apply emits_bind.
  { apply (emits_weaken is_battery_read); [|apply emits_get_battery_level].
    intros []; cbn; congruence. }
  intros lvl. unfold store, set_sensor_data. emits_auto.
Qed.

Lemma emits_check_alerts : emits is_notification (check_alerts cfg).
Proof.
  unfold check_alerts, check_two_sided, check_one_sided, threshold,
    send_pushover_notification, emit.
  emits_auto.
Qed.

End EmitsFacts.

(** ** Starting and stopping the loops *)

Lemma filter_disallowed (allowed p : event -> bool) (evs : list event) :
  (forall e, allowed e = true -> p e = false) ->
  Forall (fun e => allowed e = true) evs ->
  List.filter p evs = [].
Proof.
  intros Hp H. induction H as [|e l He _ IH]; [reflexivity|].
  cbn. now rewrite (Hp e He).
Qed.

Lemma filter_cancel_of (h : option handle) :
  List.filter is_timer_cancel (cancel_of h) = cancel_of h /\
  List.filter is_timer_start (cancel_of h) = [].
Proof. now destruct h. Qed.

Lemma ups_event_not_timer (e : event) :
  is_ups_event e = true -> is_timer_cancel e = false /\ is_timer_start e = false.
Proof. destruct e; cbn; intros H; try discriminate; auto. Qed.

(** X6.  When the battery check of a running UPS loop returns [False],
    the loop calls [stop()]: [_running] is false afterwards, each
    outstanding timer handle is cancelled, no timer is started, and
    callbacks that fire later change nothing. *)
Theorem X6_critical_battery_stops_loops (cfg : config) (env : environment)
    (s : state) :
  _running s = true ->
  fst (check_battery cfg env s) = Ret false ->
  let s' := snd (ups_monitoring_cycle cfg env s) in
  let evs := new_events (ups_monitoring_cycle cfg env) s in
  fst (ups_monitoring_cycle cfg env s) = Ret tt /\
  _running s' = false /\
  List.filter is_timer_cancel evs
    = cancel_of (_timer s) ++ cancel_of (_ups_timer s) /\
  List.filter is_timer_start evs = [] /\
  forall callbacks, run_callbacks cfg env callbacks s' = s'.
Proof.
  intros Hrun Hcheck s' evs.
  destruct (check_battery_fields cfg env s) as (u & evs1 & Hf & _).
  destruct (emits_check_battery cfg env s) as (evs2 & Ht & Hups).
  rewrite Hf in Ht. cbn in Ht. apply app_inv_head in Ht. subst evs2.
  assert (Hbody : ups_cycle_body cfg env s
                  = stop (with_ups u (trace s ++ evs1) s)).
  { unfold ups_cycle_body, bind. rewrite <- Hf.
    destruct (check_battery cfg env s) as [r s1]. cbn in Hcheck |- *.
    now rewrite Hcheck. }
  pose proof (cycle_eq (ups_cycle_body cfg env) set_ups_timer
                (UPS_CHECK_INTERVAL cfg) UPSLoop s Hrun
                (fun _ _ => eq_refl)) as Hc.
  cbv zeta in Hc. fold (ups_monitoring_cycle cfg env) in Hc.
  rewrite Hbody, stop_eq in Hc. cbn [snd with_trace _running] in Hc.
  subst s' evs. unfold new_events. rewrite Hc. cbn.
  rewrite <- app_assoc, skipn_length_app.
  rewrite !List.filter_app.
  rewrite (filter_disallowed is_ups_event is_timer_cancel evs1)
    by (auto; intros e He; now apply ups_event_not_timer).
  rewrite (filter_disallowed is_ups_event is_timer_start evs1)
    by (auto; intros e He; now apply ups_event_not_timer).
  destruct (filter_cancel_of (_timer s)) as [-> ->].
  destruct (filter_cancel_of (_ups_timer s)) as [-> ->].
  repeat split. intros callbacks. now apply run_callbacks_stopped.
Qed.

Lemma X6_critical_battery_stops_loops_witness :
  let env := scripted_env [Ret 10] true [] in
  let s := snd (set_timer (Some 7%nat) (running_state scenario_cfg)) in
  List.filter is_timer_cancel (new_events (ups_monitoring_cycle scenario_cfg env) s)
  = [EvTimerCancel 7%nat].
Proof.
  intros env s.
  destruct (X6_critical_battery_stops_loops scenario_cfg env s)
    as (_ & _ & H & _).
  - reflexivity.
  - vm_compute. reflexivity.
  - exact H.
Defined.

Lemma emits_ext {A} (p : event -> bool) (m m' : M A) :
  (forall s, m s = m' s) -> emits p m' -> emits p m.
Proof. intros He Hm s. rewrite He. apply Hm. Qed.

(** The body of the measurement loop is its four phases in sequence. *)
Lemma collect_cycle_body_phases (cfg : config) (env : environment)
    (s : state) :
  collect_cycle_body cfg env s =
    (measure_all cfg env;;;
     publish_data cfg env;;;
     log_data env;;;
     check_alerts cfg;;;
     ret tt) s.
Proof.
  unfold collect_cycle_body, measure_all, bind, ret.
  repeat (cbv beta iota;
          match goal with
          | |- context [match ?m ?x with (_, _) => _ end] =>
              destruct (m x) as [[?|?] ?]
          end);
    reflexivity.
Qed.

Lemma emits_log_data (env : environment) :
  emits (fun e => match e with EvAppend _ _ | EvBackup _ => true | _ => false end)
    (log_data env).
Proof. unfold log_data, emit. emits_auto. Qed.

Lemma emits_collect_cycle_body (cfg : config) (env : environment) :
  emits (fun e => negb (is_timer_event e)) (collect_cycle_body cfg env).
Proof.
  eapply emits_ext; [apply collect_cycle_body_phases|].
  apply emits_bind.
  { apply (emits_weaken is_measure_event); [|apply emits_measure_all].
    intros []; cbn; congruence. }
  intros _. apply emits_bind.
  { apply (emits_weaken is_publish_event); [|apply emits_publish_data].
    intros []; cbn; congruence. }
  intros _. apply emits_bind.
  { eapply emits_weaken; [|apply emits_log_data].
    intros []; cbn; congruence. }
  intros _. apply emits_bind; [|intros ?; emits_auto].
  apply (emits_weaken is_notification); [|apply emits_check_alerts].
  intros []; cbn; congruence.
Qed.

(** A running measurement loop: the body, whatever it does, then the
    timer. *)
Lemma collect_and_publish_running (cfg : config) (env : environment)
    (s : state) :
  _running s = true ->
  exists s1 evs,
    trace s1 = trace s ++ evs /\
    Forall (fun e => negb (is_timer_event e) = true) evs /\
    _running s1 = true /\
    collect_and_publish cfg env s =
      (Ret tt,
       snd (timer_start (length (trace s1)) (PUBLISH_INTERVAL cfg) MeasureLoop
              (snd (set_timer (Some (length (trace s1))) s1)))).
Proof.
  intros Hrun.
  pose proof (cycle_eq (collect_cycle_body cfg env) set_timer
                (PUBLISH_INTERVAL cfg) MeasureLoop s Hrun
                (fun _ _ => eq_refl)) as Hc.
  cbv zeta in Hc. fold (collect_and_publish cfg env) in Hc.
  destruct (frame_collect_cycle_body cfg env true s) as [Hk _].
  rewrite Hk, Hrun in Hc by reflexivity.
  destruct (emits_collect_cycle_body cfg env s) as (evs & Ht & He).
  exists (snd (collect_cycle_body cfg env s)), evs.
  repeat split; auto. rewrite Hk by reflexivity. exact Hrun.
Qed.

(** A running UPS loop: the check, then [stop()] if it returned [False],
    the timer otherwise. *)
Lemma ups_monitoring_cycle_running (cfg : config) (env : environment)
    (s : state) :
  _running s = true ->
  exists u evs,
    Forall (fun e => is_ups_event e = true) evs /\
    let s1 := with_ups u (trace s ++ evs) s in
    ups_monitoring_cycle cfg env s =
      (Ret tt,
       match fst (check_battery cfg env s) with
       | Ret false => snd (stop s1)
       | _ =>
           snd (timer_start (length (trace s1)) (UPS_CHECK_INTERVAL cfg) UPSLoop
                  (snd (set_ups_timer (Some (length (trace s1))) s1)))
       end).
Proof.
  intros Hrun.
  destruct (check_battery_fields cfg env s) as (u & evs1 & Hf & _).
  destruct (emits_check_battery cfg env s) as (evs2 & Ht & Hups).
  rewrite Hf in Ht. cbn in Ht. apply app_inv_head in Ht. subst evs2.
  exists u, evs1. split; [exact Hups|]. intros s1.
  pose proof (cycle_eq (ups_cycle_body cfg env) set_ups_timer
                (UPS_CHECK_INTERVAL cfg) UPSLoop s Hrun
                (fun _ _ => eq_refl)) as Hc.
  cbv zeta in Hc. fold (ups_monitoring_cycle cfg env) in Hc.
  rewrite Hc. f_equal.
  unfold ups_cycle_body, bind. fold s1 in Hf.
  destruct (check_battery cfg env s) as [[[]|e] s0]; cbn [fst snd negb] in *;
    subst s0.
  - cbn [ret snd]. subst s1. cbn [_running with_ups]. now rewrite Hrun.
  - rewrite stop_eq. cbn. reflexivity.
  - subst s1. cbn [_running with_ups]. now rewrite Hrun.
Qed.

Lemma not_timer_event (e : event) :
  negb (is_timer_event e) = true ->
  is_timer_start e = false /\ is_timer_cancel e = false.
Proof.
  unfold is_timer_event. rewrite negb_true_iff, orb_false_iff. tauto.
Qed.

(** X7.  [run()] returns normally and always starts the measurement
    timer.  If the first battery check does not return [False], the UPS
    timer is started too, under a later handle, nothing is cancelled and
    [_running] is true.  If it returns [False], [_running] is false, no
    other timer is started and the measurement timer just started is
    cancelled. *)
Theorem X7_run_starts_both_loops (cfg : config) (env : environment)
    (s : state) :
  let s' := snd (run cfg env s) in
  let evs := new_events (run cfg env) s in
  fst (run cfg env s) = Ret tt /\
  exists h,
    _timer s' = Some h /\
    if _running s'
    then exists h',
           (h < h')%nat /\ _ups_timer s' = Some h' /\
           List.filter is_timer_start evs
             = [EvTimerStart h (PUBLISH_INTERVAL cfg) MeasureLoop;
                EvTimerStart h' (UPS_CHECK_INTERVAL cfg) UPSLoop] /\
           List.filter is_timer_cancel evs = []
    else List.filter is_timer_start evs
           = [EvTimerStart h (PUBLISH_INTERVAL cfg) MeasureLoop] /\
         exists rest,
           List.filter is_timer_cancel evs = EvTimerCancel h :: rest.
Proof.
  intros s' evs.
  set (s0 := snd (set_running true s)).
  assert (Ht0 : trace s0 = trace s) by reflexivity.
  destruct (collect_and_publish_running cfg env s0 eq_refl)
    as (s1 & evs1 & Ht1 & He1 & Hrun1 & Hc).
  set (h := length (trace s1)) in *.
  set (s2 := snd (timer_start h (PUBLISH_INTERVAL cfg) MeasureLoop
                    (snd (set_timer (Some h) s1)))) in *.
  assert (Ht2 : trace s2 = trace s ++ evs1
                  ++ [EvTimerStart h (PUBLISH_INTERVAL cfg) MeasureLoop]).
  { subst s2. cbn. now rewrite Ht1, Ht0, <- app_assoc. }
  assert (Hrun2 : _running s2 = true) by exact Hrun1.
  assert (Htimer2 : _timer s2 = Some h) by reflexivity.
  destruct (ups_monitoring_cycle_running cfg env s2 Hrun2)
    as (u & evsU & HeU & Hu).
  cbv zeta in Hu.
  assert (Hrun : run cfg env s = ups_monitoring_cycle cfg env s2).
  { unfold run. unfold bind at 1.
    change (set_running true s) with (Ret tt, s0).
    cbv beta iota. unfold bind. now rewrite Hc. }
  subst s' evs. unfold new_events. rewrite Hrun, Hu. cbn [fst snd].
  split; [reflexivity|]. exists h.
  set (s3 := with_ups u (trace s2 ++ evsU) s2) in *.
  assert (Hf1 : List.filter is_timer_start evs1 = [] /\
                List.filter is_timer_cancel evs1 = []).
  { split; eapply filter_disallowed; try exact He1;
      intros e He; now apply not_timer_event. }
  assert (HfU : List.filter is_timer_start evsU = [] /\
                List.filter is_timer_cancel evsU = []).
  { split; eapply filter_disallowed; try exact HeU;
      intros e He; now apply ups_event_not_timer. }
  destruct Hf1 as [Hs1 Hc1]. destruct HfU as [HsU HcU].
  assert (Ht1' : trace s1 = trace s ++ evs1) by (now rewrite Ht1, Ht0).
  clear Hu Hrun Hc.
  destruct (fst (check_battery cfg env s2)) as [[]|e].
  - cbn. split; [reflexivity|]. rewrite Hrun1.
    eexists. split; [|split; [reflexivity|]].
    + rewrite !length_app. cbn. subst h. lia.
    + rewrite Ht1', <- !app_assoc, skipn_length_app, !List.filter_app.
      rewrite Hs1, Hc1, HsU, HcU. cbn. split; reflexivity.
  - rewrite stop_eq. cbn. split; [reflexivity|].
    rewrite Ht1', <- !app_assoc, skipn_length_app, !List.filter_app.
    rewrite Hs1, Hc1, HsU, HcU.
    destruct (filter_cancel_of (_ups_timer s1)) as [Hcc Hcs].
    cbn. rewrite Hcc, Hcs. split; [reflexivity | eauto].
  - cbn. split; [reflexivity|]. rewrite Hrun1.
    eexists. split; [|split; [reflexivity|]].
    + rewrite !length_app. cbn. subst h. lia.
    + rewrite Ht1', <- !app_assoc, skipn_length_app, !List.filter_app.
      rewrite Hs1, Hc1, HsU, HcU. cbn. split; reflexivity.
Qed.

(** ** Publishing and logging *)

Lemma post_urls_app (a b : list event) :
  post_urls (a ++ b) = post_urls a ++ post_urls b.
Proof.
  induction a as [|e a IH]; [reflexivity|]. cbn.
  destruct (post_url e); cbn; now rewrite IH.
Qed.

(** One call of [send_telemetry] with a number: no request without a
    token, one request to the device's URL with one; the snapshot is
    not touched. *)
Lemma send_telemetry_num_trace (cfg : config) (env : environment)
    (name : string) (v : pynum) (s : state) :
  exists ok evs s',
    send_telemetry cfg env name (VNum v) s = (Ret ok, s') /\
    trace s' = trace s ++ evs /\
    sensor_data s' = sensor_data s /\
    count_events is_throttle evs = 0%nat /\
    post_urls evs = match token_of cfg name with
                    | Some token => [telemetry_url cfg token]
                    | None => []
                    end.
Proof.
  destruct (token_of cfg name) as [token|] eqn:Ht.
  - destruct (send_telemetry_num cfg env name token v s Ht) as [_ He].
    cbv zeta in He. rewrite He.
    eexists _, [_], _. split; [reflexivity|]. repeat split.
  - rewrite (send_telemetry_no_token cfg env name (VNum v) s Ht).
    exists false, [], s. rewrite app_nil_r. repeat split.
Qed.

Lemma publish_loop_trace (cfg : config) (env : environment)
    (l : list (string * option pynum)) :
  forall (a b : Z) (s : state),
  exists r evs s',
    publish_loop cfg env l a b s = (Ret r, s') /\
    trace s' = trace s ++ evs /\
    sensor_data s' = sensor_data s /\
    count_events is_throttle evs = present_count l /\
    post_urls evs = publish_urls cfg l.
Proof.
  induction l as [|[name [v|]] rest IH]; intros a b s;
    cbn [publish_loop publish_urls present_count].
  - exists (a, b), [], s. rewrite app_nil_r. repeat split.
  - destruct (send_telemetry_num_trace cfg env name v s)
      as (ok & evs1 & s1 & Hs & Ht1 & Hd1 & Hc1 & Hp1).
    unfold bind at 1. rewrite Hs. unfold bind at 1.
    unfold sleep at 1, emit, modify. cbv beta iota.
    match goal with |- context [publish_loop cfg env rest ?a' ?b' ?s2] =>
      destruct (IH a' b' s2) as (r & evs2 & s' & Hl & Ht2 & Hd2 & Hc2 & Hp2)
    end.
    rewrite Hl. cbn [trace sensor_data] in Ht2, Hd2.
    exists r, (evs1 ++ [EvSleep 0.5] ++ evs2), s'.
    split; [reflexivity|]. rewrite Ht2, Ht1, Hd2, Hd1, <- !app_assoc.
    repeat split.
    + rewrite !count_events_app, Hc1, Hc2. reflexivity.
    + rewrite !post_urls_app, Hp1, Hp2. cbn.
      now destruct (token_of cfg name).
  - apply IH.
Qed.

(** X8.  [publish_data] never raises and leaves the snapshot alone.
    Whatever the requests answer, it makes one POST for every present
    value whose sensor has a token, to that sensor's URL and in
    declaration order, none for an absent value or a sensor without
    token, and waits 0.5 s once per present value. *)
Theorem X8_publish_each_present_sensor (cfg : config) (env : environment)
    (s : state) :
  let evs := new_events (publish_data cfg env) s in
  fst (publish_data cfg env s) = Ret tt /\
  sensor_data (snd (publish_data cfg env s)) = sensor_data s /\
  post_urls evs = publish_urls cfg (items (sensor_data s)) /\
  count_events is_throttle evs = present_count (items (sensor_data s)).
Proof.
  intros evs. subst evs.
  destruct (publish_loop_trace cfg env (items (sensor_data s)) 0 0 s)
    as (r & evs & s' & Hl & Ht & Hd & Hc & Hp).
  assert (He : publish_data cfg env s = (Ret tt, s')).
  { unfold publish_data, try_except, bind, get. now rewrite Hl. }
  unfold new_events. rewrite He. cbn [fst snd].
  rewrite Ht, skipn_length_app. auto.
Qed.

(** X9.  [log_data] never raises and leaves the snapshot alone.  It
    appends its line once; the backup copy is attempted exactly when the
    append succeeded, and a failure of either is swallowed. *)
Theorem X9_log_failure_is_swallowed (env : environment) (s : state) :
  let line := env_timestamp env (trace s) +:+ "," +:+
              join "," (csv_fields (sensor_data s)) +:+ nl in
  let r := env_append env (trace s) line in
  fst (log_data env s) = Ret tt /\
  sensor_data (snd (log_data env s)) = sensor_data s /\
  new_events (log_data env) s =
    EvAppend line r ::
    match r with
    | Ret _ => [EvBackup (env_backup env (trace s ++ [EvAppend line r]))]
    | Raise _ => []
    end.
Proof.
  intros line r. subst r. unfold new_events, log_data. run_monad. fold line.
  destruct (env_append env (trace s) line) as [[]|e]; run_monad.
  - match goal with |- context [env_backup env ?t] =>
      destruct (env_backup env t) as [[]|e] end;
      cbn; rewrite <- app_assoc, skipn_length_app; repeat split.
  - cbn. rewrite skipn_length_app. repeat split.
Qed.

(** ** Alerts and their notification *)

Lemma check_two_sided_state (cfg : config) (value : option pynum)
    (lk hk : string) (lm hm : pynum -> string) (alerts : list string)
    (s : state) :
  snd (check_two_sided cfg value lk hk lm hm alerts s) = s.
Proof.
  unfold check_two_sided, threshold. destruct value as [v|]; [|reflexivity].
  destruct (ALERT_THRESHOLDS cfg !! lk); run_monad; [|reflexivity].
  destruct (py_lt v p); [reflexivity|].
  destruct (ALERT_THRESHOLDS cfg !! hk); run_monad; [|reflexivity].
  now destruct (py_gt v p0).
Qed.

Lemma check_one_sided_state (cfg : config) (cmp : pynum -> pynum -> bool)
    (value : option pynum) (lk : string) (lm : pynum -> string)
    (alerts : list string) (s : state) :
  snd (check_one_sided cfg cmp value lk lm alerts s) = s.
Proof.
  unfold check_one_sided, threshold. destruct value as [v|]; [|reflexivity].
  destruct (ALERT_THRESHOLDS cfg !! lk); run_monad; [|reflexivity].
  now destruct (cmp v p).
Qed.

(** X11.  [check_alerts] changes nothing but the trace.  When it
    returns, it has sent one notification of default priority holding
    all alerts if there is any alert, and nothing if there is none.  When
    a threshold lookup raises, nothing at all is sent, alerts found
    before the lookup included. *)
Theorem X11_alerts_sent_together_or_not_at_all (cfg : config) (s : state) :
  match fst (check_alerts cfg s) with
  | Ret [] => snd (check_alerts cfg s) = s
  | Ret alerts =>
      snd (check_alerts cfg s) =
        with_trace
          (trace s ++
           [EvNotify false ("RAS Alerts:" +:+ nl +:+ join nl alerts)]) s
  | Raise _ => snd (check_alerts cfg s) = s
  end.
Proof.
  remember (check_alerts cfg s) as res eqn:E. revert E.
  unfold check_alerts. unfold bind at 1. unfold get at 1. cbv beta iota.
  repeat
    (unfold bind at 1;
     match goal with
     | |- context [check_two_sided cfg ?v ?lk ?hk ?lm ?hm ?al s] =>
         pose proof (check_two_sided_state cfg v lk hk lm hm al s) as Hst;
         destruct (check_two_sided cfg v lk hk lm hm al s) as [[?|?] ?];
         cbn [snd] in Hst; subst; [|intros ->; reflexivity]
     | |- context [check_one_sided cfg ?c ?v ?lk ?lm ?al s] =>
         pose proof (check_one_sided_state cfg c v lk lm al s) as Hst;
         destruct (check_one_sided cfg c v lk lm al s) as [[?|?] ?];
         cbn [snd] in Hst; subst; [|intros ->; reflexivity]
     end).
  match goal with |- context [match ?l with [] => _ | _ :: _ => _ end] =>
    destruct l end.
  - intros ->. reflexivity.
  - unfold send_pushover_notification. run_monad. intros ->. reflexivity.
Qed.

(** The temperature alert of 15.0 is found first; the pH bound is not
    configured, the lookup raises and the temperature alert is not
    sent. *)
Lemma alerts_lost_example :
  let cfg :=
    {| THINGSBOARD_URL := THINGSBOARD_URL scenario_cfg;
       PUBLISH_INTERVAL := PUBLISH_INTERVAL scenario_cfg;
       SAMPLE_COUNT := SAMPLE_COUNT scenario_cfg;
       DISCARD_COUNT := DISCARD_COUNT scenario_cfg;
       UPS_CHECK_INTERVAL := UPS_CHECK_INTERVAL scenario_cfg;
       UPS_SHUTDOWN_THRESHOLD := UPS_SHUTDOWN_THRESHOLD scenario_cfg;
       DEVICE_CREDENTIALS := DEVICE_CREDENTIALS scenario_cfg;
       ALERT_THRESHOLDS :=
         <[ "temp_low" := PyInt 18 ]> (<[ "temp_high" := PyInt 28 ]> ∅);
       temperature_offset := 0 |} in
  let s := with_data (with_temperature (Some (PyFloat 15.0))
                        (with_pH (Some (PyFloat 7.0)) no_data)) cfg in
  check_alerts cfg s = (Raise (KeyError "ph_low"), s).
Proof. vm_compute. reflexivity. Qed.

(** ** Measurements *)

Lemma sample_outcomes_shape (f : M (option Q)) (n : nat) (s : state) :
  (exists raw, fst (sample_outcomes f n s) = map Ret raw) \/
  (exists raw e, fst (sample_outcomes f n s) = map Ret raw ++ [Raise e]).
Proof.
  revert s. induction n as [|n IH]; intros s; cbn [sample_outcomes].
  - left. now exists [].
  - destruct (f s) as [[r|e] s1].
    + destruct (IH (snd (sleep 0.1 s1))) as [(raw & H) | (raw & e & H)];
        destruct (sample_outcomes f n (snd (sleep 0.1 s1))) as [rest s2];
        cbn [fst] in *; subst rest.
      * left. now exists (r :: raw).
      * right. now exists (r :: raw), e.
    + right. now exists [], e.
Qed.

(** X13.  [get_filtered_sample] returns a value only when every one of
    the [N] invocations returned, at least one reading is present, at
    least [N - 2D] are, and, when [D] is positive, more than [2D] are;
    in every other case the result is [None].  The state it leaves is the
    one the invocations leave. *)
Theorem X13_value_needs_readings (f : M (option Q)) (N D : Z) (s : state)
    (x : Q) :
  fst (get_filtered_sample f N D s) = Ret (Some x) ->
  exists raw,
    sample_outcomes f (Z.to_nat N) s
      = (map Ret raw, snd (get_filtered_sample f N D s)) /\
    length raw = Z.to_nat N /\
    present raw <> [] /\
    N - 2 * D <= Z.of_nat (length (present raw)) /\
    (0 < D -> 2 * D < Z.of_nat (length (present raw))).
Proof.
  intros Hx.
  destruct (sample_outcomes f (Z.to_nat N) s) as [outs s'] eqn:Hs.
  destruct (sample_outcomes_shape f (Z.to_nat N) s) as [(raw & H) | (raw & e & H)];
    rewrite Hs in H; cbn [fst] in H; subst outs.
  2:{ rewrite (get_filtered_sample_raise f N D s s' raw e Hs) in Hx.
      discriminate. }
  pose proof (collect_readings_all f _ s s' [] raw Hs) as [_ Hlen].
  rewrite (get_filtered_sample_all f N D s s' raw Hs) in Hx |- *.
  cbn [fst snd] in *. exists raw. split; [reflexivity|]. split; [exact Hlen|].
  destruct (Z.of_nat (length (present raw)) <? N - D * 2) eqn:Hk;
    [discriminate|].
  apply Z.ltb_ge in Hk.
  destruct (D >? 0) eqn:HD.
  - destruct (py_slice_trim (list_sort (present raw)) D)
      as (lo & hi & _ & Hsplit & _ & Hempty); [lia|].
    rewrite list_sort_length in Hempty.
    assert (Hlt : 2 * D < Z.of_nat (length (present raw))).
    { destruct (Z.lt_ge_cases (2 * D) (Z.of_nat (length (present raw))))
        as [Hlt | Hge]; [exact Hlt|].
      rewrite Hempty in Hx by lia. discriminate. }
    repeat split; try lia.
    intros Hnil. rewrite Hnil in Hlt. cbn in Hlt. lia.
  - repeat split; try lia.
    intros Hnil. rewrite Hnil in Hx. discriminate.
Qed.

Lemma X13_value_needs_readings_witness :
  let f := scripted_sensor
             [Ret (Some 1%Q); Ret (Some 2%Q); Ret (Some 3%Q); Ret (Some 4%Q);
              Ret (Some 5%Q); Ret (Some 6%Q); Ret (Some 100%Q)] in
  exists raw,
    fst (sample_outcomes f 7 (initial_state scenario_cfg)) = map Ret raw /\
    present raw <> [].
Proof.
  intros f.
  destruct (X13_value_needs_readings f 7 1 (initial_state scenario_cfg) 4)
    as (raw & Hs & _ & Hp & _).
  - vm_compute. reflexivity.
  - exists raw. change (Z.to_nat 7) with 7%nat in Hs. rewrite Hs.
    split; [reflexivity | exact Hp].
Defined.

Lemma py_slice_nil {A} (a b : Z) : py_slice (@nil A) a b = [].
Proof. unfold py_slice. now rewrite skipn_nil, firstn_nil. Qed.

(** When the first invocation raises, the batch is [None]. *)
Lemma get_filtered_sample_first_raises (f : M (option Q)) (N D : Z)
    (s s1 : state) (e : exn) :
  f s = (Raise e, s1) ->
  get_filtered_sample f N D s = (Ret None, if 0 <? N then s1 else s).
Proof.
  intros Hf. destruct (0 <? N) eqn:HN.
  - apply Z.ltb_lt in HN.
    apply (get_filtered_sample_raise f N D s s1 [] e).
    destruct (Z.to_nat N) as [|n] eqn:Hn; [lia|].
    cbn [sample_outcomes]. now rewrite Hf.
  - apply Z.ltb_ge in HN.
    assert (Hs : sample_outcomes f (Z.to_nat N) s = (map Ret [], s))
      by (replace (Z.to_nat N) with O by lia; reflexivity).
    rewrite (get_filtered_sample_all f N D s s [] Hs).
    cbn [present length list_sort]. rewrite py_slice_nil.
    destruct (Z.of_nat 0 <? N - D * 2); [reflexivity|].
    now destruct (D >? 0).
Qed.

Lemma measure_filtered_first_raises (f : M (option Q))
    (upd : option pynum -> SensorData -> SensorData) (N D : Z)
    (s s1 : state) (e : exn) :
  f s = (Raise e, s1) ->
  sensor_data s1 = sensor_data s ->
  let m := (v <- get_filtered_sample f N D;; store upd (PyFloat <$> v)) in
  fst (m s) = Ret tt /\
  sensor_data (snd (m s)) = upd None (sensor_data s).
Proof.
  intros Hf Hd m. subst m. unfold bind at 1 2.
  rewrite (get_filtered_sample_first_raises f N D s s1 e Hf).
  unfold store. run_monad. destruct (0 <? N); cbn; rewrite ?Hd; auto.
Qed.

Lemma read_voltage_raises (env : environment) (channel : nat) (s : state)
    (e : exn) (k : Q -> M (option Q)) :
  env_voltage env (trace s) channel = Raise e ->
  (voltage <- read_voltage env channel;; k voltage) s =
    (Raise e, with_trace (trace s ++ [EvVoltage channel (Raise e)]) s).
Proof. intros H. unfold read_voltage. run_monad. now rewrite H. Qed.

(** X14.  When the converter raises on a channel, the measurement of
    that channel returns normally and stores [None] for its sensor, so
    that the value of an earlier cycle does not survive; the other
    values are left as they were.  This holds for pH, conductivity and
    both pump currents, whatever the sample and discard counts. *)
Theorem X14_failed_sensor_is_cleared (cfg : config) (env : environment)
    (s : state) (e : exn) :
  (forall channel, env_voltage env (trace s) channel = Raise e) ->
  (fst (measure_ph cfg env s) = Ret tt /\
   sensor_data (snd (measure_ph cfg env s)) = with_pH None (sensor_data s)) /\
  (fst (measure_conductivity cfg env s) = Ret tt /\
   sensor_data (snd (measure_conductivity cfg env s))
     = with_conductivity None (sensor_data s)) /\
  (fst (measure_rpump cfg env s) = Ret tt /\
   sensor_data (snd (measure_rpump cfg env s))
     = with_recirc_pump None (sensor_data s)) /\
  (fst (measure_dpump cfg env s) = Ret tt /\
   sensor_data (snd (measure_dpump cfg env s))
     = with_dispense_pump None (sensor_data s)).
Proof.
  intros H.
  split; [|split; [|split]].
  - unfold measure_ph, ph_measurement.
    eapply measure_filtered_first_raises;
      [apply read_voltage_raises, H | reflexivity].
  - unfold measure_conductivity, conductivity_measurement.
    eapply measure_filtered_first_raises;
      [apply read_voltage_raises, H | reflexivity].
  - unfold measure_rpump, rpump_measurement.
    eapply measure_filtered_first_raises;
      [apply read_voltage_raises, H | reflexivity].
  - unfold measure_dpump, dpump_measurement.
    eapply measure_filtered_first_raises;
      [apply read_voltage_raises, H | reflexivity].
Qed.

Lemma X14_failed_sensor_is_cleared_witness :
  let s := with_data stopped_pump_data scenario_cfg in
  sensor_data (snd (measure_dpump scenario_cfg blank_env s))
  = with_dispense_pump None stopped_pump_data.
Proof.
  intros s.
  destruct (X14_failed_sensor_is_cleared scenario_cfg blank_env s OSError)
    as (_ & _ & _ & _ & H).
  - intros channel. reflexivity.
  - exact H.
Defined.

(** ** The phases of a measurement cycle *)

Lemma returns_ret {A} (a : A) : returns (ret a).
Proof. intros s. now exists a. Qed.




Lemma returns_try_except {A} (m : M A) (h : exn -> M A) :
  (forall e, returns (h e)) -> returns (try_except m h).
Proof.
  intros Hh s. unfold try_except. destruct (m s) as [[a|e] s1].
  - now exists a.
  - apply Hh.
Qed.







(** ** The filtered value and the raw readings *)



Lemma In_firstn {A} (n : nat) (l : list A) (x : A) :
  In x (firstn n l) -> In x l.
Proof.
  revert l. induction n as [|n IH]; intros [|y l]; cbn; try tauto.
  intros [-> | H]; auto.
Qed.

Lemma In_skipn {A} (n : nat) (l : list A) (x : A) :
  In x (skipn n l) -> In x l.
Proof.
  revert l. induction n as [|n IH]; intros [|y l]; cbn; try tauto.
  intros H. right. now apply IH.
Qed.

Lemma In_py_slice {A} (l : list A) (a b : Z) (x : A) :
  In x (py_slice l a b) -> In x l.
Proof. unfold py_slice. intros H. eapply In_skipn, In_firstn, H. Qed.



(** ** The measurement loop and the UPS guard *)

Lemma keeps_guard_ret {A} (a : A) : keeps_guard (ret a).
Proof. intros s. reflexivity. Qed.

Lemma keeps_guard_raise {A} (e : exn) : keeps_guard (@raise A e).
Proof. intros s. reflexivity. Qed.

Lemma keeps_guard_lift {A} (r : res A) : keeps_guard (lift r).
Proof. intros s. reflexivity. Qed.

Lemma keeps_guard_get : keeps_guard get.
Proof. intros s. reflexivity. Qed.

Lemma keeps_guard_emit (e : event) : keeps_guard (emit e).
Proof. intros s. reflexivity. Qed.

Lemma keeps_guard_modify (f : state -> state) :
  (forall s, ups_monitor (f s) = ups_monitor s) -> keeps_guard (modify f).
Proof. intros Hf s. apply Hf. Qed.

Lemma keeps_guard_bind {A B} (m : M A) (k : A -> M B) :
  keeps_guard m -> (forall a, keeps_guard (k a)) -> keeps_guard (bind m k).
Proof.
  intros Hm Hk s. unfold bind. pose proof (Hm s) as H.
  destruct (m s) as [[a|e] s1]; cbn [snd] in *; [|exact H].
  now rewrite Hk.
Qed.

Lemma keeps_guard_try_except {A} (m : M A) (h : exn -> M A) :
  keeps_guard m -> (forall e, keeps_guard (h e)) ->
  keeps_guard (try_except m h).
Proof.
  intros Hm Hh s. unfold try_except. pose proof (Hm s) as H.
  destruct (m s) as [[a|e] s1]; cbn [snd] in *; [exact H|].
  now rewrite Hh.
Qed.

Lemma keeps_guard_ext {A} (m m' : M A) :
  (forall s, m s = m' s) -> keeps_guard m' -> keeps_guard m.
Proof. intros He Hm s. rewrite He. apply Hm. Qed.

Ltac keeps_guard_step :=
  first
    [ apply keeps_guard_ret | apply keeps_guard_raise | apply keeps_guard_lift
    | apply keeps_guard_get | apply keeps_guard_emit
    | apply keeps_guard_modify; intros ?; reflexivity
    | apply keeps_guard_bind; [|intros ?]
    | apply keeps_guard_try_except; [|intros ?]
    | match goal with
      | |- keeps_guard (match ?x with _ => _ end) => destruct x
      end ].

Ltac keeps_guard_auto := repeat keeps_guard_step.

Section GuardFacts.

Variable cfg : config.
Variable env : environment.

Lemma keeps_guard_read_battery_sysfs (paths : list string) :
  keeps_guard (read_battery_sysfs env paths).
Proof.
  induction paths as [|p rest IH]; cbn [read_battery_sysfs].
  - keeps_guard_auto.
  - apply keeps_guard_bind; [apply keeps_guard_get|]. intros s.
    destruct (env_sysfs env (trace s) p); [|exact IH].
    keeps_guard_auto.
Qed.

Lemma keeps_guard_get_battery_level : keeps_guard (get_battery_level env).
Proof.
  unfold get_battery_level, read_battery_i2c.
  keeps_guard_auto; apply keeps_guard_read_battery_sysfs.
Qed.

Lemma keeps_guard_store (upd : option pynum -> SensorData -> SensorData)
    (v : option pynum) :
  keeps_guard (store upd v).
Proof. unfold store, set_sensor_data. keeps_guard_auto. Qed.

Lemma keeps_guard_collect_readings (f : M (option Q)) (n : nat)
    (acc : list Q) :
  keeps_guard f -> keeps_guard (collect_readings f n acc).
Proof.
  intros Hf. revert acc. induction n as [|n IH]; intros acc;
    cbn [collect_readings]; [keeps_guard_auto|].
  apply keeps_guard_bind; [exact Hf|]. intros r.
  apply keeps_guard_bind; [unfold sleep; keeps_guard_auto|].
  intros _. apply IH.
Qed.

Lemma keeps_guard_measure_filtered (f : M (option Q))
    (upd : option pynum -> SensorData -> SensorData) :
  keeps_guard f ->
  keeps_guard
    (v <- get_filtered_sample f (SAMPLE_COUNT cfg) (DISCARD_COUNT cfg);;
     store upd (PyFloat <$> v)).
Proof.
  intros Hf. apply keeps_guard_bind; [|intros v; apply keeps_guard_store].
  unfold get_filtered_sample.
  apply keeps_guard_try_except; [|intros ?; keeps_guard_auto].
  apply keeps_guard_bind; [now apply keeps_guard_collect_readings|].
  intros readings. keeps_guard_auto.
Qed.

Lemma keeps_guard_read_voltage (channel : nat) :
  keeps_guard (read_voltage env channel).
Proof. unfold read_voltage. keeps_guard_auto. Qed.

Lemma keeps_guard_measure_all : keeps_guard (measure_all cfg env).
Proof.
  unfold measure_all.
  apply keeps_guard_bind.
  { unfold measure_temperature. keeps_guard_auto; apply keeps_guard_store. }
  intros _. apply keeps_guard_bind.
  { apply keeps_guard_measure_filtered. unfold ph_measurement.
    apply keeps_guard_bind;
      [apply keeps_guard_read_voltage | intros ?; keeps_guard_auto]. }
  intros _. apply keeps_guard_bind.
  { apply keeps_guard_measure_filtered. unfold conductivity_measurement.
    apply keeps_guard_bind;
      [apply keeps_guard_read_voltage | intros ?; keeps_guard_auto]. }
  intros _. apply keeps_guard_bind.
  { apply keeps_guard_measure_filtered. unfold rpump_measurement.
    apply keeps_guard_bind;
      [apply keeps_guard_read_voltage | intros ?; keeps_guard_auto]. }
  intros _. apply keeps_guard_bind.
  { apply keeps_guard_measure_filtered. unfold dpump_measurement.
    apply keeps_guard_bind;
      [apply keeps_guard_read_voltage | intros ?; keeps_guard_auto]. }
  intros _. apply keeps_guard_bind.
  { apply keeps_guard_measure_filtered. unfold level_measurement, sleep.
    keeps_guard_auto. }
  intros _. apply keeps_guard_bind; [|intros ?; keeps_guard_auto].
  unfold measure_ups_battery.
  apply keeps_guard_bind; [apply keeps_guard_get_battery_level|].
  intros lvl.
  apply keeps_guard_bind; [apply keeps_guard_store|].
  intros ?. keeps_guard_auto.
Qed.

Lemma keeps_guard_publish_loop (l : list (string * option pynum)) (a b : Z) :
  keeps_guard (publish_loop cfg env l a b).
Proof.
  revert a b. induction l as [|[name [v|]] rest IH]; intros a b;
    cbn [publish_loop]; [keeps_guard_auto| |apply IH].
  apply keeps_guard_bind.
  { unfold send_telemetry, new_dict, dict_setitem, deref, session_post,
      set_heap. keeps_guard_auto. }
  intros ok.
  apply keeps_guard_bind; [unfold sleep; keeps_guard_auto|].
  intros _. apply IH.
Qed.

Lemma keeps_guard_collect_cycle_body :
  keeps_guard (collect_cycle_body cfg env).
Proof.
  eapply keeps_guard_ext; [apply collect_cycle_body_phases|].
  apply keeps_guard_bind; [apply keeps_guard_measure_all|].
  intros _. apply keeps_guard_bind.
  { unfold publish_data.
    apply keeps_guard_try_except; [|intros ?; keeps_guard_auto].
    apply keeps_guard_bind; [apply keeps_guard_get|]. intros s.
    apply keeps_guard_bind;
      [apply keeps_guard_publish_loop | intros ?; keeps_guard_auto]. }
  intros _. apply keeps_guard_bind.
  { unfold log_data. keeps_guard_auto. }
  intros _. apply keeps_guard_bind; [|intros ?; keeps_guard_auto].
  unfold check_alerts, check_two_sided, check_one_sided, threshold,
    send_pushover_notification.
  keeps_guard_auto.
Qed.

Lemma emits_no_guard_action_cycle_body :
  emits (fun e => negb (is_guard_action e)) (collect_cycle_body cfg env).
Proof.
  eapply emits_ext; [apply collect_cycle_body_phases|].
  apply emits_bind.
  { apply (emits_weaken is_measure_event); [|apply emits_measure_all].
    intros []; cbn; congruence. }
  intros _. apply emits_bind.
  { apply (emits_weaken is_publish_event); [|apply emits_publish_data].
    intros []; cbn; congruence. }
  intros _. apply emits_bind.
  { eapply emits_weaken; [|apply emits_log_data].
    intros []; cbn; congruence. }
  intros _. apply emits_bind; [|intros ?; emits_auto].
  unfold check_alerts, check_two_sided, check_one_sided, threshold,
    send_pushover_notification, emit.
  emits_auto.
Qed.

End GuardFacts.

(** X16.  The measurement loop never acts for the UPS guard.  Whatever
    the sensors and the battery report, a call of [collect_and_publish]
    leaves the guard's record (its [shutdown_triggered] flag and its
    [last_battery_level]) as it was, runs no command and sends no
    notification of emergency priority: a low battery seen by
    [measure_ups_battery] is only stored, published and alerted on. *)
Theorem X16_measurement_loop_leaves_guard_alone (cfg : config)
    (env : environment) (s : state) :
  ups_monitor (snd (collect_and_publish cfg env s)) = ups_monitor s /\
  Forall (fun e => is_guard_action e = false)
    (new_events (collect_and_publish cfg env) s).
Proof.
  destruct (_running s) eqn:Hrun.
  - pose proof (cycle_eq (collect_cycle_body cfg env) set_timer
                  (PUBLISH_INTERVAL cfg) MeasureLoop s Hrun
                  (fun _ _ => eq_refl)) as Hc.
    cbv zeta in Hc. fold (collect_and_publish cfg env) in Hc.
    pose proof (keeps_guard_collect_cycle_body cfg env s) as Hk.
    destruct (emits_no_guard_action_cycle_body cfg env s) as (evs & Ht & He).
    assert (He' : Forall (fun e => is_guard_action e = false) evs).
    { clear Ht. induction He as [|e l H _ IH]; constructor; auto.
      now apply negb_true_iff. }
    unfold new_events. rewrite Hc. cbn [snd].
    destruct (_running (snd (collect_cycle_body cfg env s))).
    + cbn. rewrite Ht, <- app_assoc, skipn_length_app.
      split; [exact Hk|]. apply Forall_app. split; [exact He'|].
      now repeat constructor.
    + rewrite Ht, skipn_length_app. split; [exact Hk | exact He'].
  - assert (Hc : collect_and_publish cfg env s = (Ret tt, s)).
    { unfold collect_and_publish, bind, get. now rewrite Hrun. }
    unfold new_events. rewrite Hc. cbn [snd].
    split; [reflexivity|].
    rewrite <- (app_nil_r (trace s)) at 2. rewrite skipn_length_app.
    constructor.
Qed.
(** ** The payload of a scalar telemetry *)

(** X17.  With a credential and a number as data, [send_telemetry] posts
    a payload that holds the current time in milliseconds under ["ts"]
    and no key other than ["ts"] and the device name.  The device name
    holds the value, unless the device is itself called ["ts"]: then the
    timestamp has replaced the value. *)
Theorem X17_scalar_payload (cfg : config) (env : environment)
    (device_name token : string) (v : pynum) (s : state) :
  has_credential cfg device_name token ->
  exists payload r,
    new_events (send_telemetry cfg env device_name (VNum v)) s
      = [EvPost (telemetry_url cfg token) payload r] /\
    payload !! "ts" = Some (PyInt (env_time_ms env (trace s))) /\
    (device_name <> "ts" -> payload !! device_name = Some v) /\
    (forall key, key <> "ts" -> key <> device_name -> payload !! key = None).
Proof.
  intros Hc. apply token_of_some in Hc.
  destruct (send_telemetry_num cfg env device_name token v s Hc) as [_ He].
  cbv zeta in He. eexists. eexists. split; [|split; [|split]].
  - eapply new_events_emit. exact He.
  - apply lookup_insert_eq.
  - intros Hne. rewrite lookup_insert_ne by congruence.
    apply lookup_singleton_eq.
  - intros key H1 H2. rewrite lookup_insert_ne by congruence.
    apply lookup_singleton_ne. congruence.
Qed.

Lemma X17_scalar_payload_witness :
  exists payload r,
    new_events (send_telemetry scenario_cfg (scripted_env [] true [Ret 200])
                  "temperature" (VNum (PyFloat 21.5)))
      (initial_state scenario_cfg)
      = [EvPost "https://tb.example.org/api/v1/tok-temp/telemetry" payload r] /\
    payload !! "temperature" = Some (PyFloat 21.5).
Proof.
  destruct (X17_scalar_payload scenario_cfg (scripted_env [] true [Ret 200])
              "temperature" "tok-temp" (PyFloat 21.5)
              (initial_state scenario_cfg))
    as (payload & r & Hev & _ & Hv & _).
  - split; [reflexivity | discriminate].
  - exists payload, r. split; [exact Hev | apply Hv; discriminate].
Defined.

(** ** The water level *)

Lemma round_half_even_floor (q : Q) :
  (Qfloor q <= round_half_even q <= Qfloor q + 1)%Z.
Proof.
  unfold round_half_even.
  destruct (Qcompare _ _); [destruct (Z.even _)| |]; lia.
Qed.

Lemma round_half_even_mono (q1 q2 : Q) :
  (q1 <= q2)%Q -> (round_half_even q1 <= round_half_even q2)%Z.
Proof.
  intros Hle. pose proof (Qfloor_resp_le _ _ Hle) as Hf.
  destruct (Z.eq_dec (Qfloor q1) (Qfloor q2)) as [He | Hne].
  - unfold round_half_even. rewrite He.
    destruct (Qcompare_spec (q1 - inject_Z (Qfloor q2)) (1 # 2)) as [H1|H1|H1];
      destruct (Qcompare_spec (q2 - inject_Z (Qfloor q2)) (1 # 2)) as [H2|H2|H2];
      try (destruct (Z.even (Qfloor q2))); try lia; exfalso; lra.
  - pose proof (round_half_even_floor q1). pose proof (round_half_even_floor q2).
    lia.
Qed.

Lemma py_round_mono (q1 q2 : Q) (n : nat) :
  (q1 <= q2)%Q -> (py_round q1 n <= py_round q2 n)%Q.
Proof.
  intros Hle. unfold py_round. rewrite !Qred_correct.
  set (p := Z.to_pos (10 ^ Z.of_nat n)).
  assert (H : (q1 * inject_Z (Z.pos p) <= q2 * inject_Z (Z.pos p))%Q).
  { apply Qmult_le_compat_r; [exact Hle|]. unfold Qle. cbn. lia. }
  apply round_half_even_mono in H.
  unfold Qle. cbn [Qnum Qden]. nia.
Qed.

Lemma Qred_whole (z : Z) : Qred (z # 1) = inject_Z z.
Proof.
  unfold Qred.
  pose proof (Z.ggcd_gcd z 1) as Hg.
  pose proof (Z.ggcd_correct_divisors z 1) as Hd.
  destruct (Z.ggcd z 1) as [g [a b]]. cbn [fst snd] in *.
  rewrite Z.gcd_1_r in Hg. subst g. destruct Hd as [Ha Hb].
  rewrite Z.mul_1_l in Ha, Hb. subst a b. reflexivity.
Qed.

Lemma py_round_0_whole (q : Q) : exists z, py_round q 0 = inject_Z z.
Proof.
  exists (round_half_even (q * inject_Z 1)). unfold py_round.
  change (Z.to_pos (10 ^ Z.of_nat 0)) with 1%positive.
  apply Qred_whole.
Qed.

Lemma level_measurement_echo (env : environment) (s : state) (d : Q) :
  env_echo env (trace s ++ [EvSleep 0.1; EvSleep 0.00001]) = Ret (Some d) ->
  fst (level_measurement env s)
  = Ret (Some (py_round ((83.0 - py_round (d * 17150) 1) * 46.72) 0)).
Proof.
  intros H. unfold level_measurement, sleep, emit. run_monad.
  rewrite <- !app_assoc. cbn [app]. rewrite H. reflexivity.
Qed.

(** X18.  When the echo answers with a pulse duration, [level_measurement]
    returns a whole number that does not grow with the duration: a
    longer pulse never gives a higher level.  The value is not clamped:
    it is zero or negative once the distance [duration * 17150] reaches
    83, and zero or positive up to there. *)
Theorem X18_level_from_echo (env1 env2 : environment) (s1 s2 : state)
    (d1 d2 : Q) :
  env_echo env1 (trace s1 ++ [EvSleep 0.1; EvSleep 0.00001]) = Ret (Some d1) ->
  env_echo env2 (trace s2 ++ [EvSleep 0.1; EvSleep 0.00001]) = Ret (Some d2) ->
  (d1 <= d2)%Q ->
  exists v1 v2,
    fst (level_measurement env1 s1) = Ret (Some v1) /\
    fst (level_measurement env2 s2) = Ret (Some v2) /\
    (v2 <= v1)%Q /\
    (exists z, v1 = inject_Z z) /\
    (83 <= d1 * 17150 -> v1 <= 0)%Q /\
    (d1 * 17150 <= 83 -> 0 <= v1)%Q.
Proof.
  intros H1 H2 Hle.
  eexists. eexists.
  split; [exact (level_measurement_echo env1 s1 d1 H1)|].
  split; [exact (level_measurement_echo env2 s2 d2 H2)|].
  assert (H83 : (py_round 83 1 == 83)%Q) by (vm_compute; reflexivity).
  assert (H0 : (py_round 0 0 == 0)%Q) by (vm_compute; reflexivity).
  split; [|split; [|split]].
  - apply py_round_mono.
    assert (H : (py_round (d1 * 17150) 1 <= py_round (d2 * 17150) 1)%Q).
    { apply py_round_mono. lra. }
    lra.
  - apply py_round_0_whole.
  - intros Hd. rewrite <- H0. apply py_round_mono.
    pose proof (py_round_mono _ _ 1 Hd) as H. rewrite H83 in H. lra.
  - intros Hd. rewrite <- H0. apply py_round_mono.
    pose proof (py_round_mono _ _ 1 Hd) as H. rewrite H83 in H. lra.
Qed.

Lemma X18_level_from_echo_witness :
  exists v1 v2,
    fst (level_measurement (echo_env (2 # 1000)) (initial_state scenario_cfg))
      = Ret (Some v1) /\
    fst (level_measurement (echo_env (3 # 1000)) (initial_state scenario_cfg))
      = Ret (Some v2) /\
    (v2 <= v1)%Q /\ (0 <= v1)%Q.
Proof.
  destruct (X18_level_from_echo (echo_env (2 # 1000)) (echo_env (3 # 1000))
              (initial_state scenario_cfg) (initial_state scenario_cfg)
              (2 # 1000) (3 # 1000))
    as (v1 & v2 & H1 & H2 & Hle & _ & _ & Hpos).
  - reflexivity.
  - reflexivity.
  - discriminate.
  - exists v1, v2. repeat split; auto. apply Hpos. discriminate.
Defined.

(** ** The pump currents *)

Lemma sample_outcomes_present (P : Q -> Prop) (f : M (option Q)) (n : nat) :
  (forall t y, fst (f t) = Ret (Some y) -> P y) ->
  forall (s s' : state) (raw : list (option Q)),
    sample_outcomes f n s = (map Ret raw, s') ->
    forall y, In y (present raw) -> P y.
Proof.
  intros Hf. induction n as [|n IH]; intros s s' raw H y Hy;
    cbn [sample_outcomes] in H.
  - destruct raw; [destruct Hy | discriminate].
  - pose proof (Hf s) as Hfs.
    destruct (f s) as [[r|e] s1]; cbn [fst] in Hfs.
    + destruct (sample_outcomes f n (snd (sleep 0.1 s1))) as [rest s2] eqn:Hr.
      destruct raw as [|r' raw]; [discriminate|]. cbn [map] in H.
      assert (r' = r) by congruence. assert (rest = map Ret raw) by congruence.
      subst r' rest.
      destruct r as [q|]; cbn [present] in Hy.
      * destruct Hy as [<- | Hy]; [now apply Hfs|].
        exact (IH _ _ _ Hr y Hy).
      * exact (IH _ _ _ Hr y Hy).
    + destruct raw as [|r' raw]; [discriminate|]. discriminate.
Qed.

Lemma Qsum_lower (l : list Q) (a : Q) :
  (forall y, In y l -> (a <= y)%Q) ->
  (a * inject_Z (Z.of_nat (length l)) <= Qsum l)%Q.
Proof.
  induction l as [|y l IH]; intros H.
  - unfold Qsum, Qle. cbn. lia.
  - cbn [length Qsum fold_right]. fold (Qsum l).
    rewrite Nat2Z.inj_succ, <- Z.add_1_r, inject_Z_plus.
    change (inject_Z 1) with 1%Q.
    pose proof (H y (or_introl eq_refl)) as Hy.
    assert (I1 : (a * inject_Z (Z.of_nat (length l)) <= Qsum l)%Q).
    { apply IH. intros z Hz. apply H. now right. }
    set (n := inject_Z (Z.of_nat (length l))) in *. clearbody n. lra.
Qed.

Lemma statistics_mean_lower (l : list Q) (a mean : Q) :
  (forall y, In y l -> (a <= y)%Q) ->
  statistics_mean l = Ret mean ->
  (a <= mean)%Q.
Proof.
  intros H Hm. destruct l as [|y l]; [discriminate|].
  cbn [statistics_mean] in Hm. injection Hm as <-.
  pose proof (Qsum_lower (y :: l) a H) as H1.
  assert (Hn : (0 < inject_Z (Z.of_nat (length (y :: l))))%Q).
  { change 0%Q with (inject_Z 0). rewrite <- Zlt_Qlt. cbn [length]. lia. }
  now apply Qle_shift_div_l.
Qed.

(** The value of a batch is the rounded mean of readings the capability
    returned. *)
Lemma get_filtered_sample_lower (f : M (option Q)) (N D : Z) (s : state)
    (a x : Q) :
  (forall t y, fst (f t) = Ret (Some y) -> (a <= y)%Q) ->
  fst (get_filtered_sample f N D s) = Ret (Some x) ->
  (py_round a 2 <= x)%Q.
Proof.
  intros Hf Hx.
  destruct (sample_outcomes f (Z.to_nat N) s) as [outs s'] eqn:Hs.
  destruct (sample_outcomes_shape f (Z.to_nat N) s) as [(raw & H) | (raw & e & H)];
    rewrite Hs in H; cbn [fst] in H; subst outs.
  2:{ rewrite (get_filtered_sample_raise f N D s s' raw e Hs) in Hx.
      discriminate. }
  pose proof (sample_outcomes_present (fun y => (a <= y)%Q) f _ Hf s s' raw Hs)
    as Hraw.
  rewrite (get_filtered_sample_all f N D s s' raw Hs) in Hx. cbn [fst] in Hx.
  destruct (_ <? _); [discriminate|].
  match type of Hx with context [statistics_mean ?v] =>
    set (vs := v) in *
  end.
  assert (Hv : forall y, In y vs -> (a <= y)%Q).
  { intros y Hy. apply Hraw. subst vs.
    apply (Permutation_in y (Permutation_sym (list_sort_perm (present raw)))).
    destruct (D >? 0); [now apply In_py_slice in Hy | exact Hy]. }
  clearbody vs.
  destruct (statistics_mean vs) as [mean|e] eqn:Hm; [|discriminate].
  assert (x = py_round mean 2) by congruence. subst x.
  apply py_round_mono. exact (statistics_mean_lower vs a mean Hv Hm).
Qed.

Lemma rpump_measurement_nonneg (env : environment) (t : state) (y : Q) :
  fst (rpump_measurement env t) = Ret (Some y) -> (0 <= y)%Q.
Proof.
  unfold rpump_measurement, read_voltage. run_monad.
  destruct (env_voltage env (trace t) 2) as [q|e]; cbn [fst];
    intros H; [|discriminate].
  assert (Hy : y = py_round (Qabs (py_round q 2 - 2.57) * 6000) 0)
    by congruence.
  subst y. apply Qle_trans with (py_round 0 0); [vm_compute; discriminate|].
  apply py_round_mono.
  pose proof (Qabs_nonneg (py_round q 2 - 2.57)) as Ha.
  set (x := Qabs _) in *. clearbody x. lra.
Qed.

Lemma dpump_measurement_nonneg (env : environment) (t : state) (y : Q) :
  fst (dpump_measurement env t) = Ret (Some y) -> (0 <= y)%Q.
Proof.
  unfold dpump_measurement, read_voltage. run_monad.
  destruct (env_voltage env (trace t) 3) as [q|e]; cbn [fst];
    intros H; [|discriminate].
  assert (Hy : y = py_round (Qabs (py_round q 2 - 2.56) * 4000) 0)
    by congruence.
  subst y. apply Qle_trans with (py_round 0 0); [vm_compute; discriminate|].
  apply py_round_mono.
  pose proof (Qabs_nonneg (py_round q 2 - 2.56)) as Ha.
  set (x := Qabs _) in *. clearbody x. lra.
Qed.

(** What a filtered measurement stores, when it stores a value. *)
Lemma measure_filtered_stored (cfg : config) (f : M (option Q))
    (upd : option pynum -> SensorData -> SensorData)
    (proj : SensorData -> option pynum) (s : state) (v : pynum) :
  (forall w d, proj (upd w d) = w) ->
  proj (sensor_data
          (snd ((r <- get_filtered_sample f (SAMPLE_COUNT cfg)
                        (DISCARD_COUNT cfg);;
                 store upd (PyFloat <$> r)) s))) = Some v ->
  exists q,
    v = PyFloat q /\
    fst (get_filtered_sample f (SAMPLE_COUNT cfg) (DISCARD_COUNT cfg) s)
    = Ret (Some q).
Proof.
  intros Hproj.
  assert (Hr : returns (get_filtered_sample f (SAMPLE_COUNT cfg)
                          (DISCARD_COUNT cfg))).
  { apply returns_try_except. intros _. apply returns_ret. }
  destruct (Hr s) as [r Hrs]. unfold bind.
  destruct (get_filtered_sample f (SAMPLE_COUNT cfg) (DISCARD_COUNT cfg) s)
    as [[r'|e] s1]; cbn [fst] in Hrs; [|discriminate].
  assert (r' = r) by congruence. subst r'.
  unfold store. run_monad. rewrite Hproj.
  destruct r as [q|]; cbn; intros Hv; [|discriminate].
  exists q. split; [congruence | reflexivity].
Qed.

(** X19.  A pump current that [measure_rpump] or [measure_dpump] stores
    is never negative, whatever the converter answers: the calibration
    takes an absolute value, and neither the rounding nor the trimmed
    mean can take a batch of such readings below zero. *)
Theorem X19_pump_current_not_negative (cfg : config) (env : environment)
    (s : state) :
  (forall v,
     recirc_pump (sensor_data (snd (measure_rpump cfg env s))) = Some v ->
     exists q, v = PyFloat q /\ (0 <= q)%Q) /\
  (forall v,
     dispense_pump (sensor_data (snd (measure_dpump cfg env s))) = Some v ->
     exists q, v = PyFloat q /\ (0 <= q)%Q).
Proof.
  split; intros v Hv.
  - destruct (measure_filtered_stored cfg (rpump_measurement env)
                with_recirc_pump recirc_pump s v (fun _ _ => eq_refl) Hv)
      as (q & -> & Hq).
    exists q. split; [reflexivity|].
    apply Qle_trans with (py_round 0 2); [vm_compute; discriminate|].
    exact (get_filtered_sample_lower _ _ _ s 0 q
             (rpump_measurement_nonneg env) Hq).
  - destruct (measure_filtered_stored cfg (dpump_measurement env)
                with_dispense_pump dispense_pump s v (fun _ _ => eq_refl) Hv)
      as (q & -> & Hq).
    exists q. split; [reflexivity|].
    apply Qle_trans with (py_round 0 2); [vm_compute; discriminate|].
    exact (get_filtered_sample_lower _ _ _ s 0 q
             (dpump_measurement_nonneg env) Hq).
Qed.
